(** * BQ25790 battery monitor: driver and REST service

    A shallow embedding of [bq25790_driver.py] (class [BQ25790]) and of
    [monitor.py] (the Flask handlers with their module globals), together
    with the properties of the register decoding, of the capture sequence
    and of the cache that the service relies on.

    Conventions of the embedding:
    - Python [int] is [Z]; Python [float] is a primitive binary64 [float],
      so every decoded value is the very double CPython computes;
    - the I2C bus, the wall clock and [time.sleep] are the outside world:
      an oracle [Hardware] answers each call, and every call is logged;
    - a Python exception is the [Raise] result of a state-and-error monad,
      carrying [str(e)]. *)

From Stdlib Require Import ZArith List String Bool Lia.
From Stdlib Require Import Floats.PrimFloat Floats.FloatOps Floats.SpecFloat.
From Stdlib Require Import Floats.FloatAxioms.
From Stdlib Require Import Numbers.Cyclic.Int63.Uint63.
Import ListNotations.

Set Warnings "-inexact-float".

Local Open Scope string_scope.
Local Open Scope list_scope.
Local Open Scope Z_scope.

(* ================================================================= *)
(** ** Python numbers *)

Module PyFloat.

(** [float(z)] for an integer the driver can hold (|z| < 2^63). *)
Definition of_Z (z : Z) : float :=
  if z <? 0 then PrimFloat.opp (PrimFloat.of_uint63 (Uint63.of_Z (- z)))
  else PrimFloat.of_uint63 (Uint63.of_Z z).

(** Nearest integer to [num / 2^k] ([num >= 0], [k >= 1]), ties to even. *)
Definition shift_half_even (num k : Z) : Z :=
  let q := Z.shiftr num k in
  let r := num - Z.shiftl q k in
  let half := Z.shiftl 1 (k - 1) in
  if r <? half then q
  else if half <? r then q + 1
  else if Z.even q then q else q + 1.

(** CPython's builtin [round(x, ndigits)] on a float, [ndigits >= 0]:
    the exact binary value of [x], which is [m * 2^e], is rounded to
    [ndigits] decimals (ties to even) and the decimal is converted back
    to the nearest double.  The conversion back is done by one IEEE
    division, which is correctly rounded as long as the scaled integer is
    below 2^53: that covers every value this program rounds.  NaN,
    infinities and zeros are returned unchanged. *)
Definition round (x : float) (ndigits : Z) : float :=
  match Prim2SF x with
  | S754_finite s m e =>
      let scaled := Z.pos m * 10 ^ ndigits in
      let n := if 0 <=? e then Z.shiftl scaled e
               else shift_half_even scaled (- e) in
      let r := PrimFloat.div (of_Z n) (of_Z (10 ^ ndigits)) in
      if s then PrimFloat.opp r else r
  | _ => x
  end.

(** Bitwise equality of two doubles, as a boolean. *)
Definition same (x y : float) : bool := PrimFloat.Leibniz.eqb x y.

End PyFloat.

(** [bool(n)] for a Python int. *)
Definition py_bool (n : Z) : bool := negb (n =? 0).

(* ================================================================= *)
(** ** The outside world: bus, clock, sleep *)

(** What a call returns: a value, or a raised exception with its
    message ([str(e)]). *)
Inductive Result (A : Type) : Type :=
| Ok (a : A)
| Raise (e : string).
Arguments Ok {A} a.
Arguments Raise {A} e.

(** Every call that leaves the process, in the order issued. *)
Inductive Event : Type :=
| EvOpen (bus_number : Z)              (* smbus2.SMBus(bus_number) *)
| EvRead (address register : Z)        (* bus.read_byte_data *)
| EvWrite (address register value : Z) (* bus.write_byte_data *)
| EvSleep (seconds : float)            (* time.sleep *)
| EvClock                              (* time.time *)
| EvClose.                             (* bus.close *)

(** The answers of the world.  The first argument is the number of calls
    issued before this one, so that two reads of one register may differ
    and any single call may fail. *)
Record Hardware : Type := {
  hw_open  : nat -> Z -> Result unit;
  hw_read  : nat -> Z -> Z -> Result Z;
  hw_write : nat -> Z -> Z -> Z -> Result unit;
  hw_clock : nat -> float
}.

(** [read_byte_data] yields one byte. *)
Definition byte_bus (hw : Hardware) : Prop :=
  forall n a r v, hw_read hw n a r = Ok v -> 0 <= v < 256.

(** The log of calls, most recent first. *)
Definition Log : Type := list Event.

(** Calls in the order they were issued. *)
Definition history (log : Log) : list Event := rev log.

(* ================================================================= *)
(** ** State and exceptions *)

Definition M (S A : Type) : Type := S -> Result A * S.

Definition ret {S A : Type} (a : A) : M S A := fun s => (Ok a, s).

Definition raise {S A : Type} (e : string) : M S A := fun s => (Raise e, s).

Definition bind {S A B : Type} (m : M S A) (k : A -> M S B) : M S B :=
  fun s =>
    match m s with
    | (Ok a, s') => k a s'
    | (Raise e, s') => (Raise e, s')
    end.

(** [try: m  except Exception as e: h e] *)
Definition try_except {S A : Type} (m : M S A) (h : string -> M S A) : M S A :=
  fun s =>
    match m s with
    | (Ok a, s') => (Ok a, s')
    | (Raise e, s') => h e s'
    end.

Definition get {S : Type} : M S S := fun s => (Ok s, s).

Declare Scope monad_scope.
Delimit Scope monad_scope with monad.
Notation "x <- m ;; k" := (bind m (fun x => k))
  (at level 61, m at next level, right associativity) : monad_scope.
Notation "m ;;; k" := (bind m (fun _ => k))
  (at level 61, right associativity) : monad_scope.
Local Open Scope monad_scope.

(* ================================================================= *)
(** ** bq25790_driver.py *)

Module BQ25790.

(** *** Register map *)
Definition REG_MINIMAL_SYS_VOLTAGE : Z := 0x00.
Definition REG_CHARGE_VOLTAGE_LIMIT : Z := 0x01.
Definition REG_CHARGE_CURRENT_LIMIT : Z := 0x03.
Definition REG_INPUT_VOLTAGE_LIMIT : Z := 0x05.
Definition REG_INPUT_CURRENT_LIMIT : Z := 0x06.
Definition REG_PRECHARGE_CTRL : Z := 0x08.
Definition REG_TERMINATION_CTRL : Z := 0x09.
Definition REG_CHARGER_CTRL_0 : Z := 0x0F.
Definition REG_CHARGER_CTRL_1 : Z := 0x10.
Definition REG_CHARGER_STATUS_0 : Z := 0x1B.
Definition REG_CHARGER_STATUS_1 : Z := 0x1C.
Definition REG_CHARGER_STATUS_2 : Z := 0x1D.
Definition REG_CHARGER_STATUS_3 : Z := 0x1E.
Definition REG_CHARGER_STATUS_4 : Z := 0x1F.
Definition REG_FAULT_STATUS_0 : Z := 0x20.
Definition REG_FAULT_STATUS_1 : Z := 0x21.
Definition REG_CHARGER_FLAG_0 : Z := 0x22.
Definition REG_CHARGER_FLAG_1 : Z := 0x23.
Definition REG_ADC_CTRL : Z := 0x25.
Definition REG_ADC_FUNCTION_DISABLE_0 : Z := 0x26.
Definition REG_IBUS_ADC : Z := 0x27.
Definition REG_IBAT_ADC : Z := 0x29.
Definition REG_VBUS_ADC : Z := 0x2B.
Definition REG_VAC1_ADC : Z := 0x2D.
Definition REG_VAC2_ADC : Z := 0x2F.
Definition REG_VBAT_ADC : Z := 0x31.
Definition REG_VSYS_ADC : Z := 0x33.
Definition REG_TS_ADC : Z := 0x35.
Definition REG_TDIE_ADC : Z := 0x37.
Definition REG_PART_INFO : Z := 0x38.

(** *** The object: [self.bus_number], [self.address]; [self.bus] is the
    handle on the world's bus. *)
Record t : Type := {
  bus_number : Z;
  address : Z
}.

(** *** Results *)
Record ChargerStatus : Type := {
  charging : bool;
  charge_status : string;
  vbus_present : bool;
  vbus_status : string;
  battery_present : bool;
  power_good : bool
}.

Record FaultStatus : Type := {
  vac1_ovp : bool;
  vac2_ovp : bool;
  conv_ocp : bool;
  ibat_reg : bool;
  ibus_reg : bool;
  vbat_ovp : bool;
  vbus_ovp : bool;
  vsys_ovp : bool;
  tshut : bool;
  bat_temp_fault : bool
}.

Record Battery : Type := {
  battery_voltage : float;
  battery_current : float;
  battery_power : float
}.

Record System : Type := {
  system_voltage : float;
  system_temperature : float
}.

Record Input : Type := {
  input_voltage : float;
  input_current : float;
  input_power : float
}.

Record AllData : Type := {
  battery : Battery;
  system : System;
  input : Input;
  status : ChargerStatus;
  faults : FaultStatus;
  timestamp : float
}.

(** [d.get(key, default)] on a dict literal with int keys. *)
Fixpoint dict_get (d : list (Z * string)) (key : Z) (default : string) : string :=
  match d with
  | [] => default
  | (k, v) :: d' => if k =? key then v else dict_get d' key default
  end.

Definition charge_status_names : list (Z * string) :=
  [ (0, "Not Charging");
    (1, "Trickle Charge");
    (2, "Pre-charge");
    (3, "Fast Charge (CC)");
    (4, "Taper Charge (CV)");
    (5, "Reserved");
    (6, "Top-off Timer");
    (7, "Charge Termination Done") ].

Definition vbus_status_names : list (Z * string) :=
  [ (0, "No Input");
    (1, "USB SDP (500mA)");
    (2, "USB CDP (1.5A)");
    (3, "USB DCP (3A)");
    (4, "Adjustable HV DCP");
    (5, "Unknown Adapter");
    (6, "Non-Standard Adapter");
    (7, "OTG") ].

Section Methods.

Variable hw : Hardware.

(** *** Calls into the world *)

Definition smbus_open (bus : Z) : M Log unit :=
  fun log => (hw_open hw (List.length log) bus, EvOpen bus :: log).

Definition read_byte_data (addr reg : Z) : M Log Z :=
  fun log => (hw_read hw (List.length log) addr reg, EvRead addr reg :: log).

Definition write_byte_data (addr reg value : Z) : M Log unit :=
  fun log => (hw_write hw (List.length log) addr reg value,
              EvWrite addr reg value :: log).

Definition time_sleep (seconds : float) : M Log unit :=
  fun log => (Ok tt, EvSleep seconds :: log).

Definition time_time : M Log float :=
  fun log => (Ok (hw_clock hw (List.length log)), EvClock :: log).

(** *** Methods *)

Definition init (bus_number address : Z) : M Log t :=
  smbus_open bus_number ;;;
  ret {| bus_number := bus_number; address := address |}.

Definition read_register (self : t) (register : Z) : M Log Z :=
  read_byte_data (address self) register.

Definition read_register_16bit (self : t) (register : Z) : M Log Z :=
  msb <- read_byte_data (address self) register ;;
  lsb <- read_byte_data (address self) (register + 1) ;;
  ret (Z.lor (Z.shiftl msb 8) lsb).

Definition write_register (self : t) (register value : Z) : M Log unit :=
  write_byte_data (address self) register value.

Definition enable_adc (self : t) : M Log unit :=
  write_register self REG_ADC_CTRL 0x80 ;;;
  time_sleep 0.1%float.

Definition get_battery_voltage (self : t) : M Log float :=
  raw <- read_register_16bit self REG_VBAT_ADC ;;
  ret (PyFloat.of_Z raw / 1000)%float.

Definition get_battery_current (self : t) : M Log float :=
  raw <- read_register_16bit self REG_IBAT_ADC ;;
  let raw := if raw >? 32767 then raw - 65536 else raw in
  ret (PyFloat.of_Z raw / 1000)%float.

Definition get_system_voltage (self : t) : M Log float :=
  raw <- read_register_16bit self REG_VSYS_ADC ;;
  ret (PyFloat.of_Z raw / 1000)%float.

Definition get_bus_voltage (self : t) : M Log float :=
  raw <- read_register_16bit self REG_VBUS_ADC ;;
  ret (PyFloat.of_Z raw / 1000)%float.

Definition get_bus_current (self : t) : M Log float :=
  raw <- read_register_16bit self REG_IBUS_ADC ;;
  ret (PyFloat.of_Z raw / 1000)%float.

Definition get_die_temperature (self : t) : M Log float :=
  raw <- read_register_16bit self REG_TDIE_ADC ;;
  ret (PyFloat.of_Z raw * 0.5 - 40)%float.

Definition get_charger_status (self : t) : M Log ChargerStatus :=
  status0 <- read_register self REG_CHARGER_STATUS_0 ;;
  status1 <- read_register self REG_CHARGER_STATUS_1 ;;
  status2 <- read_register self REG_CHARGER_STATUS_2 ;;
  let charge_status := Z.land (Z.shiftr status1 5) 0x07 in
  let charge_status_str :=
    dict_get charge_status_names charge_status "Unknown" in
  let vbus_status := Z.land (Z.shiftr status0 5) 0x07 in
  let vbus_status_str :=
    dict_get vbus_status_names vbus_status "Unknown" in
  ret {| charging := py_bool (Z.land status1 0x10);
         charge_status := charge_status_str;
         vbus_present := py_bool (Z.land status0 0x80);
         vbus_status := vbus_status_str;
         battery_present := negb (py_bool (Z.land status2 0x08));
         power_good := py_bool (Z.land status0 0x04) |}.

Definition get_fault_status (self : t) : M Log FaultStatus :=
  fault0 <- read_register self REG_FAULT_STATUS_0 ;;
  fault1 <- read_register self REG_FAULT_STATUS_1 ;;
  ret {| vac1_ovp := py_bool (Z.land fault0 0x80);
         vac2_ovp := py_bool (Z.land fault0 0x40);
         conv_ocp := py_bool (Z.land fault0 0x20);
         ibat_reg := py_bool (Z.land fault0 0x10);
         ibus_reg := py_bool (Z.land fault0 0x08);
         vbat_ovp := py_bool (Z.land fault0 0x04);
         vbus_ovp := py_bool (Z.land fault0 0x02);
         vsys_ovp := py_bool (Z.land fault1 0x80);
         tshut := py_bool (Z.land fault1 0x40);
         bat_temp_fault := py_bool (Z.land fault1 0x08) |}.

(** The dict display is evaluated entry by entry, left to right, and
    each product left operand first: that fixes the order of the
    reads. *)
Definition get_all_data (self : t) : M Log AllData :=
  enable_adc self ;;;
  b_v <- get_battery_voltage self ;;
  b_c <- get_battery_current self ;;
  b_pv <- get_battery_voltage self ;;
  b_pc <- get_battery_current self ;;
  s_v <- get_system_voltage self ;;
  s_t <- get_die_temperature self ;;
  i_v <- get_bus_voltage self ;;
  i_c <- get_bus_current self ;;
  i_pv <- get_bus_voltage self ;;
  i_pc <- get_bus_current self ;;
  st <- get_charger_status self ;;
  fl <- get_fault_status self ;;
  now <- time_time ;;
  ret {| battery := {| battery_voltage := PyFloat.round b_v 3;
                       battery_current := PyFloat.round b_c 3;
                       battery_power := PyFloat.round (b_pv * b_pc)%float 3 |};
         system := {| system_voltage := PyFloat.round s_v 3;
                      system_temperature := PyFloat.round s_t 1 |};
         input := {| input_voltage := PyFloat.round i_v 3;
                     input_current := PyFloat.round i_c 3;
                     input_power := PyFloat.round (i_pv * i_pc)%float 3 |};
         status := st;
         faults := fl;
         timestamp := now |}.

Definition close (self : t) : M Log unit :=
  fun log => (Ok tt, EvClose :: log).

End Methods.

End BQ25790.

(* ================================================================= *)
(** ** monitor.py *)

Module Monitor.

Import BQ25790.

(** The module global [cache]: a dict that is either empty or holds the
    keys ['data'] and ['timestamp']. *)
Record Cache : Type := {
  cache_data : option AllData;
  cache_timestamp : option float
}.

Definition empty_cache : Cache :=
  {| cache_data := None; cache_timestamp := None |}.

Definition cache_timeout : float := 1.0%float.

(** The module globals and the world they talk to.  [bq_lock] is left
    to the concurrent semantics below: a handler that runs alone finds
    it free and leaves it free on both exits of its [with] block. *)
Record Service : Type := {
  bq_instance : option BQ25790.t;
  last_error : option string;
  cache : Cache;
  log : Log
}.

Definition startup : Service :=
  {| bq_instance := None; last_error := None; cache := empty_cache; log := [] |}.

Definition set_bq_instance (v : option BQ25790.t) (s : Service) : Service :=
  {| bq_instance := v; last_error := last_error s;
     cache := cache s; log := log s |}.
Definition set_last_error (v : option string) (s : Service) : Service :=
  {| bq_instance := bq_instance s; last_error := v;
     cache := cache s; log := log s |}.
Definition set_cache (v : Cache) (s : Service) : Service :=
  {| bq_instance := bq_instance s; last_error := last_error s;
     cache := v; log := log s |}.
Definition set_log (v : Log) (s : Service) : Service :=
  {| bq_instance := bq_instance s; last_error := last_error s;
     cache := cache s; log := v |}.

Definition modify (f : Service -> Service) : M Service unit :=
  fun s => (Ok tt, f s).

(** A driver call made from a handler. *)
Definition lift {A : Type} (m : M Log A) : M Service A :=
  fun s => let (r, l) := m (log s) in (r, set_log l s).

(** The JSON bodies the handlers build. *)
Inductive Body : Type :=
| BHealthy                                 (* status, service, i2c_address *)
| BUnhealthy (error : string)
| BAllData (data : AllData)
| BReadFailed (details : string)           (* "Failed to read battery data" *)
| BError (error : string)
| BVoltage (voltage : float)
| BCurrent (current : float)
| BStatus (status : ChargerStatus)
| BTemperature (temperature : float)
| BFaults (faults : FaultStatus) (active_count : Z) (active_faults : list string).

Record Response : Type := {
  body : Body;
  code : Z
}.

Definition jsonify (b : Body) (c : Z) : Response := {| body := b; code := c |}.

(** ['data' in cache and (now - cache.get('timestamp', 0)) < cache_timeout] *)
Definition cache_fresh (c : Cache) (now : float) : bool :=
  match cache_data c with
  | Some _ =>
      let ts := match cache_timestamp c with Some t => t | None => 0%float end in
      PrimFloat.ltb (now - ts)%float cache_timeout
  | None => false
  end.

(** [faults.items()], in insertion order. *)
Definition fault_items (f : FaultStatus) : list (string * bool) :=
  [ ("vac1_ovp", vac1_ovp f); ("vac2_ovp", vac2_ovp f);
    ("conv_ocp", conv_ocp f); ("ibat_reg", ibat_reg f);
    ("ibus_reg", ibus_reg f); ("vbat_ovp", vbat_ovp f);
    ("vbus_ovp", vbus_ovp f); ("vsys_ovp", vsys_ovp f);
    ("tshut", tshut f); ("bat_temp_fault", bat_temp_fault f) ].

Section Handlers.

Variable hw : Hardware.

Definition get_bq_instance : M Service BQ25790.t :=
  s <- get ;;
  match bq_instance s with
  | Some bq => ret bq
  | None =>
      try_except
        (bq <- lift (BQ25790.init hw 1 0x6B) ;;
         modify (set_bq_instance (Some bq)) ;;;
         modify (set_last_error None) ;;;
         ret bq)
        (fun e =>
           modify (set_last_error (Some e)) ;;;
           raise e)
  end.

Definition health : M Service Response :=
  try_except
    (get_bq_instance ;;;
     ret (jsonify BHealthy 200))
    (fun e => ret (jsonify (BUnhealthy e) 503)).

(** The part of [get_battery_info] after the cache check. *)
Definition refresh (now : float) : M Service Response :=
  try_except
    (bq <- get_bq_instance ;;
     data <- lift (BQ25790.get_all_data hw bq) ;;
     modify (set_cache {| cache_data := Some data;
                          cache_timestamp := Some now |}) ;;;
     ret (jsonify (BAllData data) 200))
    (fun e => ret (jsonify (BReadFailed e) 500)).

Definition get_battery_info : M Service Response :=
  now <- lift (time_time hw) ;;
  s <- get ;;
  if cache_fresh (cache s) now then
    match cache_data (cache s) with
    | Some data => ret (jsonify (BAllData data) 200)
    | None => raise "KeyError: 'data'"
    end
  else refresh now.

Definition get_voltage : M Service Response :=
  try_except
    (bq <- get_bq_instance ;;
     voltage <- lift (BQ25790.get_battery_voltage hw bq) ;;
     ret (jsonify (BVoltage (PyFloat.round voltage 3)) 200))
    (fun e => ret (jsonify (BError e) 500)).

Definition get_current : M Service Response :=
  try_except
    (bq <- get_bq_instance ;;
     current <- lift (BQ25790.get_battery_current hw bq) ;;
     ret (jsonify (BCurrent (PyFloat.round current 3)) 200))
    (fun e => ret (jsonify (BError e) 500)).

Definition get_status : M Service Response :=
  try_except
    (bq <- get_bq_instance ;;
     status <- lift (BQ25790.get_charger_status hw bq) ;;
     ret (jsonify (BStatus status) 200))
    (fun e => ret (jsonify (BError e) 500)).

Definition get_temperature : M Service Response :=
  try_except
    (bq <- get_bq_instance ;;
     temp <- lift (BQ25790.get_die_temperature hw bq) ;;
     ret (jsonify (BTemperature (PyFloat.round temp 1)) 200))
    (fun e => ret (jsonify (BError e) 500)).

Definition get_faults : M Service Response :=
  try_except
    (bq <- get_bq_instance ;;
     faults <- lift (BQ25790.get_fault_status hw bq) ;;
     let active_faults :=
       map fst (filter (fun kv => snd kv) (fault_items faults)) in
     ret (jsonify (BFaults faults (Z.of_nat (List.length active_faults))
                           active_faults) 200))
    (fun e => ret (jsonify (BError e) 500)).

(** *** Concurrent requests to [/battery]

    Each request runs [get_battery_info] in a thread of its own.  A
    thread is at one of the points below; one step of one thread is
    atomic, and steps of different threads interleave freely.  The
    bus is touched only between acquiring and releasing [bq_lock]. *)
Inductive Pc : Type :=
| AtEntry                                (* handler not started *)
| AtLock (now : float)                   (* cache stale; at [with bq_lock] *)
| InLock (now : float)                   (* lock held; before get_bq_instance *)
| InCapture (now : float) (bq : BQ25790.t) (* lock held; get_all_data in flight *)
| AtPublish (now : float) (data : AllData) (* lock released; before [cache = ...] *)
| Finished (r : Response).

Record Sys : Type := {
  globals : Service;
  bq_lock : bool;
  threads : list Pc
}.

Fixpoint set_nth {A : Type} (i : nat) (x : A) (l : list A) : list A :=
  match l, i with
  | [], _ => []
  | _ :: l', O => x :: l'
  | y :: l', S i' => y :: set_nth i' x l'
  end.

Definition at_pc (sys : Sys) (i : nat) (g : Service) (lk : bool) (pc : Pc) : Sys :=
  {| globals := g; bq_lock := lk; threads := set_nth i pc (threads sys) |}.

(** One step of thread [i]; [None] when it cannot move (it waits for
    the lock, has finished, or does not exist). *)
Definition step (i : nat) (sys : Sys) : option Sys :=
  match nth_error (threads sys) i with
  | None => None
  | Some AtEntry =>
      match lift (time_time hw) (globals sys) with
      | (Ok now, g) =>
          if cache_fresh (cache g) now then
            match cache_data (cache g) with
            | Some data =>
                Some (at_pc sys i g (bq_lock sys)
                            (Finished (jsonify (BAllData data) 200)))
            | None => None
            end
          else Some (at_pc sys i g (bq_lock sys) (AtLock now))
      | (Raise _, _) => None
      end
  | Some (AtLock now) =>
      if bq_lock sys then None
      else Some (at_pc sys i (globals sys) true (InLock now))
  | Some (InLock now) =>
      match get_bq_instance (globals sys) with
      | (Ok bq, g) => Some (at_pc sys i g (bq_lock sys) (InCapture now bq))
      | (Raise e, g) =>
          Some (at_pc sys i g false (Finished (jsonify (BReadFailed e) 500)))
      end
  | Some (InCapture now bq) =>
      match lift (BQ25790.get_all_data hw bq) (globals sys) with
      | (Ok data, g) => Some (at_pc sys i g false (AtPublish now data))
      | (Raise e, g) =>
          Some (at_pc sys i g false (Finished (jsonify (BReadFailed e) 500)))
      end
  | Some (AtPublish now data) =>
      Some (at_pc sys i
                  (set_cache {| cache_data := Some data;
                                cache_timestamp := Some now |} (globals sys))
                  (bq_lock sys)
                  (Finished (jsonify (BAllData data) 200)))
  | Some (Finished _) => None
  end.

(** A schedule names the thread that moves at each step. *)
Fixpoint run (schedule : list nat) (sys : Sys) : option Sys :=
  match schedule with
  | [] => Some sys
  | i :: rest =>
      match step i sys with
      | Some sys' => run rest sys'
      | None => None
      end
  end.

(** [n] requests arrive at a service in state [g]. *)
Definition arrive (g : Service) (n : nat) : Sys :=
  {| globals := g; bq_lock := false; threads := repeat AtEntry n |}.

Inductive reachable (g : Service) (n : nat) : Sys -> Prop :=
| reach_init : reachable g n (arrive g n)
| reach_step : forall sys i sys',
    reachable g n sys -> step i sys = Some sys' -> reachable g n sys'.

Definition holds_lock (pc : Pc) : bool :=
  match pc with
  | InLock _ | InCapture _ _ => true
  | _ => false
  end.

(** 1 when the lock is held, 0 when it is free. *)
Definition weight (b : bool) : nat := if b then 1%nat else 0%nat.

(** Threads between acquiring and releasing [bq_lock]. *)
Definition in_flight (sys : Sys) : nat :=
  List.length (filter holds_lock (threads sys)).

End Handlers.

(** Captures started so far: writes of 0x80 to ADC_CTRL. *)
Definition is_enable (ev : Event) : bool :=
  match ev with
  | EvWrite _ reg value => (reg =? REG_ADC_CTRL) && (value =? 0x80)
  | _ => false
  end.

Definition captures (l : Log) : nat := List.length (filter is_enable l).

(** Calls on the bus (as opposed to clock and sleep). *)
Definition is_bus (ev : Event) : bool :=
  match ev with
  | EvOpen _ | EvRead _ _ | EvWrite _ _ _ | EvClose => true
  | EvSleep _ | EvClock => false
  end.

Definition bus_calls (l : Log) : list Event := filter is_bus l.

End Monitor.

(* ================================================================= *)
(** ** Reference definitions

    Written from the words of the specification, to be compared with the
    code. *)

Module Reference.

(** A 16-bit word read as a two's-complement signed integer: the top
    bit carries weight -2^15. *)
Definition twos_complement16 (raw : Z) : Z :=
  if Z.testbit raw 15 then raw - 2 ^ 16 else raw.

End Reference.

(* ================================================================= *)
(** ** Vocabulary of the statements *)

Module Observed.

Import BQ25790.

(** The 16-bit word the bus delivers for [reg] when the read starts as
    call number [n]: two byte reads, MSB first. *)
Definition word_at (hw : Hardware) (a : Z) (n : nat) (reg : Z) : Result Z :=
  match hw_read hw n a reg with
  | Ok msb =>
      match hw_read hw (Datatypes.S n) a (reg + 1) with
      | Ok lsb => Ok (Z.lor (Z.shiftl msb 8) lsb)
      | Raise e => Raise e
      end
  | Raise e => Raise e
  end.

(** The two byte reads of one 16-bit register. *)
Definition word_reads (a reg : Z) : list Event :=
  [EvRead a reg; EvRead a (reg + 1)].

(** The calls of one capture, in the order [get_all_data] issues them. *)
Definition capture_calls (a : Z) : list Event :=
  [EvWrite a REG_ADC_CTRL 0x80; EvSleep 0.1%float]
    ++ word_reads a REG_VBAT_ADC ++ word_reads a REG_IBAT_ADC
    ++ word_reads a REG_VBAT_ADC ++ word_reads a REG_IBAT_ADC
    ++ word_reads a REG_VSYS_ADC ++ word_reads a REG_TDIE_ADC
    ++ word_reads a REG_VBUS_ADC ++ word_reads a REG_IBUS_ADC
    ++ word_reads a REG_VBUS_ADC ++ word_reads a REG_IBUS_ADC
    ++ [EvRead a REG_CHARGER_STATUS_0; EvRead a REG_CHARGER_STATUS_1;
        EvRead a REG_CHARGER_STATUS_2;
        EvRead a REG_FAULT_STATUS_0; EvRead a REG_FAULT_STATUS_1]
    ++ [EvClock].

(** The order the specification gives: each register once. *)
Definition specified_calls (a : Z) : list Event :=
  [EvWrite a REG_ADC_CTRL 0x80; EvSleep 0.1%float]
    ++ word_reads a REG_VBAT_ADC ++ word_reads a REG_IBAT_ADC
    ++ word_reads a REG_VSYS_ADC ++ word_reads a REG_VBUS_ADC
    ++ word_reads a REG_IBUS_ADC ++ word_reads a REG_TDIE_ADC
    ++ [EvRead a REG_CHARGER_STATUS_0; EvRead a REG_CHARGER_STATUS_1;
        EvRead a REG_CHARGER_STATUS_2;
        EvRead a REG_FAULT_STATUS_0; EvRead a REG_FAULT_STATUS_1]
    ++ [EvClock].

(** How often register [reg] is read in a list of calls. *)
Definition reads_of (reg : Z) (calls : list Event) : nat :=
  List.length (filter (fun ev => match ev with
                                 | EvRead _ r => r =? reg
                                 | _ => false
                                 end) calls).

(** The bus answers a read of a register the same way whenever asked. *)
Definition steady (hw : Hardware) : Prop :=
  forall n m a r, hw_read hw n a r = hw_read hw m a r.

(** In a capture that starts as call number [n], the second read of each
    of VBAT, IBAT, VBUS and IBUS (made for the power products) delivers
    the same word as the first. *)
Definition rereads_agree (hw : Hardware) (a : Z) (n : nat) : Prop :=
  word_at hw a (6 + n) REG_VBAT_ADC = word_at hw a (2 + n) REG_VBAT_ADC /\
  word_at hw a (8 + n) REG_IBAT_ADC = word_at hw a (4 + n) REG_IBAT_ADC /\
  word_at hw a (18 + n) REG_VBUS_ADC = word_at hw a (14 + n) REG_VBUS_ADC /\
  word_at hw a (20 + n) REG_IBUS_ADC = word_at hw a (16 + n) REG_IBUS_ADC.

(** Decoded values, as the getters compute them from a raw word. *)
Definition volts (raw : Z) : float := (PyFloat.of_Z raw / 1000)%float.
Definition amps (raw : Z) : float :=
  (PyFloat.of_Z (if raw >? 32767 then raw - 65536 else raw) / 1000)%float.
Definition celsius (raw : Z) : float := (PyFloat.of_Z raw * 0.5 - 40)%float.

(** [m] issues the calls [calls], in this order, when it returns; when it
    raises it has issued a non-empty initial part of them, the last one
    being the call that failed. *)
Definition issues {A : Type} (m : M Log A) (calls : list Event) : Prop :=
  forall log,
    exists done,
      snd (m log) = rev done ++ log /\
      match fst (m log) with
      | Ok _ => done = calls
      | Raise _ => done <> [] /\ exists rest, calls = done ++ rest
      end.

(** The [n] integers from [z] upwards. *)
Fixpoint words_from (n : nat) (z : Z) : list Z :=
  match n with
  | O => []
  | Datatypes.S n' => z :: words_from n' (z + 1)
  end.

(** [p] holds of every 16-bit word, checked one by one. *)
Definition all_words (p : Z -> bool) : bool :=
  forallb p (words_from (Z.to_nat 65536) 0).

End Observed.

(* ================================================================= *)
(** ** Concrete worlds used in examples *)

Module Bench.

Import BQ25790 Monitor.

(** The default device of the service: bus 1, address 0x6B. *)
Definition bq0 : BQ25790.t := {| bus_number := 1; address := 0x6B |}.

(** Every read answers the byte [v]; the clock stands at [t]. *)
Definition const_hw (v : Z) (t : float) : Hardware :=
  {| hw_open := fun _ _ => Ok tt;
     hw_read := fun _ _ _ => Ok v;
     hw_write := fun _ _ _ _ => Ok tt;
     hw_clock := fun _ => t |}.

(** Register [reg] answers [v], every other register 0. *)
Definition one_reg_hw (reg v : Z) : Hardware :=
  {| hw_open := fun _ _ => Ok tt;
     hw_read := fun _ _ r => Ok (if r =? reg then v else 0);
     hw_write := fun _ _ _ _ => Ok tt;
     hw_clock := fun _ => 0%float |}.

(** The ADC moves during a capture: bytes read 0x10 in the first six
    calls and 0x20 afterwards. *)
Definition drifting_hw : Hardware :=
  {| hw_open := fun _ _ => Ok tt;
     hw_read := fun n _ _ => Ok (if (n <? 6)%nat then 0x10 else 0x20);
     hw_write := fun _ _ _ _ => Ok tt;
     hw_clock := fun _ => 0%float |}.

(** The bus opens, then every transfer fails. *)
Definition dead_hw : Hardware :=
  {| hw_open := fun _ _ => Ok tt;
     hw_read := fun _ _ _ => Raise "[Errno 121] Remote I/O error";
     hw_write := fun _ _ _ _ => Raise "[Errno 121] Remote I/O error";
     hw_clock := fun _ => 0%float |}.

(** A healthy bus whose clock reads 100.0 up to call [a], 100.5 up to
    call [b] and 101.5 afterwards. *)
Definition ticking_hw (a b : nat) : Hardware :=
  {| hw_open := fun _ _ => Ok tt;
     hw_read := fun _ _ _ => Ok 0;
     hw_write := fun _ _ _ _ => Ok tt;
     hw_clock := fun n => if (n <=? a)%nat then 100.0%float
                          else if (n <=? b)%nat then 100.5%float
                          else 101.5%float |}.

(** A bus that works for the first [k] calls and fails afterwards. *)
Definition failing_after_hw (k : nat) (t : float) : Hardware :=
  {| hw_open := fun _ _ => Ok tt;
     hw_read := fun n _ _ => if (n <? k)%nat then Ok 0
                             else Raise "[Errno 121] Remote I/O error";
     hw_write := fun _ _ _ _ => Ok tt;
     hw_clock := fun _ => t |}.

(** The wall clock is set back: it reads 101.5 at the first call and
    100.5 afterwards; the bus opens but every transfer fails. *)
Definition set_back_hw : Hardware :=
  {| hw_open := fun _ _ => Ok tt;
     hw_read := fun _ _ _ => Raise "[Errno 121] Remote I/O error";
     hw_write := fun _ _ _ _ => Raise "[Errno 121] Remote I/O error";
     hw_clock := fun n => if (n <=? 0)%nat then 101.5%float else 100.5%float |}.

(** A healthy idle board whose clock stands at 100.0. *)
Definition idle_board : Hardware := const_hw 0 100.0%float.

(** A healthy board for three requests in a row: the clock reads 100.0
    during the first (calls 0 to 29), 100.5 at the second (call 30) and
    101.5 at the third. *)
Definition three_requests_hw : Hardware := ticking_hw 29 30.

(** A snapshot of an idle board, taken at time 100.0. *)
Definition idle_snapshot : AllData :=
  {| battery := {| battery_voltage := 0; battery_current := 0; battery_power := 0 |};
     system := {| system_voltage := 0; system_temperature := (-40)%float |};
     input := {| input_voltage := 0; input_current := 0; input_power := 0 |};
     status := {| charging := false; charge_status := "Not Charging";
                  vbus_present := false; vbus_status := "No Input";
                  battery_present := true; power_good := false |};
     faults := {| vac1_ovp := false; vac2_ovp := false; conv_ocp := false;
                  ibat_reg := false; ibus_reg := false; vbat_ovp := false;
                  vbus_ovp := false; vsys_ovp := false; tshut := false;
                  bat_temp_fault := false |};
     timestamp := 100.0 |}.

(** The service after one successful request at time 100.0. *)
Definition warm_service : Service :=
  {| bq_instance := Some bq0;
     last_error := None;
     cache := {| cache_data := Some idle_snapshot; cache_timestamp := Some 100.0%float |};
     log := [] |}.

End Bench.

(* ================================================================= *)
(** ** Requests in sequence *)

Module Routes.

Import BQ25790 Monitor.

(** The routes that reach the device.  ([/] answers a constant and
    touches neither the globals nor the bus.) *)
Inductive Request : Type :=
| GetHealth          (* /health *)
| GetBattery         (* /battery *)
| GetVoltage         (* /battery/voltage *)
| GetCurrent         (* /battery/current *)
| GetStatus          (* /battery/status *)
| GetTemperature     (* /battery/temperature *)
| GetFaults.         (* /battery/faults *)

Definition handle (hw : Hardware) (r : Request) : M Service Response :=
  match r with
  | GetHealth => health hw
  | GetBattery => get_battery_info hw
  | GetVoltage => get_voltage hw
  | GetCurrent => get_current hw
  | GetStatus => get_status hw
  | GetTemperature => get_temperature hw
  | GetFaults => get_faults hw
  end.

(** Requests handled one after the other on the same globals. *)
Fixpoint serve (hw : Hardware) (reqs : list Request) (s : Service)
  : list (Result Response) * Service :=
  match reqs with
  | [] => ([], s)
  | r :: rest =>
      let (answer, s1) := handle hw r s in
      let (answers, s2) := serve hw rest s1 in
      (answer :: answers, s2)
  end.

End Routes.

(* ================================================================= *)
(** ** Vocabulary of the further statements *)

Module Contract.

Import BQ25790 Monitor.

(** The bus delivers the two bytes of the word [raw] for [reg], the read
    starting as call number [n]. *)
Definition delivers (hw : Hardware) (a : Z) (n : nat) (reg raw : Z) : Prop :=
  hw_read hw n a reg = Ok (raw / 256) /\
  hw_read hw (Datatypes.S n) a (reg + 1) = Ok (raw mod 256).

(** The byte addresses the driver reads: the two bytes of the five ADC
    words it uses, the three status bytes and the two fault bytes. *)
Definition read_addresses : list Z :=
  [ REG_VBAT_ADC; REG_VBAT_ADC + 1; REG_IBAT_ADC; REG_IBAT_ADC + 1;
    REG_VSYS_ADC; REG_VSYS_ADC + 1; REG_TDIE_ADC; REG_TDIE_ADC + 1;
    REG_VBUS_ADC; REG_VBUS_ADC + 1; REG_IBUS_ADC; REG_IBUS_ADC + 1;
    REG_CHARGER_STATUS_0; REG_CHARGER_STATUS_1; REG_CHARGER_STATUS_2;
    REG_FAULT_STATUS_0; REG_FAULT_STATUS_1 ].

(** The calls the service may issue: open bus 1; read one of the
    addresses above at 0x6B; write 0x80 to ADC_CTRL at 0x6B; sleep
    100 ms; read the clock. *)
Definition permitted (ev : Event) : bool :=
  match ev with
  | EvOpen bus => bus =? 1
  | EvRead a reg => (a =? 0x6B) && existsb (Z.eqb reg) read_addresses
  | EvWrite a reg value => (a =? 0x6B) && (reg =? REG_ADC_CTRL) && (value =? 0x80)
  | EvSleep t => PyFloat.same t 0.1%float
  | EvClock => true
  | EvClose => false
  end.

(** The globals as the handlers keep them: the instance, if any, is the
    device at bus 1, address 0x6B; the cache has both keys or none; only
    permitted calls have been issued. *)
Definition kept (s : Service) : Prop :=
  (bq_instance s = None \/
   bq_instance s = Some {| bus_number := 1; address := 0x6B |}) /\
  (cache_data (cache s) = None <-> cache_timestamp (cache s) = None) /\
  forallb permitted (log s) = true.

(** Handler steps a request at [pc] can still take. *)
Definition steps_left (pc : Pc) : nat :=
  match pc with
  | AtEntry => 5
  | AtLock _ => 4
  | InLock _ => 3
  | InCapture _ _ => 2
  | AtPublish _ _ => 1
  | Finished _ => 0
  end.

(** 1 while the request at [pc] may still make its capture. *)
Definition may_capture (pc : Pc) : nat :=
  match pc with
  | AtEntry | AtLock _ | InLock _ | InCapture _ _ => 1
  | AtPublish _ _ | Finished _ => 0
  end.

Definition total {A : Type} (f : A -> nat) (l : list A) : nat :=
  list_sum (map f l).

Definition is_finished (pc : Pc) : bool :=
  match pc with
  | Finished _ => true
  | _ => false
  end.

Definition is_battery (r : Routes.Request) : bool :=
  match r with
  | Routes.GetBattery => true
  | _ => false
  end.

Definition is_open (ev : Event) : bool :=
  match ev with
  | EvOpen _ => true
  | _ => false
  end.

(** A read, at device address [a], of one of the addresses above. *)
Definition only_reads (a : Z) (ev : Event) : bool :=
  match ev with
  | EvRead a' reg => (a' =? a) && existsb (Z.eqb reg) read_addresses
  | _ => false
  end.

(** The five routes that make one driver call outside any capture. *)
Definition is_reading (r : Routes.Request) : bool :=
  match r with
  | Routes.GetVoltage | Routes.GetCurrent | Routes.GetStatus
  | Routes.GetTemperature | Routes.GetFaults => true
  | Routes.GetHealth | Routes.GetBattery => false
  end.

(** The shape of the single-reading handlers: get the instance, make one
    driver call, wrap the result; any exception becomes the error
    answer. *)
Definition reading_handler {X : Type} (hw : Hardware) (op : BQ25790.t -> M Log X)
           (f : X -> Response) (g : string -> Response) : M Service Response :=
  try_except
    (bind (get_bq_instance hw)
          (fun bq => bind (lift (op bq)) (fun x => ret (f x))))
    (fun e => ret (g e)).

End Contract.

(* ================================================================= *)
(** ** More concrete worlds *)

Module Bench2.

Import BQ25790 Monitor.

(** The bus cannot be opened (device file missing). *)
Definition no_bus_hw : Hardware :=
  {| hw_open := fun _ _ => Raise "[Errno 2] No such file or directory: '/dev/i2c-1'";
     hw_read := fun _ _ _ => Ok 0;
     hw_write := fun _ _ _ _ => Ok tt;
     hw_clock := fun _ => 0%float |}.

(** Status and fault bytes of a board charging from a wall adapter with
    two faults latched; ADC bytes read 0x10. *)
Definition charging_hw : Hardware :=
  {| hw_open := fun _ _ => Ok tt;
     hw_read := fun _ _ reg =>
                  Ok (if reg =? REG_CHARGER_STATUS_0 then 0x84
                      else if reg =? REG_CHARGER_STATUS_1 then 0x70
                      else if reg =? REG_CHARGER_STATUS_2 then 0x00
                      else if reg =? REG_FAULT_STATUS_0 then 0x83
                      else if reg =? REG_FAULT_STATUS_1 then 0x7F
                      else 0x10);
     hw_write := fun _ _ _ _ => Ok tt;
     hw_clock := fun _ => 100.0%float |}.

(** The same faults with the bits the driver does not look at cleared:
    fault0 = 0x82, fault1 = 0x48. *)
Definition masked_faults_hw : Hardware :=
  {| hw_open := fun _ _ => Ok tt;
     hw_read := fun _ _ reg => Ok (if reg =? REG_FAULT_STATUS_0 then 0x82 else 0x48);
     hw_write := fun _ _ _ _ => Ok tt;
     hw_clock := fun _ => 0%float |}.

End Bench2.

(* ================================================================= *)
(** ** [round] agrees with CPython on sample values *)

Example round_half_up_repr : PyFloat.round 0.0005%float 3 = 0.001%float.
Proof. vm_compute. reflexivity. Qed.
Example round_2675 : PyFloat.round 2.675%float 2 = 2.67%float.
Proof. vm_compute. reflexivity. Qed.
Example round_tie_even : PyFloat.round 0.125%float 2 = 0.12%float.
Proof. vm_compute. reflexivity. Qed.
Example round_neg : PyFloat.round (-32.7685)%float 3 = (-32.769)%float.
Proof. vm_compute. reflexivity. Qed.
Example round_big : PyFloat.round 2147.450880%float 3 = 2147.451%float.
Proof. vm_compute. reflexivity. Qed.

(** The shift-based rounding is rounding of the quotient by [2^k] to the
    nearest integer, ties to even. *)
Lemma shift_half_even_quotient (num k : Z) :
  0 <= num -> 1 <= k ->
  PyFloat.shift_half_even num k
  = let q := num / 2 ^ k in
    let r := num mod 2 ^ k in
    if 2 * r <? 2 ^ k then q
    else if 2 ^ k <? 2 * r then q + 1
    else if Z.even q then q else q + 1.
Proof.
  intros Hn Hk. unfold PyFloat.shift_half_even. cbv zeta.
  rewrite Z.shiftr_div_pow2 by lia.
  rewrite !Z.shiftl_mul_pow2 by lia.
  rewrite Z.mul_1_l.
  assert (Hp : 2 ^ k = 2 * 2 ^ (k - 1)).
  { rewrite <- Z.pow_succ_r by lia. f_equal. lia. }
  assert (Hr : num - num / 2 ^ k * 2 ^ k = num mod 2 ^ k).
  { rewrite Z.mod_eq by lia. lia. }
  rewrite Hr.
  set (r := num mod 2 ^ k). set (h := 2 ^ (k - 1)) in *.
  rewrite Hp.
  replace (2 * r <? 2 * h) with (r <? h)
    by (destruct (Z.ltb_spec r h), (Z.ltb_spec (2 * r) (2 * h)); lia).
  replace (2 * h <? 2 * r) with (h <? r)
    by (destruct (Z.ltb_spec h r), (Z.ltb_spec (2 * h) (2 * r)); lia).
  reflexivity.
Qed.

(* ================================================================= *)
(** ** Generalities on the monad *)

Section MonadFacts.

Context {S A B : Type}.

Lemma bind_ok (m : M S A) (k : A -> M S B) (s : S) (b : B) (s' : S) :
  bind m k s = (Ok b, s') ->
  exists a s1, m s = (Ok a, s1) /\ k a s1 = (Ok b, s').
Proof.
  unfold bind. destruct (m s) as [[a | e] s1]; intros H.
  - exists a, s1. split; [reflexivity | exact H].
  - discriminate H.
Qed.

Lemma bind_step (m : M S A) (k : A -> M S B) (s : S) (a : A) (s1 : S) :
  m s = (Ok a, s1) -> bind m k s = k a s1.
Proof. intros H. unfold bind. rewrite H. reflexivity. Qed.

End MonadFacts.

(* ================================================================= *)
(** ** Bit-level facts *)

Lemma py_bool_mask (x : Z) (k : Z) :
  0 <= k -> py_bool (Z.land x (2 ^ k)) = Z.testbit x k.
Proof.
  intros Hk. unfold py_bool.
  destruct (Z.testbit x k) eqn:Hb.
  - apply negb_true_iff, Z.eqb_neq. intros H0.
    assert (Ht : Z.testbit (Z.land x (2 ^ k)) k = true).
    { rewrite Z.land_spec, Hb, Z.pow2_bits_true by exact Hk. reflexivity. }
    rewrite H0, Z.bits_0 in Ht. discriminate Ht.
  - apply negb_false_iff, Z.eqb_eq, Z.bits_inj'. intros n Hn.
    rewrite Z.land_spec, Z.bits_0, Z.pow2_bits_eqb by exact Hk.
    destruct (Z.eqb_spec k n) as [-> | _].
    + rewrite Hb. reflexivity.
    + apply andb_false_r.
Qed.

(** Two bytes read MSB first rebuild the 16-bit word. *)
Lemma word_of_bytes (raw : Z) :
  0 <= raw -> Z.lor (Z.shiftl (raw / 256) 8) (raw mod 256) = raw.
Proof.
  intros Hraw. apply Z.bits_inj'. intros n Hn.
  rewrite Z.lor_spec.
  change 256 with (2 ^ 8).
  destruct (Z.ltb_spec n 8) as [Hlt | Hge].
  - rewrite Z.shiftl_spec_low by lia.
    rewrite Z.mod_pow2_bits_low by lia. reflexivity.
  - rewrite Z.shiftl_spec by lia.
    rewrite Z.mod_pow2_bits_high by lia.
    rewrite Z.div_pow2_bits by lia.
    rewrite orb_false_r. f_equal. lia.
Qed.

Lemma word_range (msb lsb : Z) :
  0 <= msb < 256 -> 0 <= lsb < 256 ->
  0 <= Z.lor (Z.shiftl msb 8) lsb < 65536.
Proof.
  intros Hm Hl.
  assert (Hnn : 0 <= Z.lor (Z.shiftl msb 8) lsb).
  { apply Z.lor_nonneg. split; [apply Z.shiftl_nonneg|]; lia. }
  split; [exact Hnn|].
  destruct (Z.eq_dec (Z.lor (Z.shiftl msb 8) lsb) 0) as [-> | Hnz]; [lia|].
  change 65536 with (2 ^ 16).
  apply Z.log2_lt_pow2; [lia|].
  rewrite Z.log2_lor by (try apply Z.shiftl_nonneg; lia).
  apply Z.max_lub_lt.
  - destruct (Z.eq_dec msb 0) as [-> | Hm0]; [rewrite Z.shiftl_0_l; simpl; lia|].
    rewrite Z.log2_shiftl by lia.
    assert (Z.log2 msb < 8) by (apply Z.log2_lt_pow2; lia). lia.
  - destruct (Z.eq_dec lsb 0) as [-> | Hl0]; [simpl; lia|].
    assert (Z.log2 lsb < 8) by (apply Z.log2_lt_pow2; lia). lia.
Qed.

(* ================================================================= *)
(** ** Register reads *)

Section DriverFacts.

Import BQ25790.

Variable hw : Hardware.
Variable self : BQ25790.t.

Lemma read_register_ok (reg : Z) (log log' : Log) (v : Z) :
  read_register hw self reg log = (Ok v, log') ->
  hw_read hw (List.length log) (address self) reg = Ok v /\
  log' = EvRead (address self) reg :: log.
Proof.
  unfold read_register, read_byte_data. intros H.
  injection H as Hv Hl. split; [exact Hv | symmetry; exact Hl].
Qed.

(** When the bus delivers the two bytes of [raw], the word read is [raw]. *)
Lemma read_register_16bit_word (reg : Z) (log : Log) (raw : Z) :
  0 <= raw ->
  hw_read hw (List.length log) (address self) reg = Ok (raw / 256) ->
  hw_read hw (Datatypes.S (List.length log)) (address self) (reg + 1)
    = Ok (raw mod 256) ->
  read_register_16bit hw self reg log
    = (Ok raw, EvRead (address self) (reg + 1) :: EvRead (address self) reg :: log).
Proof.
  intros Hraw Hm Hl.
  unfold read_register_16bit, bind, read_byte_data, ret.
  rewrite Hm. cbn [List.length]. rewrite Hl.
  rewrite word_of_bytes by exact Hraw. reflexivity.
Qed.

End DriverFacts.

(* ================================================================= *)
(** ** Decoding of the status and fault registers *)

Section Decoding.

Import BQ25790.

(** A three-bit field always names one of the eight table entries. *)
Lemma three_bits (x : Z) : 0 <= Z.land x 0x07 < 8.
Proof.
  change 0x07 with (Z.ones 3). rewrite Z.land_ones by lia.
  change (2 ^ 3) with 8. apply Z.mod_pos_bound. lia.
Qed.

Lemma charge_status_named (k : Z) :
  0 <= k < 8 ->
  In (dict_get charge_status_names k "Unknown") (map snd charge_status_names).
Proof.
  intros Hk.
  assert (Hc : k = 0 \/ k = 1 \/ k = 2 \/ k = 3 \/ k = 4 \/ k = 5 \/ k = 6 \/ k = 7)
    by lia.
  destruct Hc as [-> | [-> | [-> | [-> | [-> | [-> | [-> | ->]]]]]]];
    cbn; tauto.
Qed.

(** C1 (as the code has it).  The charge phase reported by
    [get_charger_status] is the table entry selected by bits [7:5] of
    status1, that is [(status1 >> 5) & 7]; it is always one of the eight
    names and never the "Unknown" fallback; and whenever bits [7:5] of
    status1 equal 3 the phase is "Fast Charge (CC)". *)
Theorem charge_phase_from_bits_7_5 :
  forall (hw : Hardware) (self : BQ25790.t) (log log' : Log) (st : ChargerStatus),
    get_charger_status hw self log = (Ok st, log') ->
    exists status1,
      hw_read hw (Datatypes.S (List.length log)) (address self) REG_CHARGER_STATUS_1
        = Ok status1 /\
      charge_status st
        = dict_get charge_status_names (Z.land (Z.shiftr status1 5) 0x07) "Unknown" /\
      In (charge_status st) (map snd charge_status_names) /\
      (Z.land (Z.shiftr status1 5) 0x07 = 3 ->
       charge_status st = "Fast Charge (CC)").
Proof.
  intros hw self log log' st H.
  unfold get_charger_status in H.
  apply bind_ok in H. destruct H as (s0 & l0 & H0 & H).
  apply bind_ok in H. destruct H as (s1 & l1 & H1 & H).
  apply bind_ok in H. destruct H as (s2 & l2 & H2 & H).
  apply read_register_ok in H0. destruct H0 as [_ ->].
  apply read_register_ok in H1. destruct H1 as [H1 _].
  unfold ret in H. injection H as <- _.
  exists s1. cbn [charge_status]. split; [exact H1|]. split; [reflexivity|].
  split.
  - apply charge_status_named, three_bits.
  - intros ->. reflexivity.
Qed.

(** A status1 byte with bits [7:5] = 3 (0x60): the hypotheses of
    [charge_phase_from_bits_7_5] hold and the phase is read off. *)
Lemma charge_phase_from_bits_7_5_witness :
  exists status1,
    hw_read (Bench.one_reg_hw REG_CHARGER_STATUS_1 0x60) 1 0x6B REG_CHARGER_STATUS_1
      = Ok status1 /\
    dict_get charge_status_names (Z.land (Z.shiftr 0x60 5) 0x07) "Unknown"
      = dict_get charge_status_names (Z.land (Z.shiftr status1 5) 0x07) "Unknown" /\
    In "Fast Charge (CC)" (map snd charge_status_names) /\
    (Z.land (Z.shiftr status1 5) 0x07 = 3 ->
     "Fast Charge (CC)" = "Fast Charge (CC)").
Proof.
  exact (charge_phase_from_bits_7_5
           (Bench.one_reg_hw REG_CHARGER_STATUS_1 0x60) Bench.bq0 [] _ _ eq_refl).
Defined.

(** C1 (as the specification words it) fails: status1 = 0x30 has bits
    [6:4] equal to 3, yet the phase reported is "Trickle Charge", the
    entry for bits [7:5] = 1. *)
Lemma charge_phase_bits_6_4_refuted :
  Z.land (Z.shiftr 0x30 4) 0x07 = 3 /\
  (exists st log',
      get_charger_status (Bench.one_reg_hw REG_CHARGER_STATUS_1 0x30) Bench.bq0 []
        = (Ok st, log') /\
      charge_status st = "Trickle Charge" /\
      charge_status st <> "Fast Charge (CC)").
Proof.
  split; [reflexivity|].
  eexists. eexists. split; [reflexivity|].
  split; [reflexivity|]. cbn. discriminate.
Qed.

(** C9.  [get_fault_status] reads fault0 then fault1 and sets each of the
    ten flags to one fixed bit of one of the two bytes: bits 7, 6, 5, 4,
    3, 2, 1 of fault0 and bits 7, 6, 3 of fault1.  For fault0 = 0x82 and
    fault1 = 0x00 exactly [vac1_ovp] and [vbus_ovp] are set. *)
Theorem fault_flags_are_bit_masks :
  forall (hw : Hardware) (self : BQ25790.t) (log : Log) (fault0 fault1 : Z),
    hw_read hw (List.length log) (address self) REG_FAULT_STATUS_0 = Ok fault0 ->
    hw_read hw (Datatypes.S (List.length log)) (address self) REG_FAULT_STATUS_1
      = Ok fault1 ->
    get_fault_status hw self log
      = (Ok {| vac1_ovp := Z.testbit fault0 7;
               vac2_ovp := Z.testbit fault0 6;
               conv_ocp := Z.testbit fault0 5;
               ibat_reg := Z.testbit fault0 4;
               ibus_reg := Z.testbit fault0 3;
               vbat_ovp := Z.testbit fault0 2;
               vbus_ovp := Z.testbit fault0 1;
               vsys_ovp := Z.testbit fault1 7;
               tshut := Z.testbit fault1 6;
               bat_temp_fault := Z.testbit fault1 3 |},
         EvRead (address self) REG_FAULT_STATUS_1
           :: EvRead (address self) REG_FAULT_STATUS_0 :: log) /\
    (fault0 = 0x82 -> fault1 = 0x00 ->
     fst (get_fault_status hw self log)
       = Ok {| vac1_ovp := true; vac2_ovp := false; conv_ocp := false;
               ibat_reg := false; ibus_reg := false; vbat_ovp := false;
               vbus_ovp := true; vsys_ovp := false; tshut := false;
               bat_temp_fault := false |}).
Proof.
  intros hw self log fault0 fault1 H0 H1.
  assert (Hrun : get_fault_status hw self log
      = (Ok {| vac1_ovp := Z.testbit fault0 7;
               vac2_ovp := Z.testbit fault0 6;
               conv_ocp := Z.testbit fault0 5;
               ibat_reg := Z.testbit fault0 4;
               ibus_reg := Z.testbit fault0 3;
               vbat_ovp := Z.testbit fault0 2;
               vbus_ovp := Z.testbit fault0 1;
               vsys_ovp := Z.testbit fault1 7;
               tshut := Z.testbit fault1 6;
               bat_temp_fault := Z.testbit fault1 3 |},
         EvRead (address self) REG_FAULT_STATUS_1
           :: EvRead (address self) REG_FAULT_STATUS_0 :: log)).
  { unfold get_fault_status, bind, read_register, read_byte_data, ret.
    rewrite H0. cbn [List.length]. rewrite H1.
    change 0x80 with (2 ^ 7). change 0x40 with (2 ^ 6).
    change 0x20 with (2 ^ 5). change 0x10 with (2 ^ 4).
    change 0x08 with (2 ^ 3). change 0x04 with (2 ^ 2).
    change 0x02 with (2 ^ 1).
    rewrite !py_bool_mask by lia. reflexivity. }
  split; [exact Hrun|].
  intros -> ->. rewrite Hrun. reflexivity.
Qed.

(** fault0 = 0x82 on the bus (fault1 reads 0): the hypotheses of
    [fault_flags_are_bit_masks] hold. *)
Lemma fault_flags_are_bit_masks_witness :
  fst (get_fault_status (Bench.one_reg_hw REG_FAULT_STATUS_0 0x82) Bench.bq0 [])
    = Ok {| vac1_ovp := true; vac2_ovp := false; conv_ocp := false;
            ibat_reg := false; ibus_reg := false; vbat_ovp := false;
            vbus_ovp := true; vsys_ovp := false; tshut := false;
            bat_temp_fault := false |}.
Proof.
  exact (proj2 (fault_flags_are_bit_masks
                  (Bench.one_reg_hw REG_FAULT_STATUS_0 0x82) Bench.bq0 []
                  0x82 0x00 eq_refl eq_refl) eq_refl eq_refl).
Defined.

End Decoding.

(* ================================================================= *)
(** ** The signed battery current *)

Section SignedCurrent.

Import BQ25790 Reference.

Lemma top_bit_16 (raw : Z) :
  0 <= raw <= 65535 -> Z.testbit raw 15 = (raw >? 32767).
Proof.
  intros Hr.
  destruct (Z.gtb_spec raw 32767) as [Hgt | Hle].
  - apply Z.testbit_true; [lia|].
    change (2 ^ 15) with 32768.
    replace (raw / 32768) with 1; [reflexivity|].
    apply Z.div_unique with (r := raw - 32768); lia.
  - apply Z.testbit_false; [lia|].
    change (2 ^ 15) with 32768.
    rewrite Z.div_small by lia. reflexivity.
Qed.

(** C2.  For every 16-bit word [raw] delivered by the bus for IBAT,
    [get_battery_current] returns the two's-complement value of [raw]
    in thousandths (the double [signed / 1000.0]): words from 32768 on
    stand for [raw - 65536], a negative number.  In particular 0 gives
    0.0, 65535 gives -0.001, 32768 gives -32.768 and 32767 gives
    32.767. *)
Theorem battery_current_twos_complement :
  forall (hw : Hardware) (self : BQ25790.t) (log : Log) (raw : Z),
    0 <= raw <= 65535 ->
    hw_read hw (List.length log) (address self) REG_IBAT_ADC = Ok (raw / 256) ->
    hw_read hw (Datatypes.S (List.length log)) (address self) (REG_IBAT_ADC + 1)
      = Ok (raw mod 256) ->
    exists amps,
      fst (get_battery_current hw self log) = Ok amps /\
      amps = (PyFloat.of_Z (twos_complement16 raw) / 1000)%float /\
      - 32768 <= twos_complement16 raw <= 32767 /\
      (twos_complement16 raw - raw) mod 65536 = 0 /\
      (32768 <= raw -> twos_complement16 raw = raw - 65536) /\
      (raw = 0 -> amps = 0%float) /\
      (raw = 65535 -> amps = (-0.001)%float) /\
      (raw = 32768 -> amps = (-32.768)%float) /\
      (raw = 32767 -> amps = 32.767%float).
Proof.
  intros hw self log raw Hr Hm Hl.
  assert (Hrun : fst (get_battery_current hw self log)
                 = Ok (PyFloat.of_Z (twos_complement16 raw) / 1000)%float).
  { unfold get_battery_current.
    rewrite (bind_step _ _ _ _ _
               (read_register_16bit_word hw self _ log raw (proj1 Hr) Hm Hl)).
    unfold ret, twos_complement16. rewrite top_bit_16 by exact Hr.
    reflexivity. }
  assert (Htc : twos_complement16 raw = if raw >? 32767 then raw - 65536 else raw).
  { unfold twos_complement16. rewrite top_bit_16 by exact Hr. reflexivity. }
  eexists. split; [exact Hrun|]. split; [reflexivity|].
  split; [|split; [|split]].
  - rewrite Htc. destruct (Z.gtb_spec raw 32767); lia.
  - rewrite Htc. destruct (Z.gtb_spec raw 32767).
    + replace (raw - 65536 - raw) with (-1 * 65536) by lia.
      apply Z.mod_mul. lia.
    + rewrite Z.sub_diag. reflexivity.
  - intros Hge. rewrite Htc. destruct (Z.gtb_spec raw 32767); lia.
  - repeat split; intros ->; vm_compute; reflexivity.
Qed.

(** The word 0xFFFF on the bus: the hypotheses of
    [battery_current_twos_complement] hold, and the reading is -1 mA. *)
Lemma battery_current_twos_complement_witness :
  0 <= 65535 <= 65535 /\
  exists amps,
    fst (get_battery_current (Bench.const_hw 255 0%float) Bench.bq0 []) = Ok amps /\
    amps = (-0.001)%float.
Proof.
  split; [lia|].
  destruct (battery_current_twos_complement
              (Bench.const_hw 255 0%float) Bench.bq0 [] 65535
              ltac:(lia) eq_refl eq_refl)
    as (amps & Hrun & _ & _ & _ & _ & _ & Hm1 & _).
  exists amps. split; [exact Hrun | exact (Hm1 eq_refl)].
Defined.

End SignedCurrent.

(* ================================================================= *)
(** ** What one capture does *)

Section Capture.

Import BQ25790 Observed.

Variable hw : Hardware.
Variable self : BQ25790.t.

Lemma word_at_read (reg : Z) (log : Log) :
  read_register_16bit hw self reg log
  = (match word_at hw (address self) (List.length log) reg with
     | Ok v => Ok v
     | Raise e => Raise e
     end,
     match hw_read hw (List.length log) (address self) reg with
     | Ok _ => EvRead (address self) (reg + 1) :: EvRead (address self) reg :: log
     | Raise _ => EvRead (address self) reg :: log
     end).
Proof.
  unfold read_register_16bit, bind, read_byte_data, ret, word_at.
  destruct (hw_read hw (List.length log) (address self) reg); [|reflexivity].
  cbn [List.length].
  destruct (hw_read hw (Datatypes.S (List.length log)) (address self) (reg + 1));
    reflexivity.
Qed.

(** A getter that reads one word and decodes it with [f]. *)
Lemma word_getter_ok (reg : Z) (f : Z -> float) (log log' : Log) (v : float) :
  bind (read_register_16bit hw self reg) (fun raw => ret (f raw)) log = (Ok v, log') ->
  exists raw,
    word_at hw (address self) (List.length log) reg = Ok raw /\
    v = f raw /\
    log' = rev (word_reads (address self) reg) ++ log.
Proof.
  intros H. apply bind_ok in H. destruct H as (raw & l1 & H1 & H).
  unfold ret in H. injection H as <- <-.
  rewrite word_at_read in H1.
  destruct (word_at hw (address self) (List.length log) reg) as [w | e] eqn:Hw;
    [|discriminate H1].
  unfold word_at in Hw.
  destruct (hw_read hw (List.length log) (address self) reg); [|discriminate Hw].
  injection H1 as -> <-.
  exists raw. repeat split; reflexivity.
Qed.

(** Everything a successful capture read and computed. *)
Lemma get_all_data_ok (log log' : Log) (data : AllData) :
  get_all_data hw self log = (Ok data, log') ->
  let a := address self in
  let n := List.length log in
  exists v1 c1 v2 c2 vs td vb cb vb2 cb2,
    word_at hw a (2 + n) REG_VBAT_ADC = Ok v1 /\
    word_at hw a (4 + n) REG_IBAT_ADC = Ok c1 /\
    word_at hw a (6 + n) REG_VBAT_ADC = Ok v2 /\
    word_at hw a (8 + n) REG_IBAT_ADC = Ok c2 /\
    word_at hw a (10 + n) REG_VSYS_ADC = Ok vs /\
    word_at hw a (12 + n) REG_TDIE_ADC = Ok td /\
    word_at hw a (14 + n) REG_VBUS_ADC = Ok vb /\
    word_at hw a (16 + n) REG_IBUS_ADC = Ok cb /\
    word_at hw a (18 + n) REG_VBUS_ADC = Ok vb2 /\
    word_at hw a (20 + n) REG_IBUS_ADC = Ok cb2 /\
    battery data
      = {| battery_voltage := PyFloat.round (volts v1) 3;
           battery_current := PyFloat.round (amps c1) 3;
           battery_power := PyFloat.round (volts v2 * amps c2)%float 3 |} /\
    system data
      = {| system_voltage := PyFloat.round (volts vs) 3;
           system_temperature := PyFloat.round (celsius td) 1 |} /\
    input data
      = {| input_voltage := PyFloat.round (volts vb) 3;
           input_current := PyFloat.round (volts cb) 3;
           input_power := PyFloat.round (volts vb2 * volts cb2)%float 3 |} /\
    timestamp data = hw_clock hw (27 + n) /\
    log' = rev (capture_calls a) ++ log.
Proof.
  intros H a n. unfold get_all_data in H.
  apply bind_ok in H. destruct H as ([] & l0 & H0 & H).
  unfold enable_adc in H0.
  apply bind_ok in H0. destruct H0 as ([] & l00 & Hw & Hs).
  unfold write_register, write_byte_data in Hw. injection Hw as _ <-.
  unfold time_sleep in Hs. injection Hs as <-.
  apply bind_ok in H. destruct H as (b_v & l1 & H1 & H).
  apply (word_getter_ok _ volts) in H1. destruct H1 as (v1 & Hv1 & -> & ->).
  apply bind_ok in H. destruct H as (b_c & l2 & H2 & H).
  apply (word_getter_ok _ amps) in H2. destruct H2 as (c1 & Hc1 & -> & ->).
  apply bind_ok in H. destruct H as (b_pv & l3 & H3 & H).
  apply (word_getter_ok _ volts) in H3. destruct H3 as (v2 & Hv2 & -> & ->).
  apply bind_ok in H. destruct H as (b_pc & l4 & H4 & H).
  apply (word_getter_ok _ amps) in H4. destruct H4 as (c2 & Hc2 & -> & ->).
  apply bind_ok in H. destruct H as (s_v & l5 & H5 & H).
  apply (word_getter_ok _ volts) in H5. destruct H5 as (vs & Hvs & -> & ->).
  apply bind_ok in H. destruct H as (s_t & l6 & H6 & H).
  apply (word_getter_ok _ celsius) in H6. destruct H6 as (td & Htd & -> & ->).
  apply bind_ok in H. destruct H as (i_v & l7 & H7 & H).
  apply (word_getter_ok _ volts) in H7. destruct H7 as (vb & Hvb & -> & ->).
  apply bind_ok in H. destruct H as (i_c & l8 & H8 & H).
  apply (word_getter_ok _ volts) in H8. destruct H8 as (cb & Hcb & -> & ->).
  apply bind_ok in H. destruct H as (i_pv & l9 & H9 & H).
  apply (word_getter_ok _ volts) in H9. destruct H9 as (vb2 & Hvb2 & -> & ->).
  apply bind_ok in H. destruct H as (i_pc & l10 & H10 & H).
  apply (word_getter_ok _ volts) in H10. destruct H10 as (cb2 & Hcb2 & -> & ->).
  apply bind_ok in H. destruct H as (st & l11 & H11 & H).
  unfold get_charger_status in H11.
  apply bind_ok in H11. destruct H11 as (s0 & k0 & R0 & H11).
  apply bind_ok in H11. destruct H11 as (s1 & k1 & R1 & H11).
  apply bind_ok in H11. destruct H11 as (s2 & k2 & R2 & H11).
  apply read_register_ok in R0. destruct R0 as [_ ->].
  apply read_register_ok in R1. destruct R1 as [_ ->].
  apply read_register_ok in R2. destruct R2 as [_ ->].
  unfold ret in H11. injection H11 as _ <-.
  apply bind_ok in H. destruct H as (fl & l12 & H12 & H).
  unfold get_fault_status in H12.
  apply bind_ok in H12. destruct H12 as (f0 & j0 & F0 & H12).
  apply bind_ok in H12. destruct H12 as (f1 & j1 & F1 & H12).
  apply read_register_ok in F0. destruct F0 as [_ ->].
  apply read_register_ok in F1. destruct F1 as [_ ->].
  unfold ret in H12. injection H12 as _ <-.
  apply bind_ok in H. destruct H as (now & l13 & H13 & H).
  unfold time_time in H13. injection H13 as <- <-.
  unfold ret in H. injection H as <- <-.
  exists v1, c1, v2, c2, vs, td, vb, cb, vb2, cb2.
  cbn [battery system input timestamp].
  repeat (split; [first [assumption | reflexivity]|]).
  reflexivity.
Qed.

End Capture.

(* ================================================================= *)
(** ** Rounding leaves the decoded readings alone *)

Section RoundingFixed.

Import Observed.

Lemma in_words_from (n : nat) :
  forall z raw, z <= raw < z + Z.of_nat n -> In raw (words_from n z).
Proof.
  induction n as [|n IH]; intros z raw Hr.
  - lia.
  - cbn [words_from]. destruct (Z.eq_dec z raw) as [-> | Hne].
    + left. reflexivity.
    + right. apply IH. lia.
Qed.

Lemma all_words_spec (p : Z -> bool) :
  all_words p = true -> forall raw, 0 <= raw < 65536 -> p raw = true.
Proof.
  unfold all_words. intros H raw Hr.
  rewrite forallb_forall in H.
  apply H, in_words_from. lia.
Qed.

Lemma same_eq (x y : float) : PyFloat.same x y = true -> x = y.
Proof. apply FloatAxioms.Leibniz.eqb_spec. Qed.

Lemma round_volts_fixed (raw : Z) :
  0 <= raw < 65536 -> PyFloat.round (volts raw) 3 = volts raw.
Proof.
  intros Hr. apply same_eq.
  apply (all_words_spec (fun r => PyFloat.same (PyFloat.round (volts r) 3) (volts r)));
    [vm_cast_no_check (eq_refl true) | exact Hr].
Qed.

Lemma round_amps_fixed (raw : Z) :
  0 <= raw < 65536 -> PyFloat.round (amps raw) 3 = amps raw.
Proof.
  intros Hr. apply same_eq.
  apply (all_words_spec (fun r => PyFloat.same (PyFloat.round (amps r) 3) (amps r)));
    [vm_cast_no_check (eq_refl true) | exact Hr].
Qed.

End RoundingFixed.

(* ================================================================= *)
(** ** The calls a computation issues *)

Section Issues.

Import BQ25790 Observed.

Lemma issues_ret {A : Type} (a : A) : issues (ret a) [].
Proof. intros log. exists []. split; reflexivity. Qed.

Lemma issues_bind {A B : Type} (m : M Log A) (k : A -> M Log B) (c1 c2 : list Event) :
  issues m c1 -> (forall a, issues (k a) c2) -> issues (bind m k) (c1 ++ c2).
Proof.
  intros Hm Hk log. unfold bind.
  destruct (Hm log) as (d1 & Hl1 & Hr1).
  destruct (m log) as [[a | e] l1]; cbn [fst snd] in *.
  - subst d1. destruct (Hk a l1) as (d2 & Hl2 & Hr2).
    exists (c1 ++ d2). split.
    + rewrite Hl2, Hl1, rev_app_distr, app_assoc. reflexivity.
    + destruct (fst (k a l1)).
      * subst d2. reflexivity.
      * destruct Hr2 as [Hne (rest & ->)]. split.
        -- intros H0. apply app_eq_nil in H0. tauto.
        -- exists rest. apply app_assoc.
  - destruct Hr1 as [Hne (rest & ->)].
    exists d1. split; [exact Hl1|]. split; [exact Hne|].
    exists (rest ++ c2). symmetry. apply app_assoc.
Qed.

Lemma issues_eq {A : Type} (m : M Log A) (c c' : list Event) :
  issues m c -> c = c' -> issues m c'.
Proof. intros H <-. exact H. Qed.

Variable hw : Hardware.

Lemma issues_read (a reg : Z) : issues (read_byte_data hw a reg) [EvRead a reg].
Proof.
  intros log. exists [EvRead a reg]. split; [reflexivity|].
  unfold read_byte_data. cbn [fst].
  destruct (hw_read hw (List.length log) a reg); [reflexivity|].
  split; [discriminate | exists []; reflexivity].
Qed.

Lemma issues_write (a reg v : Z) :
  issues (write_byte_data hw a reg v) [EvWrite a reg v].
Proof.
  intros log. exists [EvWrite a reg v]. split; [reflexivity|].
  unfold write_byte_data. cbn [fst].
  destruct (hw_write hw (List.length log) a reg v); [reflexivity|].
  split; [discriminate | exists []; reflexivity].
Qed.

Lemma issues_sleep (t : float) : issues (time_sleep t) [EvSleep t].
Proof. intros log. exists [EvSleep t]. split; reflexivity. Qed.

Lemma issues_clock : issues (time_time hw) [EvClock].
Proof. intros log. exists [EvClock]. split; reflexivity. Qed.

Lemma issues_word (self : BQ25790.t) (reg : Z) :
  issues (read_register_16bit hw self reg) (word_reads (address self) reg).
Proof.
  unfold read_register_16bit.
  eapply issues_eq.
  - apply issues_bind; [apply issues_read|]. intros msb.
    apply issues_bind; [apply issues_read|]. intros lsb.
    apply issues_ret.
  - reflexivity.
Qed.

Lemma issues_word_getter (self : BQ25790.t) (reg : Z) (f : Z -> float) :
  issues (bind (read_register_16bit hw self reg) (fun raw => ret (f raw)))
         (word_reads (address self) reg).
Proof.
  eapply issues_eq.
  - apply issues_bind; [apply issues_word|]. intros raw. apply issues_ret.
  - apply app_nil_r.
Qed.

Lemma issues_get_all_data (self : BQ25790.t) :
  issues (get_all_data hw self) (capture_calls (address self)).
Proof.
  unfold get_all_data, enable_adc, get_charger_status, get_fault_status,
    write_register, read_register.
  eapply issues_eq.
  - apply issues_bind.
    { apply issues_bind; [apply issues_write|]. intros _. apply issues_sleep. }
    intros _.
    apply issues_bind; [apply (issues_word_getter self _ volts)|]. intros b_v.
    apply issues_bind; [apply (issues_word_getter self _ amps)|]. intros b_c.
    apply issues_bind; [apply (issues_word_getter self _ volts)|]. intros b_pv.
    apply issues_bind; [apply (issues_word_getter self _ amps)|]. intros b_pc.
    apply issues_bind; [apply (issues_word_getter self _ volts)|]. intros s_v.
    apply issues_bind; [apply (issues_word_getter self _ celsius)|]. intros s_t.
    apply issues_bind; [apply (issues_word_getter self _ volts)|]. intros i_v.
    apply issues_bind; [apply (issues_word_getter self _ volts)|]. intros i_c.
    apply issues_bind; [apply (issues_word_getter self _ volts)|]. intros i_pv.
    apply issues_bind; [apply (issues_word_getter self _ volts)|]. intros i_pc.
    apply issues_bind.
    { apply issues_bind; [apply issues_read|]. intros s0.
      apply issues_bind; [apply issues_read|]. intros s1.
      apply issues_bind; [apply issues_read|]. intros s2.
      apply issues_ret. }
    intros st.
    apply issues_bind.
    { apply issues_bind; [apply issues_read|]. intros f0.
      apply issues_bind; [apply issues_read|]. intros f1.
      apply issues_ret. }
    intros fl.
    apply issues_bind; [apply issues_clock|]. intros now.
    apply issues_ret.
  - reflexivity.
Qed.

End Issues.

(* ================================================================= *)
(** ** The capture: order of the calls, and the power fields *)

Section CaptureClaims.

Import BQ25790 Observed.

(** C7 (as the code has it).  Every capture issues its calls in one fixed
    order: the write of 0x80 to ADC_CTRL, the 100 ms sleep, then the word
    reads VBAT, IBAT, VBAT, IBAT, VSYS, TDIE, VBUS, IBUS, VBUS, IBUS
    (VBAT, IBAT, VBUS and IBUS are read a second time for the power
    products), then status0, status1, status2, fault0, fault1, and last
    the clock, whose reading is the snapshot's timestamp.  A capture that
    raises has issued an initial part of this sequence, ending with the
    call that failed. *)
Theorem capture_call_order :
  forall (hw : Hardware) (self : BQ25790.t) (log : Log),
    exists done,
      history (snd (get_all_data hw self log)) = history log ++ done /\
      match fst (get_all_data hw self log) with
      | Ok data =>
          done = capture_calls (address self) /\
          timestamp data = hw_clock hw (27 + List.length log)
      | Raise _ =>
          done <> [] /\ exists rest, capture_calls (address self) = done ++ rest
      end.
Proof.
  intros hw self log.
  destruct (issues_get_all_data hw self log) as (done & Hlog & Hres).
  exists done. split.
  - unfold history. rewrite Hlog, rev_app_distr, rev_involutive. reflexivity.
  - destruct (get_all_data hw self log) as [[data | e] log'] eqn:Hrun;
      cbn [fst] in *; [|exact Hres].
    split; [exact Hres|].
    apply get_all_data_ok in Hrun. cbv zeta in Hrun.
    destruct Hrun as (? & ? & ? & ? & ? & ? & ? & ? & ? & ? & Hrest).
    apply Hrest.
Qed.

(** C7 (as the specification words it) fails: on a healthy bus the calls
    of a capture are not the specified sequence; VBAT is read twice (four
    byte reads), and TDIE is read before VBUS. *)
Lemma capture_reads_each_register_once_refuted :
  exists data log',
    get_all_data (Bench.const_hw 0 0%float) Bench.bq0 [] = (Ok data, log') /\
    history log' <> specified_calls 0x6B /\
    reads_of REG_VBAT_ADC (history log') = 2%nat /\
    reads_of REG_VBAT_ADC (specified_calls 0x6B) = 1%nat /\
    nth_error (history log') 12 = Some (EvRead 0x6B REG_TDIE_ADC) /\
    nth_error (history log') 14 = Some (EvRead 0x6B REG_VBUS_ADC).
Proof.
  eexists. eexists. split; [vm_compute; reflexivity|].
  split; [|repeat split].
  intros H. vm_compute in H. discriminate H.
Qed.

Lemma word_at_range (hw : Hardware) (a : Z) (n : nat) (reg raw : Z) :
  byte_bus hw -> word_at hw a n reg = Ok raw -> 0 <= raw < 65536.
Proof.
  intros Hb. unfold word_at.
  destruct (hw_read hw n a reg) as [msb|] eqn:Hm; [|discriminate].
  destruct (hw_read hw (Datatypes.S n) a (reg + 1)) as [lsb|] eqn:Hl; [|discriminate].
  intros H. injection H as <-.
  apply word_range; eapply Hb; eassumption.
Qed.

Lemma steady_rereads_agree (hw : Hardware) (a : Z) (n : nat) :
  steady hw -> rereads_agree hw a n.
Proof.
  intros Hs. unfold rereads_agree, word_at.
  repeat split;
    match goal with
    | |- context [hw_read hw ?i a ?r] =>
        rewrite (Hs i O a r), (Hs (Datatypes.S i) O a (r + 1))
    end;
    match goal with
    | |- _ = match hw_read hw ?i a ?r with _ => _ end =>
        rewrite (Hs i O a r), (Hs (Datatypes.S i) O a (r + 1))
    end; reflexivity.
Qed.

(** C3 (as the code has it).  In the snapshot of a successful capture,
    battery.power = round(battery.voltage * battery.current, 3) and
    input.power = round(input.voltage * input.current, 3) whenever the
    second read of VBAT, IBAT, VBUS and IBUS within that capture delivers
    the same word as the first; that is the case on a bus that answers
    each register the same way throughout the capture.  The power fields
    are computed from those second reads. *)
Theorem power_is_product_when_rereads_agree :
  forall (hw : Hardware) (self : BQ25790.t) (log log' : Log) (data : AllData),
    byte_bus hw ->
    rereads_agree hw (address self) (List.length log) ->
    get_all_data hw self log = (Ok data, log') ->
    battery_power (battery data)
    = PyFloat.round (battery_voltage (battery data)
                     * battery_current (battery data))%float 3 /\
    input_power (input data)
    = PyFloat.round (input_voltage (input data)
                     * input_current (input data))%float 3.
Proof.
  intros hw self log log' data Hb (Ev & Ec & Evb & Ecb) Hrun.
  apply get_all_data_ok in Hrun. cbv zeta in Hrun.
  destruct Hrun as (v1 & c1 & v2 & c2 & vs & td & vb & cb & vb2 & cb2
                    & Hv1 & Hc1 & Hv2 & Hc2 & _ & _ & Hvb & Hcb & Hvb2 & Hcb2
                    & Hbat & _ & Hin & _).
  rewrite Hv1, Hv2 in Ev. injection Ev as ->.
  rewrite Hc1, Hc2 in Ec. injection Ec as ->.
  rewrite Hvb, Hvb2 in Evb. injection Evb as ->.
  rewrite Hcb, Hcb2 in Ecb. injection Ecb as ->.
  rewrite Hbat, Hin.
  cbn [battery_power battery_voltage battery_current
       input_power input_voltage input_current].
  rewrite (round_volts_fixed v1) by (eapply word_at_range; eassumption).
  rewrite (round_amps_fixed c1) by (eapply word_at_range; eassumption).
  rewrite (round_volts_fixed vb) by (eapply word_at_range; eassumption).
  rewrite (round_volts_fixed cb) by (eapply word_at_range; eassumption).
  split; reflexivity.
Qed.

Lemma const_hw_byte_bus (v : Z) (t : float) :
  0 <= v < 256 -> byte_bus (Bench.const_hw v t).
Proof. intros Hv n a r w H. cbn in H. injection H as <-. exact Hv. Qed.

(** A bus on which every byte reads 0x10: the hypotheses of
    [power_is_product_when_rereads_agree] hold, and 4.112 V times 4.112 A
    is reported as 16.909 W. *)
Lemma power_is_product_when_rereads_agree_witness :
  byte_bus (Bench.const_hw 0x10 0%float) /\
  rereads_agree (Bench.const_hw 0x10 0%float) 0x6B 0 /\
  exists data,
    fst (get_all_data (Bench.const_hw 0x10 0%float) Bench.bq0 []) = Ok data /\
    battery_voltage (battery data) = 4.112%float /\
    battery_power (battery data)
    = PyFloat.round (battery_voltage (battery data)
                     * battery_current (battery data))%float 3 /\
    input_power (input data)
    = PyFloat.round (input_voltage (input data)
                     * input_current (input data))%float 3.
Proof.
  split; [apply const_hw_byte_bus; lia|].
  split; [repeat split|].
  eexists. split; [vm_compute; reflexivity|].
  split; [reflexivity|].
  exact (power_is_product_when_rereads_agree
           (Bench.const_hw 0x10 0%float) Bench.bq0 [] _ _
           (const_hw_byte_bus 0x10 0%float ltac:(lia))
           ltac:(repeat split) eq_refl).
Defined.

(** C3 (as the specification words it) fails: when the ADC moves between
    the two reads of VBAT and IBAT, the snapshot reports 4.112 V, 4.112 A
    and 67.634 W, which is not round(4.112 * 4.112, 3) = 16.909. *)
Lemma power_identity_refuted :
  exists data log',
    get_all_data Bench.drifting_hw Bench.bq0 [] = (Ok data, log') /\
    battery_voltage (battery data) = 4.112%float /\
    battery_current (battery data) = 4.112%float /\
    battery_power (battery data) = 67.634%float /\
    battery_power (battery data)
    <> PyFloat.round (battery_voltage (battery data)
                      * battery_current (battery data))%float 3.
Proof.
  eexists. eexists. split; [vm_compute; reflexivity|].
  repeat split.
  intros H. apply (f_equal Prim2SF) in H. vm_compute in H. discriminate H.
Qed.

End CaptureClaims.

(* ================================================================= *)
(** ** The handlers, unfolded *)

Section HandlerFacts.

Import BQ25790 Monitor Observed.

Variable hw : Hardware.

Lemma get_bq_instance_some (s : Service) (bq : BQ25790.t) :
  bq_instance s = Some bq -> get_bq_instance hw s = (Ok bq, s).
Proof.
  intros H. unfold get_bq_instance, bind, get. rewrite H. reflexivity.
Qed.

Lemma count_rev (f : Event -> bool) (l : list Event) :
  List.length (filter f (rev l)) = List.length (filter f l).
Proof.
  induction l as [|x l IH]; [reflexivity|].
  cbn [rev filter]. rewrite filter_app, length_app, IH. cbn [filter].
  destruct (f x); cbn [List.length]; lia.
Qed.

Lemma captures_app (done : list Event) (l : Log) :
  captures (rev done ++ l)
  = (List.length (filter is_enable done) + captures l)%nat.
Proof.
  unfold captures. rewrite filter_app, length_app, count_rev. reflexivity.
Qed.

(** Opening the bus is no capture; the cache is not touched. *)
Lemma get_bq_instance_inv (s s' : Service) (r : Result BQ25790.t) :
  get_bq_instance hw s = (r, s') ->
  cache s' = cache s /\
  captures (log s') = captures (log s) /\
  (forall bq, r = Ok bq -> bq_instance s' = Some bq).
Proof.
  unfold get_bq_instance, bind, get.
  destruct (bq_instance s) as [bq0|] eqn:Hi.
  - unfold ret. intros H. injection H as <- <-.
    repeat split. intros bq Hbq. injection Hbq as <-. exact Hi.
  - unfold try_except, bind, lift, BQ25790.init, bind, smbus_open, ret, modify, raise.
    destruct (hw_open hw (List.length (log s)) 1) as [[]|e]; cbn;
      intros H; injection H as <- <-; cbn; repeat split;
      intros bq Hbq; first [discriminate Hbq | injection Hbq as <-; reflexivity].
Qed.

(** Every run of [get_all_data], successful or not, is one capture. *)
Lemma captures_get_all_data (bq : BQ25790.t) (l : Log) :
  captures (snd (get_all_data hw bq l)) = Datatypes.S (captures l).
Proof.
  destruct (issues_get_all_data hw bq l) as (done & Hlog & Hres).
  rewrite Hlog, captures_app.
  assert (Hpre : done <> [] /\
                 exists rest, Observed.capture_calls (address bq) = done ++ rest).
  { destruct (fst (get_all_data hw bq l)).
    - subst done. split; [discriminate | exists []; symmetry; apply app_nil_r].
    - exact Hres. }
  destruct Hpre as [Hne (rest & Hsplit)].
  destruct done as [|ev done']; [contradiction|].
  cbn in Hsplit. injection Hsplit as <- Htail.
  assert (Hq : filter is_enable (done' ++ rest) = []) by (rewrite <- Htail; reflexivity).
  rewrite filter_app in Hq. apply app_eq_nil in Hq. destruct Hq as [Hq _].
  cbn. rewrite Hq. reflexivity.
Qed.

(** A computation whose calls hold no write to ADC_CTRL starts no capture. *)
Lemma issues_quiet {A : Type} (m : M Log A) (calls : list Event) :
  issues m calls -> filter is_enable calls = [] ->
  forall l, captures (snd (m l)) = captures l.
Proof.
  intros Hm Hq l. destruct (Hm l) as (done & Hlog & Hres).
  rewrite Hlog, captures_app.
  assert (Hd : filter is_enable done = []).
  { destruct (fst (m l)).
    - subst done. exact Hq.
    - destruct Hres as [_ (rest & ->)].
      rewrite filter_app in Hq. apply app_eq_nil in Hq. tauto. }
  rewrite Hd. reflexivity.
Qed.

(** A handler that gets the instance and makes one word read. *)
Lemma word_handler_quiet (reg : Z) (f : Z -> float) (g : float -> Response)
      (s : Service) :
  captures
    (log (snd (try_except
                 (bind (get_bq_instance hw)
                       (fun bq =>
                          bind (lift (bind (read_register_16bit hw bq reg)
                                           (fun raw => ret (f raw))))
                               (fun v => ret (g v))))
                 (fun e => ret (jsonify (BError e) 500)) s)))
  = captures (log s).
Proof.
  unfold try_except, bind at 1.
  destruct (get_bq_instance hw s) as [[bq | e] s1] eqn:Hi;
    apply get_bq_instance_inv in Hi; destruct Hi as (_ & Hc & _);
    [|exact Hc].
  pose proof (issues_quiet _ _ (issues_word_getter hw bq reg f) eq_refl (log s1)) as Hq.
  unfold bind at 1, lift.
  destruct (bind (read_register_16bit hw bq reg) (fun raw => ret (f raw)) (log s1))
    as [[v | e] l]; cbn in *; congruence.
Qed.

Lemma refresh_unfold (now : float) (s : Service) :
  refresh hw now s
  = match get_bq_instance hw s with
    | (Ok bq, s1) =>
        match get_all_data hw bq (log s1) with
        | (Ok data, l) =>
            (Ok (jsonify (BAllData data) 200),
             set_cache {| cache_data := Some data; cache_timestamp := Some now |}
                       (set_log l s1))
        | (Raise e, l) => (Ok (jsonify (BReadFailed e) 500), set_log l s1)
        end
    | (Raise e, s1) => (Ok (jsonify (BReadFailed e) 500), s1)
    end.
Proof.
  unfold refresh, try_except, bind.
  destruct (get_bq_instance hw s) as [[bq | e] s1]; [|reflexivity].
  unfold lift.
  destruct (get_all_data hw bq (log s1)) as [[data | e] l]; reflexivity.
Qed.

Lemma get_battery_info_unfold (s : Service) :
  get_battery_info hw s
  = let now := hw_clock hw (List.length (log s)) in
    let s0 := set_log (EvClock :: log s) s in
    if cache_fresh (cache s) now then
      match cache_data (cache s) with
      | Some data => (Ok (jsonify (BAllData data) 200), s0)
      | None => (Raise "KeyError: 'data'", s0)
      end
    else refresh hw now s0.
Proof.
  unfold get_battery_info, bind, lift, time_time, get. cbn.
  destruct (cache_fresh (cache s) _); [|reflexivity].
  destruct (cache_data (cache s)); reflexivity.
Qed.

(** A fresh cache is served without touching the device. *)
Lemma get_battery_info_fresh (s : Service) (data : AllData) :
  cache_data (cache s) = Some data ->
  cache_fresh (cache s) (hw_clock hw (List.length (log s))) = true ->
  get_battery_info hw s
  = (Ok (jsonify (BAllData data) 200), set_log (EvClock :: log s) s).
Proof.
  intros Hd Hf. rewrite get_battery_info_unfold. cbv zeta.
  rewrite Hf, Hd. reflexivity.
Qed.

End HandlerFacts.

(* ================================================================= *)
(** ** The service: health, single readings, the cache *)

Section ServiceClaims.

Import BQ25790 Monitor.

(** C10.  Once the driver instance exists, [/health] answers 200
    "healthy" whatever the hardware does: the answer does not depend on
    the bus, and the service state, log of calls included, is left as it
    was, so no call is issued. *)
Theorem health_after_init :
  forall (hw : Hardware) (s : Service) (bq : BQ25790.t),
    bq_instance s = Some bq ->
    health hw s = (Ok (jsonify BHealthy 200), s) /\
    log (snd (health hw s)) = log s.
Proof.
  intros hw s bq Hi.
  assert (H : health hw s = (Ok (jsonify BHealthy 200), s)).
  { unfold health, try_except, bind.
    rewrite (get_bq_instance_some hw s bq Hi). reflexivity. }
  split; [exact H | rewrite H; reflexivity].
Qed.

(** The instance exists and the bus has died since: [/health] still
    answers 200 "healthy". *)
Lemma health_after_init_witness :
  bq_instance Bench.warm_service = Some Bench.bq0 /\
  fst (health Bench.dead_hw Bench.warm_service) = Ok (jsonify BHealthy 200) /\
  fst (get_voltage Bench.dead_hw Bench.warm_service)
  = Ok (jsonify (BError "[Errno 121] Remote I/O error") 500).
Proof.
  split; [reflexivity|]. split; [|reflexivity].
  rewrite (proj1 (health_after_init Bench.dead_hw Bench.warm_service Bench.bq0 eq_refl)).
  reflexivity.
Defined.

(** C6 fails on the code.  On a service that has just started, the first
    request to [/battery/voltage], [/battery/current] or
    [/battery/temperature] answers 200 with a reading after opening the
    bus and reading the two bytes of the ADC register: ADC_CTRL is never
    written and no settling delay is observed.  And from any state, none
    of the three handlers ever writes ADC_CTRL. *)
Theorem single_readings_skip_enable_adc :
  (let hw := Bench.const_hw 0x10 0%float in
   get_voltage hw startup
   = (Ok (jsonify (BVoltage 4.112%float) 200),
      set_log (rev [EvOpen 1; EvRead 0x6B REG_VBAT_ADC; EvRead 0x6B (REG_VBAT_ADC + 1)])
              (set_bq_instance (Some Bench.bq0) startup)) /\
   get_current hw startup
   = (Ok (jsonify (BCurrent 4.112%float) 200),
      set_log (rev [EvOpen 1; EvRead 0x6B REG_IBAT_ADC; EvRead 0x6B (REG_IBAT_ADC + 1)])
              (set_bq_instance (Some Bench.bq0) startup)) /\
   get_temperature hw startup
   = (Ok (jsonify (BTemperature 2016%float) 200),
      set_log (rev [EvOpen 1; EvRead 0x6B REG_TDIE_ADC; EvRead 0x6B (REG_TDIE_ADC + 1)])
              (set_bq_instance (Some Bench.bq0) startup))) /\
  (forall (hw : Hardware) (s : Service),
      captures (log (snd (get_voltage hw s))) = captures (log s) /\
      captures (log (snd (get_current hw s))) = captures (log s) /\
      captures (log (snd (get_temperature hw s))) = captures (log s)).
Proof.
  split.
  - cbv zeta. repeat split; vm_compute; reflexivity.
  - intros hw s. repeat split.
    + exact (word_handler_quiet hw REG_VBAT_ADC Observed.volts
               (fun v => jsonify (BVoltage (PyFloat.round v 3)) 200) s).
    + exact (word_handler_quiet hw REG_IBAT_ADC Observed.amps
               (fun v => jsonify (BCurrent (PyFloat.round v 3)) 200) s).
    + exact (word_handler_quiet hw REG_TDIE_ADC Observed.celsius
               (fun v => jsonify (BTemperature (PyFloat.round v 1)) 200) s).
Qed.

(** C4.  When the cache is not fresh and the capture raises (a register
    read or the ADC_CTRL write fails), [/battery] answers 500 with the
    error body carrying the message, and the cache is exactly what it was
    before the request: neither the error nor any part of a snapshot is
    stored.  A snapshot cached earlier is still served, without touching
    the device, to a later request that finds it within its freshness
    window. *)
Theorem failed_capture_keeps_cache :
  forall (hw : Hardware) (s s1 : Service) (bq : BQ25790.t) (e : string) (l' : Log),
    cache_fresh (cache s) (hw_clock hw (List.length (log s))) = false ->
    get_bq_instance hw (set_log (EvClock :: log s) s) = (Ok bq, s1) ->
    get_all_data hw bq (log s1) = (Raise e, l') ->
    get_battery_info hw s = (Ok (jsonify (BReadFailed e) 500), set_log l' s1) /\
    cache (set_log l' s1) = cache s /\
    (forall data,
        cache_data (cache s) = Some data ->
        cache_fresh (cache s) (hw_clock hw (List.length l')) = true ->
        get_battery_info hw (set_log l' s1)
        = (Ok (jsonify (BAllData data) 200),
           set_log (EvClock :: l') (set_log l' s1))).
Proof.
  intros hw s s1 bq e l' Hstale Hinst Hcap.
  assert (Hcache : cache (set_log l' s1) = cache s).
  { apply get_bq_instance_inv in Hinst. destruct Hinst as (Hc & _). exact Hc. }
  split; [|split].
  - rewrite get_battery_info_unfold. cbv zeta.
    rewrite Hstale, refresh_unfold, Hinst, Hcap. reflexivity.
  - exact Hcache.
  - intros data Hd Hf.
    apply get_battery_info_fresh; cbn [log set_log]; rewrite Hcache; assumption.
Qed.

(** A warm service whose bus has died: the request at 101.5 finds the
    snapshot of 100.0 stale, the capture fails at its first call, the
    answer is 500 and the cache is kept; the clock is then set back to
    100.5 and the kept snapshot is served. *)
Lemma failed_capture_keeps_cache_witness :
  cache_fresh (cache Bench.warm_service) (hw_clock Bench.set_back_hw 0) = false /\
  get_all_data Bench.set_back_hw Bench.bq0 [EvClock]
  = (Raise "[Errno 121] Remote I/O error",
     [EvWrite 0x6B REG_ADC_CTRL 0x80; EvClock]) /\
  get_battery_info Bench.set_back_hw Bench.warm_service
  = (Ok (jsonify (BReadFailed "[Errno 121] Remote I/O error") 500),
     set_log [EvWrite 0x6B REG_ADC_CTRL 0x80; EvClock] Bench.warm_service) /\
  cache (set_log [EvWrite 0x6B REG_ADC_CTRL 0x80; EvClock] Bench.warm_service)
  = cache Bench.warm_service /\
  cache_fresh (cache Bench.warm_service) (hw_clock Bench.set_back_hw 2) = true /\
  get_battery_info Bench.set_back_hw
    (set_log [EvWrite 0x6B REG_ADC_CTRL 0x80; EvClock] Bench.warm_service)
  = (Ok (jsonify (BAllData Bench.idle_snapshot) 200),
     set_log [EvClock; EvWrite 0x6B REG_ADC_CTRL 0x80; EvClock] Bench.warm_service).
Proof.
  pose proof (failed_capture_keeps_cache
                Bench.set_back_hw Bench.warm_service
                (set_log [EvClock] Bench.warm_service) Bench.bq0
                "[Errno 121] Remote I/O error"
                [EvWrite 0x6B REG_ADC_CTRL 0x80; EvClock]
                eq_refl eq_refl eq_refl) as (H1 & H2 & H3).
  split; [reflexivity|]. split; [reflexivity|].
  split; [exact H1|]. split; [exact H2|]. split; [reflexivity|].
  exact (H3 Bench.idle_snapshot eq_refl eq_refl).
Defined.

(** C5.  Starting from an empty cache, a first request to [/battery] at
    time [t] that succeeds makes exactly one capture.  A second request
    at time [t'] with [t' - t < cache_timeout] makes no capture and no
    bus call, and returns the very answer of the first.  A third request
    at time [t''] with [t'' - t < cache_timeout] false makes a second
    capture. *)
Theorem cache_gate_sequence :
  forall (hw : Hardware) (s0 s1 : Service) (r1 : Response),
    cache s0 = empty_cache ->
    get_battery_info hw s0 = (Ok r1, s1) ->
    code r1 = 200 ->
    let t := hw_clock hw (List.length (log s0)) in
    let t' := hw_clock hw (List.length (log s1)) in
    let s2 := set_log (EvClock :: log s1) s1 in
    let t'' := hw_clock hw (List.length (log s2)) in
    captures (log s1) = Datatypes.S (captures (log s0)) /\
    (PrimFloat.ltb (t' - t)%float cache_timeout = true ->
     get_battery_info hw s1 = (Ok r1, s2) /\
     captures (log s2) = captures (log s1) /\
     bus_calls (log s2) = bus_calls (log s1) /\
     (PrimFloat.ltb (t'' - t)%float cache_timeout = false ->
      captures (log (snd (get_battery_info hw s2)))
      = Datatypes.S (captures (log s2)))).
Proof.
  intros hw s0 s1 r1 Hempty Hrun Hcode. cbv zeta.
  rewrite get_battery_info_unfold in Hrun. cbv zeta in Hrun.
  rewrite Hempty in Hrun. cbn [cache_fresh empty_cache cache_data] in Hrun.
  rewrite refresh_unfold in Hrun.
  destruct (get_bq_instance hw (set_log (EvClock :: log s0) s0))
    as [[bq | e] sa] eqn:Hinst.
  2:{ injection Hrun as <- _. cbn in Hcode. discriminate Hcode. }
  pose proof (captures_get_all_data hw bq (log sa)) as Hcap.
  destruct (get_all_data hw bq (log sa)) as [[data | e] l] eqn:Hall.
  2:{ injection Hrun as <- _. cbn in Hcode. discriminate Hcode. }
  cbn [snd] in Hcap.
  apply get_bq_instance_inv in Hinst. destruct Hinst as (_ & Hc & Hsome).
  specialize (Hsome bq eq_refl).
  injection Hrun as <- <-.
  cbn [log set_cache set_log cache] in *.
  split; [rewrite Hcap, Hc; reflexivity|].
  intros Hfresh.
  split; [|split; [reflexivity|split; [reflexivity|]]].
  - apply get_battery_info_fresh; [reflexivity|exact Hfresh].
  - intros Hstale.
    rewrite get_battery_info_unfold. cbv zeta.
    cbn [log set_cache set_log cache cache_fresh cache_data cache_timestamp].
    cbn [List.length] in Hstale |- *. rewrite Hstale.
    rewrite refresh_unfold.
    rewrite (get_bq_instance_some hw _ bq) by exact Hsome.
    cbn [log set_cache set_log].
    pose proof (captures_get_all_data hw bq (EvClock :: EvClock :: l)) as Hcap3.
    destruct (get_all_data hw bq (EvClock :: EvClock :: l)) as [[d3 | e3] l3];
      cbn [snd log set_cache set_log] in *; exact Hcap3.
Qed.

(** A healthy board; the clock reads 100.0 during the first request,
    100.5 at the second and 101.5 at the third: one capture, none, one
    more. *)
Lemma cache_gate_sequence_witness :
  exists r1 s1,
    get_battery_info Bench.three_requests_hw startup = (Ok r1, s1) /\
    code r1 = 200 /\
    captures (log s1) = 1%nat /\
    PrimFloat.ltb (hw_clock Bench.three_requests_hw 30
                   - hw_clock Bench.three_requests_hw 0)%float cache_timeout = true /\
    get_battery_info Bench.three_requests_hw s1
    = (Ok r1, set_log (EvClock :: log s1) s1) /\
    PrimFloat.ltb (hw_clock Bench.three_requests_hw 31
                   - hw_clock Bench.three_requests_hw 0)%float cache_timeout = false /\
    captures (log (snd (get_battery_info Bench.three_requests_hw
                                         (set_log (EvClock :: log s1) s1))))
    = 2%nat.
Proof.
  destruct (get_battery_info Bench.three_requests_hw startup) as [r s1] eqn:Hrun.
  vm_compute in Hrun. injection Hrun as <- <-.
  eexists. eexists. split; [reflexivity|].
  match goal with
  | |- context [get_battery_info _ ?s = (Ok ?r, _)] =>
      pose proof (cache_gate_sequence Bench.three_requests_hw startup s r
                    eq_refl eq_refl eq_refl) as (H1 & H2)
  end.
  cbv zeta in H2.
  destruct (H2 eq_refl) as (H3 & _ & _ & H4).
  split; [reflexivity|]. split; [exact H1|]. split; [reflexivity|].
  split; [exact H3|]. split; [reflexivity|].
  exact (H4 eq_refl).
Defined.

End ServiceClaims.

(* ================================================================= *)
(** ** Concurrent requests to /battery *)

Section Concurrency.

Import BQ25790 Monitor.

Lemma count_set_nth {A : Type} (f : A -> bool) (new old : A) :
  forall (l : list A) (i : nat),
    nth_error l i = Some old ->
    (List.length (filter f (set_nth i new l)) + weight (f old)
     = List.length (filter f l) + weight (f new))%nat.
Proof.
  induction l as [|x l IH]; intros [|i] H; cbn in H; try discriminate H.
  - injection H as ->. cbn [set_nth filter].
    destruct (f old), (f new); cbn [List.length weight]; lia.
  - specialize (IH i H). cbn [set_nth filter].
    destruct (f x); cbn [List.length]; lia.
Qed.

Lemma nobody_in_flight_on_arrival (n : nat) :
  filter holds_lock (repeat AtEntry n) = [].
Proof. induction n as [|n IH]; [reflexivity | exact IH]. Qed.

Variable hw : Hardware.

(** The lock is held exactly while one thread is between acquiring and
    releasing it. *)
Lemma lock_invariant (g : Service) (n : nat) (sys : Sys) :
  reachable hw g n sys -> in_flight sys = weight (bq_lock sys).
Proof.
  induction 1 as [|sys i sys' Hreach IH Hstep].
  - unfold in_flight, arrive. cbn [threads bq_lock].
    rewrite nobody_in_flight_on_arrival. reflexivity.
  - unfold step in Hstep. unfold in_flight in *.
    destruct (nth_error (threads sys) i) as [pc|] eqn:Hpc; [|discriminate Hstep].
    destruct pc as [|now|now|now bq|now data|r].
    + destruct (lift (time_time hw) (globals sys)) as [[now|e] g1];
        [|discriminate Hstep].
      destruct (cache_fresh (cache g1) now).
      * destruct (cache_data (cache g1)); [|discriminate Hstep].
        injection Hstep as <-. cbn [threads bq_lock at_pc].
        pose proof (count_set_nth holds_lock
                      (Finished (jsonify (BAllData a) 200)) _ _ _ Hpc) as Hc.
        cbn [holds_lock weight] in Hc |- *. lia.
      * injection Hstep as <-. cbn [threads bq_lock at_pc].
        pose proof (count_set_nth holds_lock (AtLock now) _ _ _ Hpc) as Hc.
        cbn [holds_lock weight] in Hc |- *. lia.
    + destruct (bq_lock sys) eqn:Hlk; [discriminate Hstep|].
      injection Hstep as <-. cbn [threads bq_lock at_pc].
      pose proof (count_set_nth holds_lock (InLock now) _ _ _ Hpc) as Hc.
      cbn [holds_lock weight] in *. lia.
    + pose proof (count_set_nth holds_lock AtEntry _ _ _ Hpc) as Hpos.
      cbn [holds_lock weight] in Hpos.
      destruct (bq_lock sys) eqn:Hlk; cbn [weight] in IH; [|lia].
      destruct (get_bq_instance hw (globals sys)) as [[bq|e] g1];
        injection Hstep as <-; cbn [threads bq_lock at_pc].
      * pose proof (count_set_nth holds_lock (InCapture now bq) _ _ _ Hpc) as Hc.
        cbn [holds_lock weight] in Hc |- *. lia.
      * pose proof (count_set_nth holds_lock
                      (Finished (jsonify (BReadFailed e) 500)) _ _ _ Hpc) as Hc.
        cbn [holds_lock weight] in Hc |- *. lia.
    + pose proof (count_set_nth holds_lock AtEntry _ _ _ Hpc) as Hpos.
      cbn [holds_lock weight] in Hpos.
      destruct (bq_lock sys) eqn:Hlk; cbn [weight] in IH; [|lia].
      destruct (lift (get_all_data hw bq) (globals sys)) as [[data|e] g1];
        injection Hstep as <-; cbn [threads bq_lock at_pc].
      * pose proof (count_set_nth holds_lock (AtPublish now data) _ _ _ Hpc) as Hc.
        cbn [holds_lock weight] in Hc |- *. lia.
      * pose proof (count_set_nth holds_lock
                      (Finished (jsonify (BReadFailed e) 500)) _ _ _ Hpc) as Hc.
        cbn [holds_lock weight] in Hc |- *. lia.
    + injection Hstep as <-. cbn [threads bq_lock at_pc].
      pose proof (count_set_nth holds_lock
                    (Finished (jsonify (BAllData data) 200)) _ _ _ Hpc) as Hc.
      cbn [holds_lock weight] in Hc |- *. lia.
    + discriminate Hstep.
Qed.

(** A step that issues a bus call is a step of a thread inside the lock. *)
Lemma bus_calls_need_lock (sys sys' : Sys) (i : nat) :
  step hw i sys = Some sys' ->
  bus_calls (log (globals sys')) <> bus_calls (log (globals sys)) ->
  exists pc, nth_error (threads sys) i = Some pc /\ holds_lock pc = true.
Proof.
  unfold step. intros Hstep Hbus.
  destruct (nth_error (threads sys) i) as [pc|]; [|discriminate Hstep].
  exists pc. split; [reflexivity|].
  destruct pc as [|now|now|now bq|now data|r]; try reflexivity; exfalso.
  - unfold lift, time_time in Hstep.
    destruct (cache_fresh _ _) in Hstep.
    + destruct (cache_data _) in Hstep; [|discriminate Hstep].
      injection Hstep as <-. apply Hbus. reflexivity.
    + injection Hstep as <-. apply Hbus. reflexivity.
  - destruct (bq_lock sys); [discriminate Hstep|].
    injection Hstep as <-. apply Hbus. reflexivity.
  - injection Hstep as <-. apply Hbus. reflexivity.
  - discriminate Hstep.
Qed.

Lemma in_flight_positive (sys : Sys) (i : nat) (pc : Pc) :
  nth_error (threads sys) i = Some pc -> holds_lock pc = true ->
  (1 <= in_flight sys)%nat.
Proof.
  intros Hpc Hh. unfold in_flight.
  pose proof (count_set_nth holds_lock AtEntry _ _ _ Hpc) as Hc.
  rewrite Hh in Hc. cbn [holds_lock weight] in Hc. lia.
Qed.

Lemma run_reachable (g : Service) (n : nat) (schedule : list nat) :
  forall sys sys',
    reachable hw g n sys -> run hw schedule sys = Some sys' -> reachable hw g n sys'.
Proof.
  induction schedule as [|i rest IH]; intros sys sys' Hr Hrun; cbn [run] in Hrun.
  - injection Hrun as <-. exact Hr.
  - destruct (step hw i sys) as [sys1|] eqn:Hstep; [|discriminate Hrun].
    apply (IH sys1 sys'); [|exact Hrun].
    eapply reach_step; eassumption.
Qed.

(** One request running alone goes through the steps of the concurrent
    semantics to the answer and the state [get_battery_info] gives. *)
Lemma solo_request_is_handler (g g' : Service) (r : Response) :
  get_battery_info hw g = (Ok r, g') ->
  exists schedule,
    run hw schedule (arrive g 1)
    = Some {| globals := g'; bq_lock := false; threads := [Finished r] |}.
Proof.
  rewrite get_battery_info_unfold. cbv zeta. intros H.
  destruct (cache_fresh (cache g) (hw_clock hw (List.length (log g)))) eqn:Hf.
  - destruct (cache_data (cache g)) as [data|] eqn:Hd; [|discriminate H].
    injection H as <- <-. exists [0%nat].
    unfold run, step, arrive, lift, time_time.
    cbn -[get_bq_instance get_all_data cache_fresh]. rewrite Hf, Hd. reflexivity.
  - rewrite refresh_unfold in H.
    destruct (get_bq_instance hw (set_log (EvClock :: log g) g))
      as [[bq|e] g1] eqn:Hi.
    + destruct (get_all_data hw bq (log g1)) as [[data|e] l] eqn:Hall;
        injection H as <- <-.
      * exists [0; 0; 0; 0; 0]%nat.
        unfold run, step, arrive, lift, time_time.
        cbn -[get_bq_instance get_all_data cache_fresh]. rewrite Hf.
        cbn -[get_bq_instance get_all_data cache_fresh]. rewrite Hi.
        cbn -[get_bq_instance get_all_data cache_fresh]. rewrite Hall.
        reflexivity.
      * exists [0; 0; 0; 0]%nat.
        unfold run, step, arrive, lift, time_time.
        cbn -[get_bq_instance get_all_data cache_fresh]. rewrite Hf.
        cbn -[get_bq_instance get_all_data cache_fresh]. rewrite Hi.
        cbn -[get_bq_instance get_all_data cache_fresh]. rewrite Hall.
        reflexivity.
    + injection H as <- <-. exists [0; 0; 0]%nat.
      unfold run, step, arrive, lift, time_time.
      cbn -[get_bq_instance get_all_data cache_fresh]. rewrite Hf.
      cbn -[get_bq_instance get_all_data cache_fresh]. rewrite Hi.
      reflexivity.
Qed.

End Concurrency.

Section ConcurrencyClaims.

Import BQ25790 Monitor.

(** C8 (as the code has it).  In every state reachable by interleaving
    any number of [/battery] requests, at most one thread is between
    acquiring and releasing [bq_lock], and the lock is held exactly then;
    a step that issues a bus call is a step of that thread, so all device
    I/O is serialized behind the lock.  Freshness is checked once, before
    the lock: a thread that has the lock and the instance runs its
    capture whatever the cache holds by then. *)
Theorem lock_serializes_captures :
  forall (hw : Hardware) (g : Service) (n : nat) (sys : Sys),
    reachable hw g n sys ->
    (in_flight sys <= 1)%nat /\
    in_flight sys = weight (bq_lock sys) /\
    (forall i sys',
        step hw i sys = Some sys' ->
        bus_calls (log (globals sys')) <> bus_calls (log (globals sys)) ->
        bq_lock sys = true /\
        exists pc, nth_error (threads sys) i = Some pc /\ holds_lock pc = true) /\
    (forall i now bq,
        nth_error (threads sys) i = Some (InCapture now bq) ->
        exists sys',
          step hw i sys = Some sys' /\
          captures (log (globals sys'))
          = Datatypes.S (captures (log (globals sys)))).
Proof.
  intros hw g n sys Hreach.
  pose proof (lock_invariant hw g n sys Hreach) as Hinv.
  split; [rewrite Hinv; destruct (bq_lock sys); cbn; lia|].
  split; [exact Hinv|]. split.
  - intros i sys' Hstep Hbus.
    destruct (bus_calls_need_lock hw sys sys' i Hstep Hbus) as (pc & Hpc & Hh).
    split; [|exists pc; split; assumption].
    pose proof (in_flight_positive sys i pc Hpc Hh) as Hpos.
    rewrite Hinv in Hpos. destruct (bq_lock sys); [reflexivity|].
    cbn in Hpos. lia.
  - intros i now bq Hpc. unfold step. rewrite Hpc. unfold lift.
    pose proof (captures_get_all_data hw bq (log (globals sys))) as Hcap.
    destruct (get_all_data hw bq (log (globals sys))) as [[data|e] l];
      eexists; (split; [reflexivity|]); exact Hcap.
Qed.

(** Two requests on a healthy board, the first one in its capture while
    the second waits for the lock: the hypothesis of
    [lock_serializes_captures] holds there. *)
Lemma lock_serializes_captures_witness :
  exists sys,
    run Bench.idle_board [0; 1; 0; 0]%nat (arrive startup 2) = Some sys /\
    threads sys = [InCapture 100.0%float Bench.bq0; AtLock 100.0%float] /\
    step Bench.idle_board 1 sys = None /\
    in_flight sys = 1%nat /\
    bq_lock sys = true /\
    exists sys',
      step Bench.idle_board 0 sys = Some sys' /\
      captures (log (globals sys')) = 1%nat.
Proof.
  destruct (run Bench.idle_board [0; 1; 0; 0]%nat (arrive startup 2))
    as [sys|] eqn:Hrun; [|vm_compute in Hrun; discriminate Hrun].
  pose proof (run_reachable _ _ _ _ _ _ (reach_init _ startup 2) Hrun) as Hreach.
  pose proof (lock_serializes_captures _ _ _ _ Hreach) as (_ & Hfl & _ & Hcap).
  vm_compute in Hrun. injection Hrun as <-.
  eexists. split; [reflexivity|]. split; [reflexivity|]. split; [reflexivity|].
  split; [exact Hfl|]. split; [reflexivity|].
  exact (Hcap 0%nat _ _ eq_refl).
Defined.

(** C8 (as the specification words it) fails: there is no re-check after
    the lock is acquired.  Two requests arrive at time 100.0 and both find
    the cache empty; the second waits for the lock while the first
    captures; when the first has published its snapshot the cache is
    fresh for the second, which nevertheless captures again. *)
Lemma recheck_after_lock_refuted :
  exists waiting published final,
    run Bench.idle_board [0; 1; 0; 0]%nat (arrive startup 2) = Some waiting /\
    threads waiting = [InCapture 100.0%float Bench.bq0; AtLock 100.0%float] /\
    step Bench.idle_board 1 waiting = None /\
    run Bench.idle_board [0; 0]%nat waiting = Some published /\
    nth_error (threads published) 1 = Some (AtLock 100.0%float) /\
    cache_fresh (cache (globals published)) 100.0%float = true /\
    captures (log (globals published)) = 1%nat /\
    run Bench.idle_board [1; 1; 1; 1]%nat published = Some final /\
    captures (log (globals final)) = 2%nat /\
    (exists data, threads final = [Finished (jsonify (BAllData data) 200);
                                   Finished (jsonify (BAllData data) 200)]).
Proof.
  eexists. eexists. eexists.
  split; [vm_compute; reflexivity|].
  split; [reflexivity|]. split; [reflexivity|].
  split; [vm_compute; reflexivity|].
  split; [reflexivity|]. split; [reflexivity|]. split; [reflexivity|].
  split; [vm_compute; reflexivity|].
  split; [reflexivity|].
  eexists. reflexivity.
Qed.

End ConcurrencyClaims.

(* ================================================================= *)
(** ** The driver's readings, beyond the claims *)

Section Readings.

Import BQ25790 Observed Contract.

Lemma lor_is_sum (msb lsb : Z) :
  0 <= msb -> 0 <= lsb < 256 -> Z.lor (Z.shiftl msb 8) lsb = 256 * msb + lsb.
Proof.
  intros Hm Hl.
  assert (Hq : (256 * msb + lsb) / 256 = msb).
  { symmetry. apply Z.div_unique with (r := lsb); lia. }
  assert (Hr : (256 * msb + lsb) mod 256 = lsb).
  { symmetry. apply Z.mod_unique with (q := msb); lia. }
  rewrite <- Hq at 1. rewrite <- Hr at 2.
  apply word_of_bytes. lia.
Qed.

(** X1.  [read_register_16bit] reads the byte at [register] first and the
    byte at [register + 1] second and returns [256 * msb + lsb], a value
    in [0, 65535]; when the first read raises, the second is not issued;
    either failure is passed on to the caller. *)
Theorem word_read_big_endian :
  forall (hw : Hardware) (self : BQ25790.t) (reg : Z) (log : Log),
    byte_bus hw ->
    match hw_read hw (List.length log) (address self) reg with
    | Raise e =>
        read_register_16bit hw self reg log
        = (Raise e, EvRead (address self) reg :: log)
    | Ok msb =>
        match hw_read hw (Datatypes.S (List.length log)) (address self) (reg + 1) with
        | Raise e =>
            read_register_16bit hw self reg log
            = (Raise e,
               EvRead (address self) (reg + 1) :: EvRead (address self) reg :: log)
        | Ok lsb =>
            read_register_16bit hw self reg log
            = (Ok (256 * msb + lsb),
               EvRead (address self) (reg + 1) :: EvRead (address self) reg :: log) /\
            0 <= 256 * msb + lsb <= 65535
        end
    end.
Proof.
  intros hw self reg log Hb.
  unfold read_register_16bit, bind, read_byte_data, ret.
  destruct (hw_read hw (List.length log) (address self) reg) as [msb|e] eqn:Hm;
    [|reflexivity].
  cbn [List.length].
  destruct (hw_read hw (Datatypes.S (List.length log)) (address self) (reg + 1))
    as [lsb|e] eqn:Hl; [|reflexivity].
  pose proof (Hb _ _ _ _ Hm) as Hmr. pose proof (Hb _ _ _ _ Hl) as Hlr.
  rewrite lor_is_sum by lia. split; [reflexivity | lia].
Qed.

(** Bytes 0x12, 0x12 on the bus: the word read is 0x1212. *)
Lemma word_read_big_endian_witness :
  byte_bus (Bench.const_hw 0x12 0%float) /\
  read_register_16bit (Bench.const_hw 0x12 0%float) Bench.bq0 REG_VBAT_ADC []
  = (Ok 0x1212, [EvRead 0x6B 0x32; EvRead 0x6B 0x31]) /\
  0 <= 0x1212 <= 65535.
Proof.
  split; [apply const_hw_byte_bus; lia|].
  exact (word_read_big_endian (Bench.const_hw 0x12 0%float) Bench.bq0 REG_VBAT_ADC []
           (const_hw_byte_bus 0x12 0%float ltac:(lia))).
Defined.

Lemma word_getter_run (hw : Hardware) (self : BQ25790.t) (reg : Z) (f : Z -> float)
      (log : Log) (raw : Z) :
  0 <= raw ->
  delivers hw (address self) (List.length log) reg raw ->
  bind (read_register_16bit hw self reg) (fun w => ret (f w)) log
  = (Ok (f raw),
     EvRead (address self) (reg + 1) :: EvRead (address self) reg :: log).
Proof.
  intros Hr [Hm Hl].
  rewrite (bind_step _ _ _ _ _ (read_register_16bit_word hw self reg log raw Hr Hm Hl)).
  reflexivity.
Qed.

Lemma volts_profile (raw : Z) :
  0 <= raw <= 65535 ->
  PrimFloat.leb 0 (volts raw) = true /\
  PrimFloat.leb (volts raw) 65.535 = true /\
  (raw < 65535 -> PrimFloat.ltb (volts raw) (volts (raw + 1)) = true).
Proof.
  intros Hr.
  pose proof (all_words_spec
                (fun r => PrimFloat.leb 0 (volts r)
                          && PrimFloat.leb (volts r) 65.535
                          && ((r =? 65535) || PrimFloat.ltb (volts r) (volts (r + 1))))
                ltac:(vm_cast_no_check (eq_refl true)) raw ltac:(lia)) as H.
  cbv beta in H. apply andb_true_iff in H. destruct H as [H H3].
  apply andb_true_iff in H. destruct H as [H1 H2].
  repeat split; try assumption.
  intros Hlt. apply orb_true_iff in H3. destruct H3 as [H3|H3]; [|exact H3].
  apply Z.eqb_eq in H3. lia.
Qed.

(** X2.  The four unsigned getters (battery, system and bus voltage, bus
    current) return the word of their own register divided by 1000.0.
    That reading lies between 0 and 65.535, grows strictly with the word
    (so no two words give the same reading), and rounding it to three
    decimals leaves it unchanged. *)
Theorem unsigned_readings_scaled_and_bounded :
  forall (hw : Hardware) (self : BQ25790.t) (log : Log) (raw : Z),
    0 <= raw <= 65535 ->
    let a := address self in
    let n := List.length log in
    let v := (PyFloat.of_Z raw / 1000)%float in
    (delivers hw a n REG_VBAT_ADC raw ->
     fst (get_battery_voltage hw self log) = Ok v) /\
    (delivers hw a n REG_VSYS_ADC raw ->
     fst (get_system_voltage hw self log) = Ok v) /\
    (delivers hw a n REG_VBUS_ADC raw ->
     fst (get_bus_voltage hw self log) = Ok v) /\
    (delivers hw a n REG_IBUS_ADC raw ->
     fst (get_bus_current hw self log) = Ok v) /\
    PrimFloat.leb 0 v = true /\
    PrimFloat.leb v 65.535 = true /\
    (raw < 65535 ->
     PrimFloat.ltb v (PyFloat.of_Z (raw + 1) / 1000)%float = true) /\
    PyFloat.round v 3 = v.
Proof.
  intros hw self log raw Hr. cbv zeta.
  destruct (volts_profile raw Hr) as (H1 & H2 & H3).
  repeat split; try assumption.
  - intros Hd.
    exact (f_equal fst (word_getter_run hw self _ volts log raw (proj1 Hr) Hd)).
  - intros Hd.
    exact (f_equal fst (word_getter_run hw self _ volts log raw (proj1 Hr) Hd)).
  - intros Hd.
    exact (f_equal fst (word_getter_run hw self _ volts log raw (proj1 Hr) Hd)).
  - intros Hd.
    exact (f_equal fst (word_getter_run hw self _ volts log raw (proj1 Hr) Hd)).
  - apply (round_volts_fixed raw). lia.
Qed.

(** The word 0x1010 on the bus: every unsigned getter reads 4.112. *)
Lemma unsigned_readings_scaled_and_bounded_witness :
  0 <= 4112 <= 65535 /\
  delivers (Bench.const_hw 0x10 0%float) 0x6B 0 REG_VBAT_ADC 4112 /\
  fst (get_battery_voltage (Bench.const_hw 0x10 0%float) Bench.bq0 [])
  = Ok 4.112%float /\
  fst (get_bus_current (Bench.const_hw 0x10 0%float) Bench.bq0 [])
  = Ok 4.112%float /\
  PyFloat.round 4.112%float 3 = 4.112%float.
Proof.
  split; [lia|]. split; [split; reflexivity|].
  pose proof (unsigned_readings_scaled_and_bounded
                (Bench.const_hw 0x10 0%float) Bench.bq0 [] 4112 ltac:(lia))
    as (H1 & _ & _ & H4 & _ & _ & _ & H8).
  split; [exact (H1 (conj eq_refl eq_refl))|].
  split; [exact (H4 (conj eq_refl eq_refl))|].
  exact H8.
Defined.

Lemma celsius_profile (raw : Z) :
  0 <= raw <= 65535 ->
  celsius raw = (PyFloat.of_Z (raw - 80) / 2)%float /\
  PrimFloat.leb (-40) (celsius raw) = true /\
  PrimFloat.leb (celsius raw) 32727.5 = true /\
  (raw < 65535 -> PrimFloat.ltb (celsius raw) (celsius (raw + 1)) = true) /\
  PyFloat.round (celsius raw) 1 = celsius raw.
Proof.
  intros Hr.
  pose proof (all_words_spec
                (fun r => PyFloat.same (celsius r) (PyFloat.of_Z (r - 80) / 2)
                          && PrimFloat.leb (-40) (celsius r)
                          && PrimFloat.leb (celsius r) 32727.5
                          && ((r =? 65535)
                              || PrimFloat.ltb (celsius r) (celsius (r + 1)))
                          && PyFloat.same (PyFloat.round (celsius r) 1) (celsius r))
                ltac:(vm_cast_no_check (eq_refl true)) raw ltac:(lia)) as H.
  cbv beta in H. apply andb_true_iff in H. destruct H as [H H5].
  apply andb_true_iff in H. destruct H as [H H4].
  apply andb_true_iff in H. destruct H as [H H3].
  apply andb_true_iff in H. destruct H as [H1 H2].
  split; [apply same_eq; exact H1|].
  split; [exact H2|]. split; [exact H3|].
  split; [|apply same_eq; exact H5].
  intros Hlt. apply orb_true_iff in H4. destruct H4 as [H4|H4]; [|exact H4].
  apply Z.eqb_eq in H4. lia.
Qed.

(** X3.  [get_die_temperature] returns [raw * 0.5 - 40.0] for the TDIE
    word, which is exactly [(raw - 80) / 2]: -40.0 for 0, 0.0 for 80, and
    nothing is clamped, the reading growing strictly with the word up to
    32727.5 for 0xFFFF.  Rounding it to one decimal leaves it
    unchanged. *)
Theorem die_temperature_exact :
  forall (hw : Hardware) (self : BQ25790.t) (log : Log) (raw : Z),
    0 <= raw <= 65535 ->
    delivers hw (address self) (List.length log) REG_TDIE_ADC raw ->
    exists t,
      fst (get_die_temperature hw self log) = Ok t /\
      t = (PyFloat.of_Z (raw - 80) / 2)%float /\
      (raw = 0 -> t = (-40)%float) /\
      (raw = 80 -> t = 0%float) /\
      (raw = 65535 -> t = 32727.5%float) /\
      PrimFloat.leb (-40) t = true /\
      PrimFloat.leb t 32727.5 = true /\
      (raw < 65535 ->
       PrimFloat.ltb t (PyFloat.of_Z (raw + 1) * 0.5 - 40)%float = true) /\
      PyFloat.round t 1 = t.
Proof.
  intros hw self log raw Hr Hd.
  destruct (celsius_profile raw Hr) as (H1 & H2 & H3 & H4 & H5).
  exists (celsius raw). split.
  - exact (f_equal fst (word_getter_run hw self _ celsius log raw (proj1 Hr) Hd)).
  - split; [exact H1|].
    split; [intros ->; vm_compute; reflexivity|].
    split; [intros ->; vm_compute; reflexivity|].
    split; [intros ->; vm_compute; reflexivity|].
    repeat split; assumption.
Qed.

(** The word 0x1010 on the bus: the die reads 2016.0 degrees. *)
Lemma die_temperature_exact_witness :
  0 <= 4112 <= 65535 /\
  delivers (Bench.const_hw 0x10 0%float) 0x6B 0 REG_TDIE_ADC 4112 /\
  exists t,
    fst (get_die_temperature (Bench.const_hw 0x10 0%float) Bench.bq0 []) = Ok t /\
    t = 2016%float.
Proof.
  split; [lia|]. split; [split; reflexivity|].
  destruct (die_temperature_exact (Bench.const_hw 0x10 0%float) Bench.bq0 [] 4112
              ltac:(lia) (conj eq_refl eq_refl)) as (t & Hrun & Ht & _).
  exists t. split; [exact Hrun|]. rewrite Ht. vm_compute. reflexivity.
Defined.

Lemma amps_profile (raw : Z) :
  0 <= raw <= 65535 ->
  PrimFloat.ltb (amps raw) 0 = (32768 <=? raw) /\
  PrimFloat.leb (-32.768) (amps raw) = true /\
  PrimFloat.leb (amps raw) 32.767 = true /\
  (raw < 65535 -> raw <> 32767 ->
   PrimFloat.ltb (amps raw) (amps (raw + 1)) = true).
Proof.
  intros Hr.
  pose proof (all_words_spec
                (fun r => Bool.eqb (PrimFloat.ltb (amps r) 0) (32768 <=? r)
                          && PrimFloat.leb (-32.768) (amps r)
                          && PrimFloat.leb (amps r) 32.767
                          && ((r =? 65535) || (r =? 32767)
                              || PrimFloat.ltb (amps r) (amps (r + 1))))
                ltac:(vm_cast_no_check (eq_refl true)) raw ltac:(lia)) as H.
  cbv beta in H. apply andb_true_iff in H. destruct H as [H H4].
  apply andb_true_iff in H. destruct H as [H H3].
  apply andb_true_iff in H. destruct H as [H1 H2].
  split; [apply Bool.eqb_prop; exact H1|].
  split; [exact H2|]. split; [exact H3|].
  intros Hlt Hne. apply orb_true_iff in H4. destruct H4 as [H4|H4]; [|exact H4].
  apply orb_true_iff in H4. destruct H4 as [H4|H4]; apply Z.eqb_eq in H4; lia.
Qed.

(** X4.  The battery current is negative exactly for the words from
    32768 on (bit 15 set: the battery discharges), lies between -32.768
    and 32.767, grows strictly with the word on each side of the wrap
    between 32767 and 32768, and is unchanged by rounding to three
    decimals. *)
Theorem battery_current_sign_and_range :
  forall (hw : Hardware) (self : BQ25790.t) (log : Log) (raw : Z),
    0 <= raw <= 65535 ->
    delivers hw (address self) (List.length log) REG_IBAT_ADC raw ->
    exists i,
      fst (get_battery_current hw self log) = Ok i /\
      (PrimFloat.ltb i 0 = true <-> 32768 <= raw) /\
      (PrimFloat.ltb i 0 = true <-> Z.testbit raw 15 = true) /\
      PrimFloat.leb (-32.768) i = true /\
      PrimFloat.leb i 32.767 = true /\
      (raw < 65535 -> raw <> 32767 -> PrimFloat.ltb i (amps (raw + 1)) = true) /\
      PyFloat.round i 3 = i.
Proof.
  intros hw self log raw Hr Hd.
  destruct (amps_profile raw Hr) as (H1 & H2 & H3 & H4).
  exists (amps raw). split.
  - exact (f_equal fst (word_getter_run hw self _ amps log raw (proj1 Hr) Hd)).
  - assert (Hsign : PrimFloat.ltb (amps raw) 0 = true <-> 32768 <= raw).
    { rewrite H1. apply Z.leb_le. }
    split; [exact Hsign|].
    split.
    { rewrite Hsign, top_bit_16 by exact Hr.
      rewrite Z.gtb_ltb, Z.ltb_lt. lia. }
    split; [exact H2|]. split; [exact H3|]. split; [exact H4|].
    apply round_amps_fixed. lia.
Qed.

(** The word 0xFFFF on the bus: the hypotheses hold and the current is
    negative. *)
Lemma battery_current_sign_and_range_witness :
  0 <= 65535 <= 65535 /\
  delivers (Bench.const_hw 255 0%float) 0x6B 0 REG_IBAT_ADC 65535 /\
  exists i,
    fst (get_battery_current (Bench.const_hw 255 0%float) Bench.bq0 []) = Ok i /\
    PrimFloat.ltb i 0 = true.
Proof.
  split; [lia|]. split; [split; reflexivity|].
  destruct (battery_current_sign_and_range (Bench.const_hw 255 0%float) Bench.bq0 []
              65535 ltac:(lia) (conj eq_refl eq_refl))
    as (i & Hrun & Hsign & _).
  exists i. split; [exact Hrun|]. apply Hsign. lia.
Defined.

End Readings.

(* ================================================================= *)
(** ** Status and fault bytes, beyond the claims *)

Section StatusBytes.

Import BQ25790 Observed Contract.

Lemma three_bit_cases (k : Z) :
  0 <= k < 8 ->
  k = 0 \/ k = 1 \/ k = 2 \/ k = 3 \/ k = 4 \/ k = 5 \/ k = 6 \/ k = 7.
Proof. lia. Qed.

(** X5.  [get_charger_status] reads status0, status1, status2 in this
    order and reports: charging = bit 4 of status1; vbus_present = bit 7
    and power_good = bit 2 of status0; battery_present = NOT bit 3 of
    status2; the two names from bits [7:5] of status1 and of status0.
    For status0 = 0x80 the input is present, power is not good and the
    source is "Adjustable HV DCP". *)
Theorem charger_status_flags :
  forall (hw : Hardware) (self : BQ25790.t) (log : Log) (status0 status1 status2 : Z),
    hw_read hw (List.length log) (address self) REG_CHARGER_STATUS_0 = Ok status0 ->
    hw_read hw (1 + List.length log) (address self) REG_CHARGER_STATUS_1 = Ok status1 ->
    hw_read hw (2 + List.length log) (address self) REG_CHARGER_STATUS_2 = Ok status2 ->
    get_charger_status hw self log
    = (Ok {| charging := Z.testbit status1 4;
             charge_status :=
               dict_get charge_status_names (Z.land (Z.shiftr status1 5) 0x07) "Unknown";
             vbus_present := Z.testbit status0 7;
             vbus_status :=
               dict_get vbus_status_names (Z.land (Z.shiftr status0 5) 0x07) "Unknown";
             battery_present := negb (Z.testbit status2 3);
             power_good := Z.testbit status0 2 |},
       EvRead (address self) REG_CHARGER_STATUS_2
         :: EvRead (address self) REG_CHARGER_STATUS_1
         :: EvRead (address self) REG_CHARGER_STATUS_0 :: log) /\
    (status0 = 0x80 ->
     forall st, fst (get_charger_status hw self log) = Ok st ->
                vbus_present st = true /\ power_good st = false /\
                vbus_status st = "Adjustable HV DCP").
Proof.
  intros hw self log status0 status1 status2 H0 H1 H2.
  assert (Hrun : get_charger_status hw self log
    = (Ok {| charging := Z.testbit status1 4;
             charge_status :=
               dict_get charge_status_names (Z.land (Z.shiftr status1 5) 0x07) "Unknown";
             vbus_present := Z.testbit status0 7;
             vbus_status :=
               dict_get vbus_status_names (Z.land (Z.shiftr status0 5) 0x07) "Unknown";
             battery_present := negb (Z.testbit status2 3);
             power_good := Z.testbit status0 2 |},
       EvRead (address self) REG_CHARGER_STATUS_2
         :: EvRead (address self) REG_CHARGER_STATUS_1
         :: EvRead (address self) REG_CHARGER_STATUS_0 :: log)).
  { unfold get_charger_status, bind, read_register, read_byte_data, ret.
    rewrite H0. cbn [List.length]. cbn [Nat.add] in H1, H2. rewrite H1.
    cbn [List.length]. rewrite H2.
    change 0x10 with (2 ^ 4). change 0x80 with (2 ^ 7).
    change 0x08 with (2 ^ 3). change 0x04 with (2 ^ 2).
    rewrite !py_bool_mask by lia. reflexivity. }
  split; [exact Hrun|].
  intros -> st Hst. rewrite Hrun in Hst. cbn [fst] in Hst.
  injection Hst as <-. repeat split.
Qed.

(** A board on a wall adapter (status0 = 0x84, status1 = 0x70): input
    present, power good, charging, "Fast Charge (CC)". *)
Lemma charger_status_flags_witness :
  fst (get_charger_status Bench2.charging_hw Bench.bq0 [])
  = Ok {| charging := true; charge_status := "Fast Charge (CC)";
          vbus_present := true; vbus_status := "Adjustable HV DCP";
          battery_present := true; power_good := true |}.
Proof.
  rewrite (proj1 (charger_status_flags Bench2.charging_hw Bench.bq0 []
                    0x84 0x70 0x00 eq_refl eq_refl eq_refl)).
  reflexivity.
Defined.

Lemma bit7_is_field_bit2 (x : Z) :
  Z.testbit x 7 = (4 <=? Z.land (Z.shiftr x 5) 0x07).
Proof.
  assert (Hk : Z.testbit (Z.land (Z.shiftr x 5) 0x07) 2 = Z.testbit x 7).
  { rewrite Z.land_spec, Z.shiftr_spec by lia. cbn. apply andb_true_r. }
  rewrite <- Hk.
  destruct (three_bit_cases _ (three_bits (Z.shiftr x 5)))
    as [-> | [-> | [-> | [-> | [-> | [-> | [-> | ->]]]]]]]; reflexivity.
Qed.

(** X6.  In every result of [get_charger_status] the two fields taken
    from status0 agree: [vbus_present] is true exactly when [vbus_status]
    is one of "Adjustable HV DCP", "Unknown Adapter", "Non-Standard
    Adapter", "OTG" (bit 7 is the top bit of the source field); so "No
    Input" and the three USB sources are always reported with
    [vbus_present] false.  The source is always one of the eight names,
    never "Unknown". *)
Theorem vbus_present_follows_source :
  forall (hw : Hardware) (self : BQ25790.t) (log log' : Log) (st : ChargerStatus),
    get_charger_status hw self log = (Ok st, log') ->
    In (vbus_status st) (map snd vbus_status_names) /\
    (vbus_present st = true <->
     In (vbus_status st)
        ["Adjustable HV DCP"; "Unknown Adapter"; "Non-Standard Adapter"; "OTG"]) /\
    (vbus_present st = false <->
     In (vbus_status st)
        ["No Input"; "USB SDP (500mA)"; "USB CDP (1.5A)"; "USB DCP (3A)"]).
Proof.
  intros hw self log log' st H.
  unfold get_charger_status in H.
  apply bind_ok in H. destruct H as (s0 & l0 & H0 & H).
  apply bind_ok in H. destruct H as (s1 & l1 & H1 & H).
  apply bind_ok in H. destruct H as (s2 & l2 & H2 & H).
  unfold ret in H. injection H as <- _.
  cbn [vbus_status vbus_present].
  change 0x80 with (2 ^ 7). rewrite py_bool_mask by lia.
  rewrite bit7_is_field_bit2.
  destruct (three_bit_cases _ (three_bits (Z.shiftr s0 5)))
    as [-> | [-> | [-> | [-> | [-> | [-> | [-> | ->]]]]]]];
    cbn; (split; [tauto|]);
    split; split; intros Hx; try reflexivity; try discriminate Hx; try tauto;
    repeat (destruct Hx as [Hx|Hx]; [discriminate Hx|]); try contradiction.
Qed.

(** status0 = 0x84 on the bus: the hypothesis holds. *)
Lemma vbus_present_follows_source_witness :
  exists st log',
    get_charger_status Bench2.charging_hw Bench.bq0 [] = (Ok st, log') /\
    vbus_present st = true /\
    In (vbus_status st)
       ["Adjustable HV DCP"; "Unknown Adapter"; "Non-Standard Adapter"; "OTG"].
Proof.
  eexists. eexists. split; [reflexivity|]. split; [reflexivity|].
  apply (vbus_present_follows_source Bench2.charging_hw Bench.bq0 [] _ _ eq_refl).
  reflexivity.
Defined.

Lemma land_through_mask (x mask m : Z) :
  Z.land mask m = m -> Z.land x m = Z.land (Z.land x mask) m.
Proof. intros H. rewrite <- Z.land_assoc, H. reflexivity. Qed.

(** X7.  [get_fault_status] looks at bits 7..1 of fault0 and at bits 7,
    6 and 3 of fault1 only: two pairs of bytes that agree under the masks
    0xFE and 0xC8 give the same ten flags, whatever bit 0 of fault0 and
    bits 5, 4, 2, 1, 0 of fault1 hold. *)
Theorem fault_flags_ignore_other_bits :
  forall (hw hw' : Hardware) (self : BQ25790.t) (log log' : Log)
         (fault0 fault1 fault0' fault1' : Z),
    hw_read hw (List.length log) (address self) REG_FAULT_STATUS_0 = Ok fault0 ->
    hw_read hw (1 + List.length log) (address self) REG_FAULT_STATUS_1 = Ok fault1 ->
    hw_read hw' (List.length log') (address self) REG_FAULT_STATUS_0 = Ok fault0' ->
    hw_read hw' (1 + List.length log') (address self) REG_FAULT_STATUS_1 = Ok fault1' ->
    Z.land fault0 0xFE = Z.land fault0' 0xFE ->
    Z.land fault1 0xC8 = Z.land fault1' 0xC8 ->
    fst (get_fault_status hw self log) = fst (get_fault_status hw' self log').
Proof.
  intros hw hw' self log log' f0 f1 g0 g1 H0 H1 G0 G1 E0 E1.
  unfold get_fault_status, bind, read_register, read_byte_data, ret.
  cbn [Nat.add] in H1, G1.
  rewrite H0, G0. cbn [List.length]. rewrite H1, G1. cbn [fst].
  rewrite (land_through_mask f0 0xFE 0x80), (land_through_mask f0 0xFE 0x40),
    (land_through_mask f0 0xFE 0x20), (land_through_mask f0 0xFE 0x10),
    (land_through_mask f0 0xFE 0x08), (land_through_mask f0 0xFE 0x04),
    (land_through_mask f0 0xFE 0x02), (land_through_mask f1 0xC8 0x80),
    (land_through_mask f1 0xC8 0x40), (land_through_mask f1 0xC8 0x08)
    by reflexivity.
  rewrite (land_through_mask g0 0xFE 0x80), (land_through_mask g0 0xFE 0x40),
    (land_through_mask g0 0xFE 0x20), (land_through_mask g0 0xFE 0x10),
    (land_through_mask g0 0xFE 0x08), (land_through_mask g0 0xFE 0x04),
    (land_through_mask g0 0xFE 0x02), (land_through_mask g1 0xC8 0x80),
    (land_through_mask g1 0xC8 0x40), (land_through_mask g1 0xC8 0x08)
    by reflexivity.
  rewrite E0, E1. reflexivity.
Qed.

(** fault0 = 0x83, fault1 = 0x7F against fault0 = 0x82, fault1 = 0x48:
    the same flags. *)
Lemma fault_flags_ignore_other_bits_witness :
  Z.land 0x83 0xFE = Z.land 0x82 0xFE /\
  Z.land 0x7F 0xC8 = Z.land 0x48 0xC8 /\
  fst (get_fault_status Bench2.charging_hw Bench.bq0 [])
  = fst (get_fault_status Bench2.masked_faults_hw Bench.bq0 []).
Proof.
  split; [reflexivity|]. split; [reflexivity|].
  exact (fault_flags_ignore_other_bits
           Bench2.charging_hw Bench2.masked_faults_hw Bench.bq0 [] []
           0x83 0x7F 0x82 0x48 eq_refl eq_refl eq_refl eq_refl eq_refl eq_refl).
Defined.

End StatusBytes.

(* ================================================================= *)
(** ** The endpoints, beyond the claims *)

Section EndpointFacts.

Import BQ25790 Monitor Observed Contract Routes.

Variable hw : Hardware.

(** What [get_bq_instance] does, case by case. *)
Lemma get_bq_instance_unfold (s : Service) :
  get_bq_instance hw s
  = match bq_instance s with
    | Some bq => (Ok bq, s)
    | None =>
        match hw_open hw (List.length (log s)) 1 with
        | Ok _ =>
            (Ok {| bus_number := 1; address := 0x6B |},
             {| bq_instance := Some {| bus_number := 1; address := 0x6B |};
                last_error := None;
                cache := cache s;
                log := EvOpen 1 :: log s |})
        | Raise e =>
            (Raise e,
             {| bq_instance := None;
                last_error := Some e;
                cache := cache s;
                log := EvOpen 1 :: log s |})
        end
    end.
Proof.
  unfold get_bq_instance, bind, get.
  destruct (bq_instance s) as [bq|] eqn:Hi; [reflexivity|].
  unfold try_except, bind, lift, BQ25790.init, bind, smbus_open, ret, modify, raise.
  unfold set_last_error, set_bq_instance, set_log.
  destruct (hw_open hw (List.length (log s)) 1) as [[]|e]; cbn; rewrite ?Hi; reflexivity.
Qed.

Lemma reading_handler_unfold {X : Type} (op : BQ25790.t -> M Log X)
      (f : X -> Response) (g : string -> Response) (s : Service) :
  reading_handler hw op f g s
  = match get_bq_instance hw s with
    | (Ok bq, s1) =>
        match op bq (log s1) with
        | (Ok x, l) => (Ok (f x), set_log l s1)
        | (Raise e, l) => (Ok (g e), set_log l s1)
        end
    | (Raise e, s1) => (Ok (g e), s1)
    end.
Proof.
  unfold reading_handler, try_except, bind at 1.
  destruct (get_bq_instance hw s) as [[bq|e] s1]; [|reflexivity].
  unfold bind, lift.
  destruct (op bq (log s1)) as [[x|e] l]; reflexivity.
Qed.

Lemma health_unfold (s : Service) :
  health hw s
  = match get_bq_instance hw s with
    | (Ok _, s1) => (Ok (jsonify BHealthy 200), s1)
    | (Raise e, s1) => (Ok (jsonify (BUnhealthy e) 503), s1)
    end.
Proof.
  unfold health, try_except, bind.
  destruct (get_bq_instance hw s) as [[bq|e] s1]; reflexivity.
Qed.

Lemma issues_status (self : BQ25790.t) :
  issues (get_charger_status hw self)
         [EvRead (address self) REG_CHARGER_STATUS_0;
          EvRead (address self) REG_CHARGER_STATUS_1;
          EvRead (address self) REG_CHARGER_STATUS_2].
Proof.
  unfold get_charger_status, read_register.
  eapply issues_eq.
  - apply issues_bind; [apply issues_read|]. intros s0.
    apply issues_bind; [apply issues_read|]. intros s1.
    apply issues_bind; [apply issues_read|]. intros s2.
    apply issues_ret.
  - reflexivity.
Qed.

Lemma issues_faults (self : BQ25790.t) :
  issues (get_fault_status hw self)
         [EvRead (address self) REG_FAULT_STATUS_0;
          EvRead (address self) REG_FAULT_STATUS_1].
Proof.
  unfold get_fault_status, read_register.
  eapply issues_eq.
  - apply issues_bind; [apply issues_read|]. intros f0.
    apply issues_bind; [apply issues_read|]. intros f1.
    apply issues_ret.
  - reflexivity.
Qed.

Lemma forallb_rev {A : Type} (p : A -> bool) (l : list A) :
  forallb p (rev l) = forallb p l.
Proof.
  induction l as [|x l IH]; [reflexivity|].
  cbn [rev forallb]. rewrite forallb_app, IH. cbn [forallb].
  rewrite andb_true_r. apply andb_comm.
Qed.

(** Calls that all pass [p] keep a log that passes [p]. *)
Lemma issues_forallb {A : Type} (m : M Log A) (calls : list Event)
      (p : Event -> bool) :
  issues m calls -> forallb p calls = true ->
  forall l, forallb p l = true -> forallb p (snd (m l)) = true.
Proof.
  intros Hm Hc l Hl. destruct (Hm l) as (done & Hlog & Hres).
  rewrite Hlog, forallb_app, forallb_rev, Hl, andb_true_r.
  destruct (fst (m l)).
  - subst done. exact Hc.
  - destruct Hres as [_ (rest & ->)].
    rewrite forallb_app in Hc. apply andb_true_iff in Hc. tauto.
Qed.

Lemma get_bq_instance_kept (s : Service) :
  kept s ->
  kept (snd (get_bq_instance hw s)) /\
  (forall bq, fst (get_bq_instance hw s) = Ok bq ->
              bq = {| bus_number := 1; address := 0x6B |}).
Proof.
  intros Hk. pose proof Hk as (Hi & Hc & Hl). rewrite get_bq_instance_unfold.
  destruct (bq_instance s) as [bq|] eqn:Hb.
  - split; [exact Hk|].
    intros bq' Hq. injection Hq as <-.
    destruct Hi as [Hi|Hi]; [discriminate Hi | injection Hi as ->; reflexivity].
  - destruct (hw_open hw (List.length (log s)) 1) as [[]|e]; cbn [fst snd].
    + split.
      * unfold kept. cbn [bq_instance cache log forallb permitted].
        rewrite Hl. split; [right; reflexivity|]. split; [exact Hc|reflexivity].
      * intros bq' Hq. injection Hq as <-. reflexivity.
    + split.
      * unfold kept. cbn [bq_instance cache log forallb permitted].
        rewrite Hl. split; [left; reflexivity|]. split; [exact Hc|reflexivity].
      * intros bq' Hq. discriminate Hq.
Qed.

Lemma set_log_kept (s : Service) (l : Log) :
  kept s -> forallb permitted l = true -> kept (set_log l s).
Proof.
  intros (Hi & Hc & _) Hl. unfold kept. cbn [set_log bq_instance cache log].
  repeat split; try assumption; apply Hc.
Qed.

Lemma reading_handler_kept {X : Type} (op : BQ25790.t -> M Log X)
      (f : X -> Response) (g : string -> Response) (calls : list Event) (s : Service) :
  issues (op {| bus_number := 1; address := 0x6B |}) calls ->
  forallb permitted calls = true ->
  kept s -> kept (snd (reading_handler hw op f g s)).
Proof.
  intros Hop Hcalls Hk. rewrite reading_handler_unfold.
  destruct (get_bq_instance_kept s Hk) as [Hk1 Hbq].
  destruct (get_bq_instance hw s) as [[bq|e] s1]; cbn [fst snd] in *; [|exact Hk1].
  rewrite (Hbq bq eq_refl).
  pose proof (issues_forallb _ _ permitted Hop Hcalls (log s1)
                (proj2 (proj2 Hk1))) as Hl.
  destruct (op {| bus_number := 1; address := 0x6B |} (log s1)) as [[x|e] l];
    cbn [snd] in *; apply set_log_kept; assumption.
Qed.

Lemma reading_handler_answers {X : Type} (op : BQ25790.t -> M Log X)
      (f : X -> Response) (g : string -> Response) (s : Service) :
  exists resp,
    fst (reading_handler hw op f g s) = Ok resp /\
    ((exists x, resp = f x) \/ (exists e, resp = g e)).
Proof.
  rewrite reading_handler_unfold.
  destruct (get_bq_instance hw s) as [[bq|e] s1].
  - destruct (op bq (log s1)) as [[x|e] l]; eexists; (split; [reflexivity|]);
      [left | right]; eexists; reflexivity.
  - eexists. split; [reflexivity|]. right. eexists. reflexivity.
Qed.

Lemma reading_handler_cache {X : Type} (op : BQ25790.t -> M Log X)
      (f : X -> Response) (g : string -> Response) (s : Service) :
  cache (snd (reading_handler hw op f g s)) = cache s.
Proof.
  rewrite reading_handler_unfold.
  destruct (get_bq_instance hw s) as [[bq|e] s1] eqn:Hi;
    apply get_bq_instance_inv in Hi; destruct Hi as (Hc & _).
  - destruct (op bq (log s1)) as [[x|e] l]; exact Hc.
  - exact Hc.
Qed.

Lemma reading_handler_captures {X : Type} (op : BQ25790.t -> M Log X)
      (f : X -> Response) (g : string -> Response)
      (calls : BQ25790.t -> list Event) (s : Service) :
  (forall bq, issues (op bq) (calls bq)) ->
  (forall bq, filter is_enable (calls bq) = []) ->
  captures (log (snd (reading_handler hw op f g s))) = captures (log s).
Proof.
  intros Hop Hq. rewrite reading_handler_unfold.
  destruct (get_bq_instance hw s) as [[bq|e] s1] eqn:Hi;
    apply get_bq_instance_inv in Hi; destruct Hi as (_ & Hc & _); [|exact Hc].
  pose proof (issues_quiet _ _ (Hop bq) (Hq bq) (log s1)) as Hquiet.
  destruct (op bq (log s1)) as [[x|e] l]; cbn [snd log set_log] in *; congruence.
Qed.

(** Each of the five reading routes is a [reading_handler] around a
    driver call that only reads. *)
Lemma handle_reading_shape (r : Request) :
  is_reading r = true ->
  exists (X : Type) (op : BQ25790.t -> M Log X) (f : X -> Response)
         (g : string -> Response) (calls : BQ25790.t -> list Event),
    handle hw r = reading_handler hw op f g /\
    (forall bq, issues (op bq) (calls bq)) /\
    (forall bq, forallb (only_reads (address bq)) (calls bq) = true) /\
    (forall x, code (f x) = 200) /\
    (forall e, code (g e) = 500).
Proof.
  destruct r; intros Hr; try discriminate Hr.
  - exists float, (get_battery_voltage hw),
      (fun v => jsonify (BVoltage (PyFloat.round v 3)) 200),
      (fun e => jsonify (BError e) 500),
      (fun bq => word_reads (address bq) REG_VBAT_ADC).
    split; [reflexivity|].
    split; [intros bq; apply (issues_word_getter hw bq _ volts)|].
    split; [intros bq; cbn; rewrite Z.eqb_refl; reflexivity|].
    split; reflexivity.
  - exists float, (get_battery_current hw),
      (fun v => jsonify (BCurrent (PyFloat.round v 3)) 200),
      (fun e => jsonify (BError e) 500),
      (fun bq => word_reads (address bq) REG_IBAT_ADC).
    split; [reflexivity|].
    split; [intros bq; apply (issues_word_getter hw bq _ amps)|].
    split; [intros bq; cbn; rewrite Z.eqb_refl; reflexivity|].
    split; reflexivity.
  - exists ChargerStatus, (get_charger_status hw),
      (fun st => jsonify (BStatus st) 200),
      (fun e => jsonify (BError e) 500),
      (fun bq => [EvRead (address bq) REG_CHARGER_STATUS_0;
                  EvRead (address bq) REG_CHARGER_STATUS_1;
                  EvRead (address bq) REG_CHARGER_STATUS_2]).
    split; [reflexivity|].
    split; [intros bq; apply issues_status|].
    split; [intros bq; cbn; rewrite Z.eqb_refl; reflexivity|].
    split; reflexivity.
  - exists float, (get_die_temperature hw),
      (fun v => jsonify (BTemperature (PyFloat.round v 1)) 200),
      (fun e => jsonify (BError e) 500),
      (fun bq => word_reads (address bq) REG_TDIE_ADC).
    split; [reflexivity|].
    split; [intros bq; apply (issues_word_getter hw bq _ celsius)|].
    split; [intros bq; cbn; rewrite Z.eqb_refl; reflexivity|].
    split; reflexivity.
  - exists FaultStatus, (get_fault_status hw),
      (fun faults =>
         jsonify (BFaults faults
                    (Z.of_nat (List.length
                                 (map fst (filter (fun kv => snd kv) (fault_items faults)))))
                    (map fst (filter (fun kv => snd kv) (fault_items faults)))) 200),
      (fun e => jsonify (BError e) 500),
      (fun bq => [EvRead (address bq) REG_FAULT_STATUS_0;
                  EvRead (address bq) REG_FAULT_STATUS_1]).
    split; [reflexivity|].
    split; [intros bq; apply issues_faults|].
    split; [intros bq; cbn; rewrite Z.eqb_refl; reflexivity|].
    split; reflexivity.
Qed.

Lemma only_reads_permitted (calls : list Event) :
  forallb (only_reads 0x6B) calls = true -> forallb permitted calls = true.
Proof.
  induction calls as [|ev calls IH]; [reflexivity|].
  cbn [forallb]. intros H. apply andb_true_iff in H. destruct H as [Hev Hrest].
  rewrite (IH Hrest), andb_true_r.
  destruct ev; try discriminate Hev. exact Hev.
Qed.

Lemma only_reads_filter (a : Z) (p : Event -> bool) (calls : list Event) :
  (forall a' reg, p (EvRead a' reg) = false) ->
  forallb (only_reads a) calls = true -> filter p calls = [].
Proof.
  intros Hp. induction calls as [|ev calls IH]; [reflexivity|].
  cbn [forallb filter]. intros H. apply andb_true_iff in H. destruct H as [Hev Hrest].
  destruct ev; try discriminate Hev. rewrite Hp. apply IH, Hrest.
Qed.

(** A computation whose calls all fail [p] leaves the [p]-calls of the
    log as they were. *)
Lemma issues_filter_nil {A : Type} (m : M Log A) (calls : list Event)
      (p : Event -> bool) :
  issues m calls -> filter p calls = [] ->
  forall l, filter p (snd (m l)) = filter p l.
Proof.
  intros Hm Hq l. destruct (Hm l) as (done & Hlog & Hres).
  rewrite Hlog, filter_app.
  assert (Hd : filter p done = []).
  { destruct (fst (m l)).
    - subst done. exact Hq.
    - destruct Hres as [_ (rest & ->)].
      rewrite filter_app in Hq. apply app_eq_nil in Hq. tauto. }
  assert (Hrev : filter p (rev done) = []).
  { apply List.length_zero_iff_nil. rewrite count_rev, Hd. reflexivity. }
  rewrite Hrev. reflexivity.
Qed.

Lemma fresh_has_data (c : Cache) (now : float) :
  cache_fresh c now = true -> exists data, cache_data c = Some data.
Proof.
  unfold cache_fresh. destruct (cache_data c) as [data|]; [|discriminate].
  intros _. exists data. reflexivity.
Qed.

(** What [/battery] answers and what it leaves in the cache. *)
Lemma get_battery_info_contract (s : Service) :
  exists resp s',
    get_battery_info hw s = (Ok resp, s') /\
    ((code resp = 200 /\
      exists data, body resp = BAllData data /\ cache_data (cache s') = Some data) \/
     (code resp = 500 /\ (exists e, body resp = BReadFailed e) /\ cache s' = cache s)).
Proof.
  rewrite get_battery_info_unfold. cbv zeta.
  destruct (cache_fresh (cache s) (hw_clock hw (List.length (log s)))) eqn:Hf.
  - destruct (fresh_has_data _ _ Hf) as (data & Hd). rewrite Hd.
    eexists. eexists. split; [reflexivity|]. left. split; [reflexivity|].
    exists data. split; [reflexivity | exact Hd].
  - rewrite refresh_unfold.
    destruct (get_bq_instance hw (set_log (EvClock :: log s) s))
      as [[bq|e] s1] eqn:Hi;
      apply get_bq_instance_inv in Hi; destruct Hi as (Hc & _).
    + destruct (get_all_data hw bq (log s1)) as [[data|e] l];
        eexists; eexists; (split; [reflexivity|]).
      * left. split; [reflexivity|]. exists data. split; reflexivity.
      * right. split; [reflexivity|]. split; [eexists; reflexivity | exact Hc].
    + eexists. eexists. split; [reflexivity|].
      right. split; [reflexivity|]. split; [eexists; reflexivity | exact Hc].
Qed.

Lemma handle_answers (r : Request) (s : Service) :
  exists resp,
    fst (handle hw r s) = Ok resp /\
    (code resp = 200 \/
     (code resp = 500 /\ r <> GetHealth) \/
     (code resp = 503 /\ r = GetHealth)).
Proof.
  destruct (is_reading r) eqn:Hr.
  - destruct (handle_reading_shape r Hr) as (X & op & f & g & calls & -> & _ & _ & Hf & Hg).
    destruct (reading_handler_answers op f g s) as (resp & Hrun & [(x & Hx) | (e & He)]);
      exists resp; (split; [exact Hrun|]).
    + left. rewrite Hx. apply Hf.
    + right. left. rewrite He. split; [apply Hg|]. intros ->. discriminate Hr.
  - destruct r; try discriminate Hr; cbn [handle].
    + rewrite health_unfold.
      destruct (get_bq_instance hw s) as [[bq|e] s1]; eexists;
        (split; [reflexivity|]); [left; reflexivity | right; right; split; reflexivity].
    + destruct (get_battery_info_contract s) as (resp & s' & -> & [(Hc & _) | (Hc & _)]);
        exists resp; (split; [reflexivity|]); [left; exact Hc|].
      right. left. split; [exact Hc | discriminate].
Qed.

Lemma capture_calls_permitted :
  forallb permitted (capture_calls 0x6B) = true.
Proof. vm_compute. reflexivity. Qed.

Lemma handle_kept (r : Request) (s : Service) :
  kept s -> kept (snd (handle hw r s)).
Proof.
  intros Hk. destruct (is_reading r) eqn:Hr.
  - destruct (handle_reading_shape r Hr) as (X & op & f & g & calls & -> & Hop & Hro & _).
    apply (reading_handler_kept op f g (calls {| bus_number := 1; address := 0x6B |}));
      [apply Hop | apply only_reads_permitted, (Hro {| bus_number := 1; address := 0x6B |})
       | exact Hk].
  - destruct r; try discriminate Hr; cbn [handle].
    + rewrite health_unfold. destruct (get_bq_instance_kept s Hk) as [Hk1 _].
      destruct (get_bq_instance hw s) as [[bq|e] s1]; exact Hk1.
    + rewrite get_battery_info_unfold. cbv zeta.
      assert (Hk0 : kept (set_log (EvClock :: log s) s)).
      { apply set_log_kept; [exact Hk|]. cbn [forallb permitted]. apply Hk. }
      destruct (cache_fresh (cache s) (hw_clock hw (List.length (log s)))).
      * destruct (cache_data (cache s)); exact Hk0.
      * rewrite refresh_unfold.
        destruct (get_bq_instance_kept _ Hk0) as [Hk1 Hbq].
        destruct (get_bq_instance hw (set_log (EvClock :: log s) s))
          as [[bq|e] s1]; cbn [fst snd] in *; [|exact Hk1].
        rewrite (Hbq bq eq_refl).
        pose proof (issues_forallb _ _ permitted
                      (issues_get_all_data hw {| bus_number := 1; address := 0x6B |})
                      capture_calls_permitted (log s1) (proj2 (proj2 Hk1))) as Hl.
        destruct (get_all_data hw {| bus_number := 1; address := 0x6B |} (log s1))
          as [[data|e] l]; cbn [snd] in *.
        -- pose proof (set_log_kept s1 l Hk1 Hl) as (Hi' & _ & Hl').
           unfold kept. cbn [set_cache bq_instance cache log cache_data cache_timestamp].
           split; [exact Hi'|]. split; [split; discriminate | exact Hl'].
        -- apply set_log_kept; assumption.
Qed.

Lemma handle_captures (r : Request) (s : Service) :
  (captures (log (snd (handle hw r s)))
   <= captures (log s) + weight (is_battery r))%nat.
Proof.
  destruct (is_reading r) eqn:Hr.
  - destruct (handle_reading_shape r Hr) as (X & op & f & g & calls & -> & Hop & Hro & _).
    rewrite (reading_handler_captures op f g calls s Hop).
    + lia.
    + intros bq. apply (only_reads_filter (address bq)); [reflexivity | apply Hro].
  - destruct r; try discriminate Hr; cbn [handle is_battery weight].
    + rewrite health_unfold.
      destruct (get_bq_instance hw s) as [[bq|e] s1] eqn:Hi;
        apply get_bq_instance_inv in Hi; destruct Hi as (_ & Hc & _);
        cbn [snd]; lia.
    + rewrite get_battery_info_unfold. cbv zeta.
      destruct (cache_fresh (cache s) (hw_clock hw (List.length (log s)))).
      * destruct (cache_data (cache s)); cbn [snd log set_log];
          change (captures (EvClock :: log s)) with (captures (log s)); lia.
      * rewrite refresh_unfold.
        destruct (get_bq_instance hw (set_log (EvClock :: log s) s))
          as [[bq|e] s1] eqn:Hi;
          apply get_bq_instance_inv in Hi; destruct Hi as (_ & Hc & _);
          cbn [log set_log] in Hc; change (captures (EvClock :: log s))
            with (captures (log s)) in Hc.
        -- pose proof (captures_get_all_data hw bq (log s1)) as Hcap.
           destruct (get_all_data hw bq (log s1)) as [[data|e] l];
             cbn [snd log set_log set_cache] in *; lia.
        -- cbn [snd]. lia.
Qed.

(** With the instance in place no handler opens the bus, and the
    instance stays. *)
Lemma handle_instance_stays (r : Request) (s : Service) (bq : BQ25790.t) :
  bq_instance s = Some bq ->
  bq_instance (snd (handle hw r s)) = Some bq /\
  filter is_open (log (snd (handle hw r s))) = filter is_open (log s).
Proof.
  intros Hi. destruct (is_reading r) eqn:Hr.
  - destruct (handle_reading_shape r Hr) as (X & op & f & g & calls & -> & Hop & Hro & _).
    rewrite reading_handler_unfold, (get_bq_instance_some hw s bq Hi).
    pose proof (issues_filter_nil _ _ is_open (Hop bq)
                  (only_reads_filter (address bq) is_open _
                     (fun _ _ => eq_refl) (Hro bq)) (log s)) as Hf.
    destruct (op bq (log s)) as [[x|e] l]; cbn [snd] in *; split; assumption.
  - destruct r; try discriminate Hr; cbn [handle].
    + rewrite health_unfold, (get_bq_instance_some hw s bq Hi).
      split; [exact Hi | reflexivity].
    + rewrite get_battery_info_unfold. cbv zeta.
      destruct (cache_fresh (cache s) (hw_clock hw (List.length (log s)))).
      * destruct (cache_data (cache s)); split; first [exact Hi | reflexivity].
      * rewrite refresh_unfold.
        rewrite (get_bq_instance_some hw (set_log (EvClock :: log s) s) bq Hi).
        pose proof (issues_filter_nil _ _ is_open (issues_get_all_data hw bq)
                      eq_refl (EvClock :: log s)) as Hf.
        cbn [log set_log].
        destruct (get_all_data hw bq (EvClock :: log s)) as [[data|e] l];
          cbn [snd] in *; split; first [exact Hi | exact Hf].
Qed.

End EndpointFacts.

Section Endpoints.

Import BQ25790 Monitor Observed Contract Routes.

Lemma in_names_of_set (l : list (string * bool)) (name : string) :
  In name (map fst (filter (fun kv => snd kv) l)) <-> In (name, true) l.
Proof.
  induction l as [|[k v] l IH]; [cbn; tauto|].
  cbn [filter snd]. destruct v; cbn [map fst In]; rewrite IH; split.
  - intros [<- | H]; [left; reflexivity | right; exact H].
  - intros [H | H]; [left; injection H as <-; reflexivity | right; exact H].
  - intros H. right. exact H.
  - intros [H | H]; [discriminate H | exact H].
Qed.

Lemma nodup_names_of_set (l : list (string * bool)) :
  NoDup (map fst l) -> NoDup (map fst (filter (fun kv => snd kv) l)).
Proof.
  induction l as [|[k v] l IH]; [intros _; constructor|].
  cbn [map fst]. intros H. inversion H as [|x xs Hnot Hrest]; subst.
  cbn [filter snd]. destruct v; [|apply IH, Hrest].
  cbn [map fst]. constructor; [|apply IH, Hrest].
  intros Hin. apply Hnot. apply in_map_iff in Hin.
  destruct Hin as ([k' v'] & Hk & Hin). cbn in Hk. subst k'.
  apply filter_In in Hin. apply in_map_iff. exists (k, v'). split; [reflexivity|tauto].
Qed.

Lemma fault_names_distinct (f : FaultStatus) : NoDup (map fst (fault_items f)).
Proof.
  cbn. repeat (constructor; [cbn; intuition discriminate|]). constructor.
Qed.

Lemma active_count_bounds (f : FaultStatus) :
  0 <= Z.of_nat (List.length (map fst (filter (fun kv => snd kv) (fault_items f))))
  <= 10.
Proof.
  rewrite length_map.
  pose proof (filter_length_le (fun kv : string * bool => snd kv) (fault_items f)) as Hle.
  assert (Hlen : List.length (fault_items f) = 10%nat) by reflexivity.
  rewrite Hlen in Hle. lia.
Qed.

(** X8.  Whenever [/battery/faults] answers with a fault body, the code is
    200, [active_faults] names exactly the flags that are set, each once,
    and [active_count] is their number, between 0 and 10. *)
Theorem faults_endpoint_lists_set_flags :
  forall (hw : Hardware) (s : Service) (f : FaultStatus) (n c : Z)
         (names : list string),
    fst (get_faults hw s) = Ok {| body := BFaults f n names; code := c |} ->
    c = 200 /\
    n = Z.of_nat (List.length names) /\
    0 <= n <= 10 /\
    (forall name, In name names <-> In (name, true) (fault_items f)) /\
    NoDup names.
Proof.
  intros hw s f n c names H.
  change (get_faults hw)
    with (reading_handler hw (get_fault_status hw)
            (fun faults =>
               jsonify (BFaults faults
                          (Z.of_nat (List.length
                                       (map fst (filter (fun kv => snd kv)
                                                        (fault_items faults)))))
                          (map fst (filter (fun kv => snd kv) (fault_items faults))))
                       200)
            (fun e => jsonify (BError e) 500)) in H.
  rewrite reading_handler_unfold in H.
  destruct (get_bq_instance hw s) as [[bq|e] s1]; [|discriminate H].
  destruct (get_fault_status hw bq (log s1)) as [[fl|e] l]; [|discriminate H].
  cbn [fst] in H. injection H as <- <- <- <-.
  split; [reflexivity|]. split; [reflexivity|]. split.
  - exact (active_count_bounds fl).
  - split; [intros name; exact (in_names_of_set (fault_items fl) name)|].
    exact (nodup_names_of_set (fault_items fl) (fault_names_distinct fl)).
Qed.

(** fault0 = 0x83, fault1 = 0x7F on the bus: four flags are listed. *)
Lemma faults_endpoint_lists_set_flags_witness :
  exists f,
    fst (get_faults Bench2.charging_hw startup)
    = Ok {| body := BFaults f 4 ["vac1_ovp"; "vbus_ovp"; "tshut"; "bat_temp_fault"];
            code := 200 |} /\
    4 = Z.of_nat (List.length ["vac1_ovp"; "vbus_ovp"; "tshut"; "bat_temp_fault"]) /\
    NoDup ["vac1_ovp"; "vbus_ovp"; "tshut"; "bat_temp_fault"].
Proof.
  eexists. split; [vm_compute; reflexivity|].
  pose proof (faults_endpoint_lists_set_flags Bench2.charging_hw startup _ 4 200
                ["vac1_ovp"; "vbus_ovp"; "tshut"; "bat_temp_fault"] eq_refl)
    as (_ & Hn & _ & _ & Hd).
  split; [exact Hn | exact Hd].
Defined.

(** X9.  [get_bq_instance] creates the driver lazily and keeps no failed
    attempt.  With no instance yet: if the bus opens, the instance (bus 1,
    address 0x6B) is stored, [last_error] is cleared, and the next call
    returns it without any call to the world; if opening raises, the
    exception is passed on with [last_error] set to its message, no
    instance is stored, and the next call opens the bus again.  Either
    way the only call issued is the opening of bus 1 and the cache is not
    touched. *)
Theorem driver_instance_is_lazy :
  forall (hw : Hardware) (s : Service),
    bq_instance s = None ->
    exists s1,
      snd (get_bq_instance hw s) = s1 /\
      log s1 = EvOpen 1 :: log s /\
      cache s1 = cache s /\
      match hw_open hw (List.length (log s)) 1 with
      | Ok _ =>
          fst (get_bq_instance hw s) = Ok {| bus_number := 1; address := 0x6B |} /\
          bq_instance s1 = Some {| bus_number := 1; address := 0x6B |} /\
          last_error s1 = None /\
          get_bq_instance hw s1 = (Ok {| bus_number := 1; address := 0x6B |}, s1)
      | Raise e =>
          fst (get_bq_instance hw s) = Raise e /\
          bq_instance s1 = None /\
          last_error s1 = Some e /\
          log (snd (get_bq_instance hw s1)) = EvOpen 1 :: EvOpen 1 :: log s
      end.
Proof.
  intros hw s Hi. eexists. split; [reflexivity|].
  rewrite (get_bq_instance_unfold hw s), Hi.
  destruct (hw_open hw (List.length (log s)) 1) as [[]|e]; cbn [fst snd log cache].
  - repeat split.
  - repeat split. rewrite get_bq_instance_unfold. cbn [bq_instance log].
    destruct (hw_open hw (List.length (EvOpen 1 :: log s)) 1) as [[]|e']; reflexivity.
Qed.

(** At start-up on a bus that cannot be opened: the hypothesis holds, the
    error is recorded and the second attempt opens the bus again. *)
Lemma driver_instance_is_lazy_witness :
  bq_instance startup = None /\
  exists s1,
    snd (get_bq_instance Bench2.no_bus_hw startup) = s1 /\
    bq_instance s1 = None /\
    last_error s1 = Some "[Errno 2] No such file or directory: '/dev/i2c-1'" /\
    log (snd (get_bq_instance Bench2.no_bus_hw s1)) = [EvOpen 1; EvOpen 1].
Proof.
  split; [reflexivity|].
  destruct (driver_instance_is_lazy Bench2.no_bus_hw startup eq_refl)
    as (s1 & H1 & _ & _ & H).
  exists s1. split; [exact H1|].
  cbn in H. destruct H as (_ & H2 & H3 & H4).
  repeat split; assumption.
Defined.

(** X10.  With no instance yet, [/health] reports the outcome of opening
    the bus at that moment: 200 "healthy" when it opens, 503 "unhealthy"
    with the exception's message when it does not.  The opening of bus 1
    is the only call it issues (no register is read or written), and an
    unhealthy answer is not remembered: the next request tries again. *)
Theorem health_reports_bus_opening :
  forall (hw : Hardware) (s : Service),
    bq_instance s = None ->
    log (snd (health hw s)) = EvOpen 1 :: log s /\
    match hw_open hw (List.length (log s)) 1 with
    | Ok _ =>
        fst (health hw s) = Ok (jsonify BHealthy 200) /\
        bq_instance (snd (health hw s)) = Some {| bus_number := 1; address := 0x6B |}
    | Raise e =>
        fst (health hw s) = Ok (jsonify (BUnhealthy e) 503) /\
        bq_instance (snd (health hw s)) = None /\
        (forall e', hw_open hw (1 + List.length (log s)) 1 = Raise e' ->
                    fst (health hw (snd (health hw s)))
                    = Ok (jsonify (BUnhealthy e') 503)) /\
        (hw_open hw (1 + List.length (log s)) 1 = Ok tt ->
         fst (health hw (snd (health hw s))) = Ok (jsonify BHealthy 200))
    end.
Proof.
  intros hw s Hi.
  rewrite (health_unfold hw s), (get_bq_instance_unfold hw s), Hi.
  destruct (hw_open hw (List.length (log s)) 1) as [[]|e]; cbn [fst snd log bq_instance].
  - repeat split.
  - split; [reflexivity|]. split; [reflexivity|]. split; [reflexivity|].
    split.
    + intros e' He'. rewrite health_unfold, get_bq_instance_unfold.
      cbn [bq_instance log List.length]. cbn [Nat.add] in He'. rewrite He'. reflexivity.
    + intros Hok. rewrite health_unfold, get_bq_instance_unfold.
      cbn [bq_instance log List.length]. cbn [Nat.add] in Hok. rewrite Hok. reflexivity.
Qed.

(** At start-up on a bus that cannot be opened: 503 with the message,
    and again 503 at the next request. *)
Lemma health_reports_bus_opening_witness :
  bq_instance startup = None /\
  fst (health Bench2.no_bus_hw startup)
  = Ok (jsonify (BUnhealthy "[Errno 2] No such file or directory: '/dev/i2c-1'") 503) /\
  fst (health Bench2.no_bus_hw (snd (health Bench2.no_bus_hw startup)))
  = Ok (jsonify (BUnhealthy "[Errno 2] No such file or directory: '/dev/i2c-1'") 503).
Proof.
  split; [reflexivity|].
  destruct (health_reports_bus_opening Bench2.no_bus_hw startup eq_refl) as (_ & H).
  cbn in H. destruct H as (H1 & _ & H2 & _).
  split; [exact H1|]. exact (H2 _ eq_refl).
Defined.

(** X11.  No handler lets an exception escape: every request gets an
    answer, with code 200 or, on any failure, 500; only [/health] answers
    503 instead, and never 500.  In particular [/battery] answers 500,
    not 503, when the bus cannot be opened. *)
Theorem every_request_is_answered :
  forall (hw : Hardware) (r : Request) (s : Service),
    exists resp,
      fst (handle hw r s) = Ok resp /\
      (code resp = 200 \/
       (code resp = 500 /\ r <> GetHealth) \/
       (code resp = 503 /\ r = GetHealth)).
Proof. intros hw r s. apply handle_answers. Qed.

Lemma serve_cons (hw : Hardware) (r : Request) (rest : list Request) (s : Service) :
  serve hw (r :: rest) s
  = (fst (handle hw r s) :: fst (serve hw rest (snd (handle hw r s))),
     snd (serve hw rest (snd (handle hw r s)))).
Proof.
  cbn [serve]. destruct (handle hw r s) as [a s1]. cbn [fst snd].
  destruct (serve hw rest s1) as [answers s2]. reflexivity.
Qed.

(** X12.  Over any sequence of requests the globals stay as the handlers
    keep them: the instance, if any, is the device at bus 1, address
    0x6B; the cache has both its keys or none; and every call ever issued
    is the opening of bus 1, a read at 0x6B of one of the seventeen byte
    addresses of the ADC, status and fault registers, the write of 0x80
    to ADC_CTRL at 0x6B, the 100 ms sleep, or a clock reading.  So the
    service never writes any other register or value and never closes
    the bus.  Every request of the sequence is answered. *)
Theorem service_keeps_its_globals :
  forall (hw : Hardware) (reqs : list Request) (s : Service),
    kept s ->
    kept (snd (serve hw reqs s)) /\
    Forall (fun answer => exists resp, answer = Ok resp) (fst (serve hw reqs s)) /\
    List.length (fst (serve hw reqs s)) = List.length reqs.
Proof.
  intros hw reqs. induction reqs as [|r rest IH]; intros s Hk.
  - cbn [serve fst snd]. split; [exact Hk|]. split; [constructor | reflexivity].
  - rewrite serve_cons. cbn [fst snd].
    destruct (IH _ (handle_kept hw r s Hk)) as (IH1 & IH2 & IH3).
    split; [exact IH1|]. split.
    + constructor; [|exact IH2].
      destruct (handle_answers hw r s) as (resp & Hresp & _).
      exists resp. exact Hresp.
    + cbn [List.length]. rewrite IH3. reflexivity.
Qed.

(** From start-up, through a failed capture and further requests on a
    dead bus: the globals are kept. *)
Lemma service_keeps_its_globals_witness :
  kept startup /\
  kept (snd (serve Bench.dead_hw
                   [GetBattery; GetHealth; GetVoltage; GetFaults; GetBattery] startup)).
Proof.
  assert (Hk : kept startup).
  { unfold kept. cbn. repeat split; auto. }
  split; [exact Hk|].
  exact (proj1 (service_keeps_its_globals Bench.dead_hw
                  [GetBattery; GetHealth; GetVoltage; GetFaults; GetBattery]
                  startup Hk)).
Defined.

(** X13.  The single-reading endpoints never consult the cache: with the
    instance in place, each request to [/battery/voltage],
    [/battery/current] or [/battery/temperature] makes the two byte reads
    of its register and answers the reading of that very word (raw /
    1000.0, the signed raw / 1000.0, raw * 0.5 - 40.0; the rounding
    changes nothing), whatever snapshot is cached and however fresh; the
    globals other than the log are left as they were. *)
Theorem single_readings_bypass_cache :
  forall (hw : Hardware) (s : Service) (bq : BQ25790.t) (raw : Z),
    bq_instance s = Some bq ->
    0 <= raw <= 65535 ->
    let a := address bq in
    let n := List.length (log s) in
    (delivers hw a n REG_VBAT_ADC raw ->
     get_voltage hw s
     = (Ok (jsonify (BVoltage (PyFloat.of_Z raw / 1000)%float) 200),
        set_log (EvRead a (REG_VBAT_ADC + 1) :: EvRead a REG_VBAT_ADC :: log s) s)) /\
    (delivers hw a n REG_IBAT_ADC raw ->
     get_current hw s
     = (Ok (jsonify (BCurrent (PyFloat.of_Z (if raw >? 32767 then raw - 65536 else raw)
                               / 1000)%float) 200),
        set_log (EvRead a (REG_IBAT_ADC + 1) :: EvRead a REG_IBAT_ADC :: log s) s)) /\
    (delivers hw a n REG_TDIE_ADC raw ->
     get_temperature hw s
     = (Ok (jsonify (BTemperature (PyFloat.of_Z raw * 0.5 - 40)%float) 200),
        set_log (EvRead a (REG_TDIE_ADC + 1) :: EvRead a REG_TDIE_ADC :: log s) s)).
Proof.
  intros hw s bq raw Hi Hr. cbv zeta.
  split; [|split]; intros Hd.
  - change (get_voltage hw)
      with (reading_handler hw (get_battery_voltage hw)
              (fun v => jsonify (BVoltage (PyFloat.round v 3)) 200)
              (fun e => jsonify (BError e) 500)).
    rewrite reading_handler_unfold, (get_bq_instance_some hw s bq Hi).
    change (get_battery_voltage hw bq (log s))
      with (bind (read_register_16bit hw bq REG_VBAT_ADC)
                 (fun w => ret (volts w)) (log s)).
    rewrite (word_getter_run hw bq _ volts (log s) raw (proj1 Hr) Hd).
    rewrite round_volts_fixed by lia. reflexivity.
  - change (get_current hw)
      with (reading_handler hw (get_battery_current hw)
              (fun v => jsonify (BCurrent (PyFloat.round v 3)) 200)
              (fun e => jsonify (BError e) 500)).
    rewrite reading_handler_unfold, (get_bq_instance_some hw s bq Hi).
    change (get_battery_current hw bq (log s))
      with (bind (read_register_16bit hw bq REG_IBAT_ADC)
                 (fun w => ret (amps w)) (log s)).
    rewrite (word_getter_run hw bq _ amps (log s) raw (proj1 Hr) Hd).
    rewrite round_amps_fixed by lia. reflexivity.
  - change (get_temperature hw)
      with (reading_handler hw (get_die_temperature hw)
              (fun v => jsonify (BTemperature (PyFloat.round v 1)) 200)
              (fun e => jsonify (BError e) 500)).
    rewrite reading_handler_unfold, (get_bq_instance_some hw s bq Hi).
    change (get_die_temperature hw bq (log s))
      with (bind (read_register_16bit hw bq REG_TDIE_ADC)
                 (fun w => ret (celsius w)) (log s)).
    rewrite (word_getter_run hw bq _ celsius (log s) raw (proj1 Hr) Hd).
    rewrite (proj2 (proj2 (proj2 (proj2 (celsius_profile raw Hr))))). reflexivity.
Qed.

(** A warm service whose cache holds a snapshot with 0 V: the voltage
    endpoint reads the bus and answers 4.112 V. *)
Lemma single_readings_bypass_cache_witness :
  bq_instance Bench.warm_service = Some Bench.bq0 /\
  0 <= 4112 <= 65535 /\
  delivers (Bench.const_hw 0x10 100.0%float) 0x6B 0 REG_VBAT_ADC 4112 /\
  cache_fresh (cache Bench.warm_service) 100.0%float = true /\
  get_voltage (Bench.const_hw 0x10 100.0%float) Bench.warm_service
  = (Ok (jsonify (BVoltage 4.112%float) 200),
     set_log [EvRead 0x6B 0x32; EvRead 0x6B 0x31] Bench.warm_service).
Proof.
  split; [reflexivity|]. split; [lia|]. split; [split; reflexivity|].
  split; [reflexivity|].
  exact (proj1 (single_readings_bypass_cache
                  (Bench.const_hw 0x10 100.0%float) Bench.warm_service Bench.bq0 4112
                  eq_refl ltac:(lia)) (conj eq_refl eq_refl)).
Defined.

(** X14.  [/battery] always answers, and the cache follows the answer:
    after a 200 the cache holds exactly the snapshot that was returned
    (served from it or just captured); after a 500 the cache is what it
    was before the request. *)
Theorem battery_answer_and_cache :
  forall (hw : Hardware) (s : Service),
    exists resp s',
      get_battery_info hw s = (Ok resp, s') /\
      ((code resp = 200 /\
        exists data, body resp = BAllData data /\ cache_data (cache s') = Some data) \/
       (code resp = 500 /\ (exists e, body resp = BReadFailed e) /\
        cache s' = cache s)).
Proof. intros hw s. apply get_battery_info_contract. Qed.

(** X15.  Only [/battery] requests capture, and at most once each: over
    any sequence of requests the number of writes of 0x80 to ADC_CTRL
    grows by at most the number of [/battery] requests in it. *)
Theorem captures_bounded_by_battery_requests :
  forall (hw : Hardware) (reqs : list Request) (s : Service),
    (captures (log (snd (serve hw reqs s)))
     <= captures (log s) + List.length (filter is_battery reqs))%nat.
Proof.
  intros hw reqs. induction reqs as [|r rest IH]; intros s.
  - cbn. lia.
  - rewrite serve_cons. cbn [snd filter].
    specialize (IH (snd (handle hw r s))).
    pose proof (handle_captures hw r s) as Hc.
    destruct (is_battery r); cbn [weight List.length] in *; lia.
Qed.

(** X16.  Once created, the instance is used for ever: over any sequence
    of requests it is neither replaced nor dropped and the bus is never
    opened again, whatever the bus does meanwhile. *)
Theorem instance_is_never_recreated :
  forall (hw : Hardware) (reqs : list Request) (s : Service) (bq : BQ25790.t),
    bq_instance s = Some bq ->
    bq_instance (snd (serve hw reqs s)) = Some bq /\
    filter is_open (log (snd (serve hw reqs s))) = filter is_open (log s).
Proof.
  intros hw reqs. induction reqs as [|r rest IH]; intros s bq Hi.
  - cbn. split; [exact Hi | reflexivity].
  - rewrite serve_cons. cbn [snd].
    destruct (handle_instance_stays hw r s bq Hi) as [Hi1 Ho1].
    destruct (IH _ bq Hi1) as [Hi2 Ho2].
    split; [exact Hi2 | rewrite Ho2; exact Ho1].
Qed.

(** A warm service on a bus that has died: after five failing requests
    the instance is the same and no opening was attempted. *)
Lemma instance_is_never_recreated_witness :
  bq_instance Bench.warm_service = Some Bench.bq0 /\
  bq_instance (snd (serve Bench.dead_hw
                          [GetVoltage; GetHealth; GetFaults; GetStatus; GetCurrent]
                          Bench.warm_service)) = Some Bench.bq0 /\
  filter is_open (log (snd (serve Bench.dead_hw
                                  [GetVoltage; GetHealth; GetFaults; GetStatus; GetCurrent]
                                  Bench.warm_service))) = [].
Proof.
  split; [reflexivity|].
  exact (instance_is_never_recreated Bench.dead_hw
           [GetVoltage; GetHealth; GetFaults; GetStatus; GetCurrent]
           Bench.warm_service Bench.bq0 eq_refl).
Defined.

End Endpoints.

(* ================================================================= *)
(** ** Concurrent requests, beyond the claims *)

Section Progress.

Import BQ25790 Monitor Observed Contract.

Lemma total_set_nth {A : Type} (f : A -> nat) (new old : A) :
  forall (l : list A) (i : nat),
    nth_error l i = Some old ->
    (total f (set_nth i new l) + f old = total f l + f new)%nat.
Proof.
  unfold total, list_sum.
  induction l as [|x l IH]; intros [|i] H; cbn in H; try discriminate H.
  - injection H as ->. cbn [set_nth map fold_right]. lia.
  - specialize (IH i H). cbn [set_nth map fold_right]. lia.
Qed.

Lemma total_repeat {A : Type} (f : A -> nat) (x : A) (n : nat) :
  total f (repeat x n) = (f x * n)%nat.
Proof.
  unfold total, list_sum. induction n as [|n IH]; cbn [repeat map fold_right]; lia.
Qed.

Lemma find_holder {A : Type} (f : A -> bool) (l : list A) :
  (1 <= List.length (filter f l))%nat ->
  exists i x, nth_error l i = Some x /\ f x = true.
Proof.
  induction l as [|y l IH]; cbn [filter]; [cbn; lia|].
  destruct (f y) eqn:Hy.
  - intros _. exists 0%nat, y. split; [reflexivity | exact Hy].
  - intros H. destruct (IH H) as (i & x & Hi & Hx).
    exists (Datatypes.S i), x. split; assumption.
Qed.

Lemma find_unfinished (l : list Pc) :
  forallb is_finished l = true \/
  exists i pc, nth_error l i = Some pc /\ is_finished pc = false.
Proof.
  induction l as [|y l IH]; [left; reflexivity|].
  cbn [forallb]. destruct (is_finished y) eqn:Hy.
  - destruct IH as [IH | (i & pc & Hi & Hpc)]; [left; exact IH|].
    right. exists (Datatypes.S i), pc. split; assumption.
  - right. exists 0%nat, y. split; [reflexivity | exact Hy].
Qed.

Variable hw : Hardware.

(** A thread inside the lock can always move. *)
Lemma holder_can_step (sys : Sys) (i : nat) (pc : Pc) :
  nth_error (threads sys) i = Some pc -> holds_lock pc = true ->
  exists sys', step hw i sys = Some sys'.
Proof.
  intros Hpc Hh. unfold step. rewrite Hpc.
  destruct pc as [|now|now|now bq|now data|r]; try discriminate Hh.
  - destruct (get_bq_instance hw (globals sys)) as [[bq|e] g]; eexists; reflexivity.
  - destruct (lift (get_all_data hw bq) (globals sys)) as [[data|e] g];
      eexists; reflexivity.
Qed.

(** With the lock free every unfinished thread can move. *)
Lemma free_lock_can_step (sys : Sys) (i : nat) (pc : Pc) :
  bq_lock sys = false ->
  nth_error (threads sys) i = Some pc -> is_finished pc = false ->
  exists sys', step hw i sys = Some sys'.
Proof.
  intros Hlk Hpc Hf. unfold step. rewrite Hpc.
  destruct pc as [|now|now|now bq|now data|r]; try discriminate Hf.
  - unfold lift, time_time.
    destruct (cache_fresh _ _) eqn:Hfresh; [|eexists; reflexivity].
    destruct (fresh_has_data _ _ Hfresh) as (data & Hd).
    cbn [cache set_log] in Hd |- *. rewrite Hd. eexists. reflexivity.
  - rewrite Hlk. eexists. reflexivity.
  - destruct (get_bq_instance hw (globals sys)) as [[bq|e] g]; eexists; reflexivity.
  - destruct (lift (get_all_data hw bq) (globals sys)) as [[data|e] g];
      eexists; reflexivity.
  - eexists. reflexivity.
Qed.

(** Every step uses up at least one of the steps its thread has left. *)
Lemma step_uses_a_step (sys sys' : Sys) (i : nat) :
  step hw i sys = Some sys' ->
  (1 + total steps_left (threads sys') <= total steps_left (threads sys))%nat.
Proof.
  unfold step. intros Hstep.
  destruct (nth_error (threads sys) i) as [pc|] eqn:Hpc; [|discriminate Hstep].
  destruct pc as [|now|now|now bq|now data|r].
  - destruct (lift (time_time hw) (globals sys)) as [[now|e] g1];
      [|discriminate Hstep].
    destruct (cache_fresh (cache g1) now).
    + destruct (cache_data (cache g1)) as [data|]; [|discriminate Hstep].
      injection Hstep as <-. cbn [threads at_pc].
      pose proof (total_set_nth steps_left
                    (Finished (jsonify (BAllData data) 200)) _ _ _ Hpc) as Hc.
      cbn [steps_left] in Hc. lia.
    + injection Hstep as <-. cbn [threads at_pc].
      pose proof (total_set_nth steps_left (AtLock now) _ _ _ Hpc) as Hc.
      cbn [steps_left] in Hc. lia.
  - destruct (bq_lock sys); [discriminate Hstep|].
    injection Hstep as <-. cbn [threads at_pc].
    pose proof (total_set_nth steps_left (InLock now) _ _ _ Hpc) as Hc.
    cbn [steps_left] in Hc. lia.
  - destruct (get_bq_instance hw (globals sys)) as [[bq|e] g1];
      injection Hstep as <-; cbn [threads at_pc].
    + pose proof (total_set_nth steps_left (InCapture now bq) _ _ _ Hpc) as Hc.
      cbn [steps_left] in Hc. lia.
    + pose proof (total_set_nth steps_left
                    (Finished (jsonify (BReadFailed e) 500)) _ _ _ Hpc) as Hc.
      cbn [steps_left] in Hc. lia.
  - destruct (lift (get_all_data hw bq) (globals sys)) as [[data|e] g1];
      injection Hstep as <-; cbn [threads at_pc].
    + pose proof (total_set_nth steps_left (AtPublish now data) _ _ _ Hpc) as Hc.
      cbn [steps_left] in Hc. lia.
    + pose proof (total_set_nth steps_left
                    (Finished (jsonify (BReadFailed e) 500)) _ _ _ Hpc) as Hc.
      cbn [steps_left] in Hc. lia.
  - injection Hstep as <-. cbn [threads at_pc].
    pose proof (total_set_nth steps_left
                  (Finished (jsonify (BAllData data) 200)) _ _ _ Hpc) as Hc.
    cbn [steps_left] in Hc. lia.
  - discriminate Hstep.
Qed.

Lemma run_uses_steps (schedule : list nat) :
  forall sys sys',
    run hw schedule sys = Some sys' ->
    (List.length schedule + total steps_left (threads sys')
     <= total steps_left (threads sys))%nat.
Proof.
  induction schedule as [|i rest IH]; intros sys sys' Hrun; cbn [run] in Hrun.
  - injection Hrun as <-. cbn. lia.
  - destruct (step hw i sys) as [sys1|] eqn:Hstep; [|discriminate Hrun].
    pose proof (step_uses_a_step _ _ _ Hstep) as H1.
    pose proof (IH _ _ Hrun) as H2. cbn [List.length]. lia.
Qed.

(** No step lets a request capture a second time. *)
Lemma step_captures (sys sys' : Sys) (i : nat) :
  step hw i sys = Some sys' ->
  (captures (log (globals sys')) + total may_capture (threads sys')
   <= captures (log (globals sys)) + total may_capture (threads sys))%nat.
Proof.
  unfold step. intros Hstep.
  destruct (nth_error (threads sys) i) as [pc|] eqn:Hpc; [|discriminate Hstep].
  destruct pc as [|now|now|now bq|now data|r].
  - unfold lift, time_time in Hstep.
    destruct (cache_fresh _ _) in Hstep.
    + destruct (cache_data _) as [data|] in Hstep; [|discriminate Hstep].
      injection Hstep as <-. cbn [threads at_pc globals log set_log].
      pose proof (total_set_nth may_capture
                    (Finished (jsonify (BAllData data) 200)) _ _ _ Hpc) as Hc.
      cbn [may_capture] in Hc.
      change (captures (EvClock :: log (globals sys)))
        with (captures (log (globals sys))). lia.
    + injection Hstep as <-. cbn [threads at_pc globals log set_log].
      pose proof (total_set_nth may_capture
                    (AtLock (hw_clock hw (List.length (log (globals sys))))) _ _ _ Hpc)
        as Hc.
      cbn [may_capture] in Hc.
      change (captures (EvClock :: log (globals sys)))
        with (captures (log (globals sys))). lia.
  - destruct (bq_lock sys); [discriminate Hstep|].
    injection Hstep as <-. cbn [threads at_pc globals].
    pose proof (total_set_nth may_capture (InLock now) _ _ _ Hpc) as Hc.
    cbn [may_capture] in Hc. lia.
  - destruct (get_bq_instance hw (globals sys)) as [[bq|e] g1] eqn:Hi;
      apply get_bq_instance_inv in Hi; destruct Hi as (_ & Hcap & _);
      injection Hstep as <-; cbn [threads at_pc globals].
    + pose proof (total_set_nth may_capture (InCapture now bq) _ _ _ Hpc) as Hc.
      cbn [may_capture] in Hc. lia.
    + pose proof (total_set_nth may_capture
                    (Finished (jsonify (BReadFailed e) 500)) _ _ _ Hpc) as Hc.
      cbn [may_capture] in Hc. lia.
  - unfold lift in Hstep.
    pose proof (captures_get_all_data hw bq (log (globals sys))) as Hcap.
    destruct (get_all_data hw bq (log (globals sys))) as [[data|e] l];
      injection Hstep as <-; cbn [threads at_pc globals log set_log snd] in *.
    + pose proof (total_set_nth may_capture (AtPublish now data) _ _ _ Hpc) as Hc.
      cbn [may_capture] in Hc. lia.
    + pose proof (total_set_nth may_capture
                    (Finished (jsonify (BReadFailed e) 500)) _ _ _ Hpc) as Hc.
      cbn [may_capture] in Hc. lia.
  - injection Hstep as <-. cbn [threads at_pc globals log set_cache].
    pose proof (total_set_nth may_capture
                  (Finished (jsonify (BAllData data) 200)) _ _ _ Hpc) as Hc.
    cbn [may_capture] in Hc. lia.
  - discriminate Hstep.
Qed.

End Progress.

Section ProgressClaims.

Import BQ25790 Monitor Observed Contract.

(** X17.  Requests to [/battery] never block one another for good: in
    every reachable state either all requests have finished or some
    request can take a step.  (The lock is released on both exits of the
    [with] block, so a failed capture does not leave it held.) *)
Theorem battery_requests_never_deadlock :
  forall (hw : Hardware) (g : Service) (n : nat) (sys : Sys),
    reachable hw g n sys ->
    forallb is_finished (threads sys) = true \/
    exists i sys', step hw i sys = Some sys'.
Proof.
  intros hw g n sys Hreach.
  destruct (find_unfinished (threads sys)) as [Hall | (i & pc & Hpc & Hf)];
    [left; exact Hall|].
  right. destruct (bq_lock sys) eqn:Hlk.
  - pose proof (lock_invariant hw g n sys Hreach) as Hinv.
    rewrite Hlk in Hinv. cbn [weight] in Hinv. unfold in_flight in Hinv.
    destruct (find_holder holds_lock (threads sys) ltac:(lia)) as (j & pc' & Hj & Hh).
    destruct (holder_can_step hw sys j pc' Hj Hh) as (sys' & Hstep).
    exists j, sys'. exact Hstep.
  - destruct (free_lock_can_step hw sys i pc Hlk Hpc Hf) as (sys' & Hstep).
    exists i, sys'. exact Hstep.
Qed.

(** Two requests, the second waiting for the lock held by the first: the
    state is reachable and the first can step. *)
Lemma battery_requests_never_deadlock_witness :
  exists sys,
    run Bench.idle_board [0; 1; 0; 0]%nat (arrive startup 2) = Some sys /\
    step Bench.idle_board 1 sys = None /\
    (forallb is_finished (threads sys) = true \/
     exists i sys', step Bench.idle_board i sys = Some sys').
Proof.
  destruct (run Bench.idle_board [0; 1; 0; 0]%nat (arrive startup 2))
    as [sys|] eqn:Hrun; [|vm_compute in Hrun; discriminate Hrun].
  pose proof (battery_requests_never_deadlock _ _ _ _
                (run_reachable _ _ _ _ _ _ (reach_init _ startup 2) Hrun)) as H.
  vm_compute in Hrun. injection Hrun as <-.
  eexists. split; [reflexivity|]. split; [reflexivity|]. exact H.
Defined.

(** X18.  A request to [/battery] finishes within five steps (check,
    acquire, get the instance, capture and release, publish) and nothing
    is retried: a run of any schedule from the arrival of [n] requests
    has at most [5 * n] steps, counting the steps the requests still
    have left. *)
Theorem battery_requests_finish_in_five_steps :
  forall (hw : Hardware) (g : Service) (n : nat) (schedule : list nat) (sys' : Sys),
    run hw schedule (arrive g n) = Some sys' ->
    (List.length schedule + total steps_left (threads sys') <= 5 * n)%nat.
Proof.
  intros hw g n schedule sys' Hrun.
  pose proof (run_uses_steps hw schedule _ _ Hrun) as H.
  unfold arrive in H. cbn [threads] in H. rewrite total_repeat in H.
  cbn [steps_left] in H. exact H.
Qed.

(** Two requests one after the other, the second served from the cache:
    six steps, both finished. *)
Lemma battery_requests_finish_in_five_steps_witness :
  exists sys',
    run Bench.idle_board [0; 0; 0; 0; 0; 1]%nat (arrive startup 2) = Some sys' /\
    forallb is_finished (threads sys') = true /\
    (6 + total steps_left (threads sys') <= 5 * 2)%nat.
Proof.
  destruct (run Bench.idle_board [0; 0; 0; 0; 0; 1]%nat (arrive startup 2))
    as [sys'|] eqn:Hrun; [|vm_compute in Hrun; discriminate Hrun].
  pose proof (battery_requests_finish_in_five_steps _ _ _ _ _ Hrun) as H.
  vm_compute in Hrun. injection Hrun as <-.
  eexists. split; [reflexivity|]. split; [reflexivity|]. exact H.
Defined.

(** X19.  However [n] concurrent requests to [/battery] interleave, each
    makes at most one capture: in every reachable state the number of
    captures made so far plus the number of requests that may still make
    theirs is at most [n] above the count at arrival. *)
Theorem concurrent_captures_at_most_one_each :
  forall (hw : Hardware) (g : Service) (n : nat) (sys : Sys),
    reachable hw g n sys ->
    (captures (log (globals sys)) + total may_capture (threads sys)
     <= captures (log g) + n)%nat /\
    (captures (log (globals sys)) <= captures (log g) + n)%nat.
Proof.
  intros hw g n sys Hreach.
  assert (H : (captures (log (globals sys)) + total may_capture (threads sys)
               <= captures (log g) + n)%nat).
  { induction Hreach as [|sys i sys' Hreach IH Hstep].
    - unfold arrive. cbn [globals threads]. rewrite total_repeat.
      cbn [may_capture]. lia.
    - pose proof (step_captures hw _ _ _ Hstep). lia. }
  split; [exact H | lia].
Qed.

(** Two requests that both found the cache empty and have both finished:
    two captures, no more. *)
Lemma concurrent_captures_at_most_one_each_witness :
  exists sys,
    run Bench.idle_board [0; 1; 0; 0; 0; 0; 1; 1; 1; 1]%nat (arrive startup 2)
    = Some sys /\
    captures (log (globals sys)) = 2%nat /\
    (captures (log (globals sys)) <= captures (log startup) + 2)%nat.
Proof.
  destruct (run Bench.idle_board [0; 1; 0; 0; 0; 0; 1; 1; 1; 1]%nat (arrive startup 2))
    as [sys|] eqn:Hrun; [|vm_compute in Hrun; discriminate Hrun].
  pose proof (concurrent_captures_at_most_one_each _ _ _ _
                (run_reachable _ _ _ _ _ _ (reach_init _ startup 2) Hrun)) as [_ H].
  vm_compute in Hrun. injection Hrun as <-.
  eexists. split; [reflexivity|]. split; [reflexivity|]. exact H.
Defined.

End ProgressClaims.

(* ================================================================= *)
(** ** The snapshot, beyond the claims *)

Section SnapshotReadings.

Import BQ25790 Observed Contract.

(** X20.  In the snapshot of a successful capture the six measured
    fields are the plain decodings of six words read in that capture,
    each in [0, 65535]: battery voltage and current from the first reads
    of VBAT and IBAT, system voltage and temperature from VSYS and TDIE,
    input voltage and current from the first reads of VBUS and IBUS.  The
    rounding applied by [get_all_data] changes none of them, so they
    carry the chip's resolution of 1 mV, 1 mA and 0.5 degrees. *)
Theorem snapshot_readings_are_exact :
  forall (hw : Hardware) (self : BQ25790.t) (log log' : Log) (data : AllData),
    byte_bus hw ->
    get_all_data hw self log = (Ok data, log') ->
    let a := address self in
    let n := List.length log in
    exists v1 c1 vs td vb cb,
      word_at hw a (2 + n) REG_VBAT_ADC = Ok v1 /\
      word_at hw a (4 + n) REG_IBAT_ADC = Ok c1 /\
      word_at hw a (10 + n) REG_VSYS_ADC = Ok vs /\
      word_at hw a (12 + n) REG_TDIE_ADC = Ok td /\
      word_at hw a (14 + n) REG_VBUS_ADC = Ok vb /\
      word_at hw a (16 + n) REG_IBUS_ADC = Ok cb /\
      Forall (fun w => 0 <= w <= 65535) [v1; c1; vs; td; vb; cb] /\
      battery_voltage (battery data) = (PyFloat.of_Z v1 / 1000)%float /\
      battery_current (battery data)
      = (PyFloat.of_Z (if c1 >? 32767 then c1 - 65536 else c1) / 1000)%float /\
      system_voltage (system data) = (PyFloat.of_Z vs / 1000)%float /\
      system_temperature (system data) = (PyFloat.of_Z td * 0.5 - 40)%float /\
      input_voltage (input data) = (PyFloat.of_Z vb / 1000)%float /\
      input_current (input data) = (PyFloat.of_Z cb / 1000)%float.
Proof.
  intros hw self log log' data Hb Hrun. cbv zeta.
  apply get_all_data_ok in Hrun. cbv zeta in Hrun.
  destruct Hrun as (v1 & c1 & v2 & c2 & vs & td & vb & cb & vb2 & cb2
                    & Hv1 & Hc1 & _ & _ & Hvs & Htd & Hvb & Hcb & _ & _
                    & Hbat & Hsys & Hin & _).
  pose proof (word_at_range _ _ _ _ _ Hb Hv1) as R1.
  pose proof (word_at_range _ _ _ _ _ Hb Hc1) as R2.
  pose proof (word_at_range _ _ _ _ _ Hb Hvs) as R3.
  pose proof (word_at_range _ _ _ _ _ Hb Htd) as R4.
  pose proof (word_at_range _ _ _ _ _ Hb Hvb) as R5.
  pose proof (word_at_range _ _ _ _ _ Hb Hcb) as R6.
  exists v1, c1, vs, td, vb, cb.
  repeat (split; [assumption|]).
  split; [repeat constructor; lia|].
  rewrite Hbat, Hsys, Hin.
  cbn [battery_voltage battery_current system_voltage system_temperature
       input_voltage input_current].
  split; [apply (round_volts_fixed v1); lia|].
  split; [apply (round_amps_fixed c1); lia|].
  split; [apply (round_volts_fixed vs); lia|].
  split; [apply (celsius_profile td); lia|].
  split; [apply (round_volts_fixed vb); lia|].
  apply (round_volts_fixed cb); lia.
Qed.

(** A board whose bytes all read 0x10: 4.112 V, 4.112 A, 2016.0
    degrees. *)
Lemma snapshot_readings_are_exact_witness :
  byte_bus (Bench.const_hw 0x10 0%float) /\
  exists data,
    fst (get_all_data (Bench.const_hw 0x10 0%float) Bench.bq0 []) = Ok data /\
    battery_voltage (battery data) = 4.112%float /\
    system_temperature (system data) = 2016%float /\
    input_current (input data) = 4.112%float.
Proof.
  split; [apply const_hw_byte_bus; lia|].
  destruct (get_all_data (Bench.const_hw 0x10 0%float) Bench.bq0 [])
    as [[data|e] log'] eqn:Hrun; [|vm_compute in Hrun; discriminate Hrun].
  destruct (snapshot_readings_are_exact
              (Bench.const_hw 0x10 0%float) Bench.bq0 [] log' data
              (const_hw_byte_bus 0x10 0%float ltac:(lia)) Hrun)
    as (v1 & c1 & vs & td & vb & cb & Hv1 & _ & _ & Htd & _ & Hcb & _
        & Hbv & _ & _ & Hst & _ & Hic).
  cbn in Hv1, Htd, Hcb. injection Hv1 as <-. injection Htd as <-. injection Hcb as <-.
  exists data. split; [reflexivity|].
  rewrite Hbv, Hst, Hic. repeat split; vm_compute; reflexivity.
Defined.

End SnapshotReadings.
